(** * SkyPortal annotation handlers: classifications, comments, statistics

    A shallow embedding of
      - [skyportal/handlers/api/classification.py]
      - [skyportal/handlers/api/comment.py]
      - [skyportal/handlers/api/db_stats.py]
    Request handlers are programs in a small state-and-exit monad over the
    request's database session; tables are finite maps keyed by primary key.
    Python [str] values are strings over the code points U+0000..U+00FF. *)

From Stdlib Require Import ZArith QArith List String Ascii Bool Lia.
From Stdlib Require Import DecimalString DecimalPos.
From stdpp Require Import base option list gmap sets strings.

Local Open Scope string_scope.
Local Open Scope Z_scope.

(** ** Python exceptions that escape a handler *)

Inductive exn :=
| AttributeError | TypeError | ValueError | IndexError | UnboundLocalError
| IntegrityError | DataError | ParserError | BinasciiError | UnicodeDecodeError
| ProgrammingError.

(** ** Messages on the real-time channel *)

Inductive pval := PStr (s : string) | PInt (z : Z).

Inductive push :=
| PushAll (action : string) (payload : list (string * pval))
| FlowPush (user_id : Z) (action : string).

(** ** The handler monad

    [committed] is the store as other requests see it, [pending] the state
    of this request's session.  [self.Session()] starts from the committed
    store and drops whatever is pending when the block is left;
    [session.commit()] publishes the pending state. *)

Section HandlerMonad.
Context {DB R : Type}.

Record world := World {
  committed : DB;
  pending : DB;
  pushed : list push;
  out_headers : list (string * string);
  out_body : list string
}.

Inductive result (A : Type) :=
| Continue (a : A)
| Return (r : R)
| Raise (e : exn).
Global Arguments Continue {A} a.
Global Arguments Return {A} r.
Global Arguments Raise {A} e.

Definition M (A : Type) : Type := world → result A * world.

Definition pure {A} (a : A) : M A := λ w, (Continue a, w).

Definition bind {A B} (m : M A) (k : A → M B) : M B :=
  λ w, match m w with
       | (Continue a, w') => k a w'
       | (Return r, w') => (Return r, w')
       | (Raise e, w') => (Raise e, w')
       end.

Definition reply {A} (r : R) : M A := λ w, (Return r, w).
Definition raise {A} (e : exn) : M A := λ w, (Raise e, w).

Definition session_get : M DB := λ w, (Continue (pending w), w).
Definition session_set (d : DB) : M unit :=
  λ w, (Continue (), World (committed w) d (pushed w) (out_headers w) (out_body w)).
Definition session_commit : M unit :=
  λ w, (Continue (), World (pending w) (pending w) (pushed w) (out_headers w) (out_body w)).

Definition with_session {A} (body : M A) : M A :=
  λ w, let w0 := World (committed w) (committed w) (pushed w) (out_headers w) (out_body w) in
       let '(r, w1) := body w0 in
       (r, World (committed w1) (committed w1) (pushed w1) (out_headers w1) (out_body w1)).

Definition push_all (action : string) (payload : list (string * pval)) : M unit :=
  λ w, (Continue (),
        World (committed w) (pending w) (pushed w ++ [PushAll action payload])
              (out_headers w) (out_body w)).
Definition flow_push (user_id : Z) (action : string) : M unit :=
  λ w, (Continue (),
        World (committed w) (pending w) (pushed w ++ [FlowPush user_id action])
              (out_headers w) (out_body w)).
Definition set_header (name value : string) : M unit :=
  λ w, (Continue (),
        World (committed w) (pending w) (pushed w)
              (out_headers w ++ [(name, value)]) (out_body w)).
Definition write (chunk : string) : M unit :=
  λ w, (Continue (),
        World (committed w) (pending w) (pushed w)
              (out_headers w) (out_body w ++ [chunk])).

(** What a finished request leaves behind: how the method ended, the
    store, the messages pushed, and the raw output written. *)
Inductive ending :=
| Returned (r : R)
| Fell_through
| Raised (e : exn).

Record outcome := Outcome {
  ended : ending;
  store : DB;
  pushes : list push;
  headers : list (string * string);
  body : list string
}.

Definition run (h : M unit) (d : DB) : outcome :=
  let '(r, w) := h (World d d [] [] []) in
  Outcome (match r with
           | Continue _ => Fell_through
           | Return r => Returned r
           | Raise e => Raised e
           end)
          (committed w) (pushed w) (out_headers w) (out_body w).
End HandlerMonad.

Global Arguments world : clear implicits.
Global Arguments M : clear implicits.
Global Arguments outcome : clear implicits.
Global Arguments ending : clear implicits.

Global Instance M_ret {DB R} : MRet (M DB R) := λ A, @pure DB R A.
Global Instance M_bind {DB R} : MBind (M DB R) := λ A B k m, @bind DB R A B m k.

(** The JSON envelope of [self.success] and [self.error]. *)
Inductive response (D : Type) :=
| Success (data : D)
| Error (status : Z) (message : string).
Global Arguments Success {D} data.
Global Arguments Error {D} status message.

(** [self.error(msg)] answers with status 400 unless told otherwise. *)
Definition error {DB D A} (message : string) : M DB (response D) A :=
  reply (Error 400 message).
Definition error_status {DB D A} (message : string) (status : Z) : M DB (response D) A :=
  reply (Error status message).
Definition success {DB D A} (data : D) : M DB (response D) A :=
  reply (Success data).

Definition when {DB R} (b : bool) (m : M DB R unit) : M DB R unit :=
  if b then m else mret ().

Definition unwrap {DB R A} (o : option A) (otherwise : M DB R A) : M DB R A :=
  match o with
  | Some a => mret a
  | None => otherwise
  end.

(** ** Python values and built-ins used by the handlers *)

(** The values a query argument or its default can be. *)
Inductive pyval :=
| PyNone
| PyBool (b : bool)
| PyInt (z : Z)
| PyStr (s : string).

(** [get_query_argument(name, default)] with a default that is a number
    or [None]: the text of the argument when the request carries it, the
    default when it does not. *)
Definition get_query_argument (query : gmap string string) (name : string)
  (default : pyval) : pyval :=
  match query !! name with
  | Some v => PyStr v
  | None => default
  end.

(** Modelled from the spec: [get_query_argument] is inherited from the base
    handler, which is not among the sources.  Where the default is a
    boolean the spec takes the argument as a boolean (the attachment is
    sent raw "when download is true (the default)", as JSON "when download
    is false"): the default stands when the request does not carry the
    argument, and [as_bool] is the base handler's reading of the text of a
    present one, a parameter of the handlers that use it. *)
Definition get_query_argument_bool (as_bool : string → bool)
  (query : gmap string string) (name : string) (default : bool) : bool :=
  match query !! name with
  | Some v => as_bool v
  | None => default
  end.

(** Truth value of an object in an [if]. *)
Definition truthy (v : pyval) : bool :=
  match v with
  | PyNone => false
  | PyBool b => b
  | PyInt z => negb (z =? 0)
  | PyStr s => negb (String.eqb s EmptyString)
  end.

Definition code (c : ascii) : Z := Z.of_N (N_of_ascii c).

(** [str.isspace] on one character (code points below 256). *)
Definition isspace (c : ascii) : bool :=
  let n := code c in
  ((9 <=? n) && (n <=? 13)) || ((28 <=? n) && (n <=? 32))
  || (n =? 133) || (n =? 160).

Fixpoint lstrip (p : ascii → bool) (s : string) : string :=
  match s with
  | EmptyString => EmptyString
  | String c s' => if p c then lstrip p s' else s
  end.

Fixpoint rstrip (p : ascii → bool) (s : string) : string :=
  match s with
  | EmptyString => EmptyString
  | String c s' =>
      match rstrip p s' with
      | EmptyString => if p c then EmptyString else String c EmptyString
      | r => String c r
      end
  end.

(** [s.strip(chars)], with [chars] given as a membership test. *)
Definition strip (p : ascii → bool) (s : string) : string :=
  rstrip p (lstrip p s).

(** [str.lower] (code points below 256). *)
Definition lower_char (c : ascii) : ascii :=
  let n := code c in
  if ((65 <=? n) && (n <=? 90))
     || ((192 <=? n) && (n <=? 222) && negb (n =? 215))
  then ascii_of_N (Z.to_N (n + 32)) else c.

Fixpoint lower (s : string) : string :=
  match s with
  | EmptyString => EmptyString
  | String c s' => String (lower_char c) (lower s')
  end.

(** [str(n)] for an int. *)
Definition str (n : Z) : string := NilEmpty.string_of_int (Z.to_int n).

(** [str(l)] for a list of ints, as an f-string renders it. *)
Fixpoint join_ints (l : list Z) : string :=
  match l with
  | [] => EmptyString
  | [n] => str n
  | n :: l' => str n ++ ", " ++ join_ints l'
  end.
Definition str_list (l : list Z) : string := "[" ++ join_ints l ++ "]".

Definition digit_of (c : ascii) : option Z :=
  let n := code c in
  if (48 <=? n) && (n <=? 57) then Some (n - 48) else None.

(** Digits of an int literal; a single underscore may sit between two
    digits. *)
Fixpoint int_digits (acc : Z) (after_digit : bool) (s : string) : option Z :=
  match s with
  | EmptyString => if after_digit then Some acc else None
  | String c s' =>
      match digit_of c with
      | Some d => int_digits (10 * acc + d) true s'
      | None =>
          if Ascii.eqb c "_" && after_digit then int_digits acc false s' else None
      end
  end.

(** [int(s)] for a str, base 10: surrounding whitespace, an optional sign,
    then digits.  [None] stands for ValueError. *)
Definition int_of_str (s : string) : option Z :=
  match strip isspace s with
  | String "-" d => Z.opp <$> int_digits 0 false d
  | String "+" d => int_digits 0 false d
  | d => int_digits 0 false d
  end.

(** [int(v)] as the handlers call it on a query argument or its default. *)
Definition int_ {DB R} (v : pyval) : M DB R Z :=
  match v with
  | PyInt z => mret z
  | PyBool b => mret (if b then 1 else 0)
  | PyStr s => unwrap (int_of_str s) (raise ValueError)
  | PyNone => raise TypeError
  end.

(** [v - n] for an int [n]: defined on numbers only. *)
Definition sub_int {DB R} (v : pyval) (n : Z) : M DB R Z :=
  match v with
  | PyInt z => mret (z - n)
  | PyBool b => mret ((if b then 1 else 0) - n)
  | PyStr _ | PyNone => raise TypeError
  end.

(** ** Row-level access modes of [Model.select(user, mode=...)] *)

Inductive mode := Read | Update | Delete.

(** ** Taxonomies and classifications ([classification.py]) *)

Local Set Warnings "-register-all".

(** A node of [Taxonomy.hierarchy]: a JSON object whose keys [class] and
    [subclasses] may each be present or not. *)
Inductive hierarchy :=
| Node (class : option string) (subclasses : option (list hierarchy)).

(** The generator [allowed_classes] local to [ClassificationHandler.post],
    as the sequence it yields. *)
Fixpoint allowed_classes (h : hierarchy) : list string :=
  match h with
  | Node class subclasses =>
      (match class with
       | Some label => [label]
       | None => []
       end ++
       match subclasses with
       | Some items =>
           (fix each (items : list hierarchy) : list string :=
              match items with
              | [] => []
              | item :: rest => allowed_classes item ++ each rest
              end) items
       | None => []
       end)%list
  end.

(** [x in generator]: compare with what is yielded, in order. *)
Fixpoint py_in (x : string) (yielded : list string) : bool :=
  match yielded with
  | [] => false
  | y :: rest => if String.eqb x y then true else py_in x rest
  end.

(** A label occurs in a hierarchy at a given depth (the root is depth 1). *)
Inductive occurs_at (label : string) : nat → hierarchy → Prop :=
| occurs_root subclasses :
    occurs_at label 1 (Node (Some label) subclasses)
| occurs_child d class items item :
    In item items → occurs_at label d item →
    occurs_at label (S d) (Node class (Some items)).

Definition occurs (label : string) (h : hierarchy) : Prop :=
  ∃ d, occurs_at label d h.

Module Classification.
Record t := Build {
  classification : string;
  obj_id : string;
  probability : option Q;
  taxonomy_id : Z;
  author_id : Z;
  author_name : string;
  groups : list Z;
  created_at : Z
}.
End Classification.

Module ClassificationHandler.

Definition DEFAULT_CLASSIFICATIONS_PER_PAGE : Z := 100.
Definition MAX_CLASSIFICATIONS_PER_PAGE : Z := 500.

(** The tables the handler touches.  [objs] maps an object id to its
    [internal_key]; [classification_seq] is the next primary key. *)
Record db := Db {
  groups : list Z;
  objs : gmap string string;
  taxonomies : gmap Z hierarchy;
  classifications : gmap Z Classification.t;
  classification_seq : Z
}.

(** The caller and what the access layer grants them. *)
Record principal := Principal {
  user_id : Z;
  username : string;
  accessible_groups : list Z;
  group_readable : Z → bool;
  taxonomy_readable : Z → bool;
  classification_accessible : mode → Z → Classification.t → bool
}.

Module PostData.
Record t := Build {
  obj_id : string;
  classification : string;
  taxonomy_id : Z;
  probability : option Q;
  group_ids : option (list Z)
}.
End PostData.

(** The body of a PUT: the fields it carries, each set on the row by
    [setattr]; an explicit JSON null for the probability is [Some None]. *)
Module PutData.
Record t := Build {
  classification : option string;
  obj_id : option string;
  taxonomy_id : option Z;
  probability : option (option Q);
  group_ids : option (list Z)
}.
End PutData.

Inductive data :=
| Single (c : Classification.t)
| Page (classifications : list Classification.t) (totalMatches : Z)
| ClassificationId (classification_id : Z)
| NoData.

Definition H := M db (response data).

Section Handlers.
Variable current_user : principal.
(** [arrow.get(s).datetime] as a timestamp; [None] when it cannot parse. *)
Variable arrow_get : string → option Z.
(** How Python prints the probability inside the error message. *)
Variable str_number : Q → string.
(** [schema.load(data, partial=True)]: the normalized messages of the
    ValidationError, if it raises one. *)
Variable schema_load : PutData.t → option string.
(** Default of [created_at] when a row is inserted. *)
Variable utcnow : Z.

(** [Group.select(current_user).where(Group.id.in_(group_ids))], ids only. *)
Definition select_groups (s : db) (group_ids : list Z) : list Z :=
  filter (λ g, group_readable current_user g = true ∧ g ∈ group_ids) (groups s).

Definition select_taxonomy (s : db) (taxonomy_id : Z) : option hierarchy :=
  if taxonomy_readable current_user taxonomy_id
  then taxonomies s !! taxonomy_id else None.

Definition select_classification (m : mode) (s : db) (id : Z)
  : option Classification.t :=
  c ← classifications s !! id;
  if classification_accessible current_user m id c then Some c else None.

(** [{g.id for g in groups} != set(group_ids)] *)
Definition groups_differ (resolved requested : list Z) : bool :=
  bool_decide ((list_to_set resolved : gset Z) ≠ list_to_set requested).

Definition number_lt (a b : Q) : bool := negb (Qle_bool b a).

(** [session.add(classification)]: the row gets the next key; the foreign
    key to the object is checked when the session is flushed. *)
Definition session_add (c : Classification.t) : H Z :=
  s ← session_get;
  match objs s !! Classification.obj_id c with
  | None => raise IntegrityError
  | Some _ =>
      let id := classification_seq s in
      session_set (Db (groups s) (objs s) (taxonomies s)
                      (<[id := c]> (classifications s)) (id + 1));;
      mret id
  end.

Definition internal_key (obj_id : string) : H string :=
  s ← session_get;
  unwrap (objs s !! obj_id) (raise AttributeError).

Definition refresh (obj_key : string) : H unit :=
  push_all "skyportal/REFRESH_SOURCE" [("obj_key", PStr obj_key)];;
  push_all "skyportal/REFRESH_CANDIDATE" [("id", PStr obj_key)].

Definition post (data : PostData.t) : H unit :=
  let obj_id := PostData.obj_id data in
  with_session (
    let user_group_ids := accessible_groups current_user in
    let group_ids := default user_group_ids (PostData.group_ids data) in
    let taxonomy_id := PostData.taxonomy_id data in
    s ← session_get;
    taxonomy ← unwrap (select_taxonomy s taxonomy_id)
      (error ("Cannot find a taxonomy with ID: " ++ str taxonomy_id ++ "."));
    when (negb (py_in (PostData.classification data) (allowed_classes taxonomy)))
      (error ("That classification (" ++ PostData.classification data ++ ") "
              ++ "is not in the allowed classes for the chosen "
              ++ "taxonomy (id=" ++ str taxonomy_id));;
    let probability := PostData.probability data in
    match probability with
    | Some p =>
        when (number_lt p 0 || number_lt 1 p)
          (error ("That probability (" ++ str_number p ++ ") is outside "
                  ++ "the allowable range (0-1)."))
    | None => mret ()
    end;;
    let groups := select_groups s group_ids in
    when (groups_differ groups group_ids)
      (error ("Cannot find one or more groups with IDs: " ++ str_list group_ids ++ "."));;
    let classification :=
      Classification.Build (PostData.classification data) obj_id probability
        taxonomy_id (user_id current_user) (username current_user) groups utcnow in
    id ← session_add classification;
    session_commit;;
    obj_key ← internal_key obj_id;
    refresh obj_key;;
    success (ClassificationId id)).

(** [arrow.get(v.strip()).datetime] for a bound that is given. *)
Definition date_bound (v : pyval) : H (option Z) :=
  if truthy v then
    match v with
    | PyStr d =>
        t ← unwrap (arrow_get (strip isspace d)) (raise ParserError);
        mret (Some t)
    | _ => raise AttributeError
    end
  else mret None.

(** [stmt.limit(n).offset(k)] run by the database, which refuses a
    negative row count. *)
Definition limit_offset {A} (n k : Z) (rows : list A) : H (list A) :=
  if (n <? 0) || (k <? 0) then raise DataError
  else mret (take (Z.to_nat n) (drop (Z.to_nat k) rows)).

Definition get (query : gmap string string) (classification_id : option string)
  : H unit :=
  let page_number := get_query_argument query "pageNumber" (PyInt 1) in
  n ← int_ (get_query_argument query "numPerPage"
              (PyInt DEFAULT_CLASSIFICATIONS_PER_PAGE));
  let n_per_page := Z.min n MAX_CLASSIFICATIONS_PER_PAGE in
  let start_date := get_query_argument query "startDate" PyNone in
  let end_date := get_query_argument query "endDate" PyNone in
  with_session (
    s ← session_get;
    match classification_id with
    | Some classification_id =>
        id ← unwrap (int_of_str classification_id) (raise DataError);
        classification ← unwrap (select_classification Read s id)
          (error ("Cannot find classification with ID: " ++ classification_id ++ "."));
        success (Single classification)
    | None =>
        let classifications :=
          filter (λ r, classification_accessible current_user Read r.1 r.2 = true)
                 (map_to_list (classifications s)) in
        start_date ← date_bound start_date;
        let classifications :=
          match start_date with
          | Some t => filter (λ r, t ≤ Classification.created_at r.2) classifications
          | None => classifications
          end in
        end_date ← date_bound end_date;
        let classifications :=
          match end_date with
          | Some t => filter (λ r, Classification.created_at r.2 ≤ t) classifications
          | None => classifications
          end in
        let total_matches := Z.of_nat (length classifications) in
        k ← sub_int page_number 1;
        classifications ← limit_offset n_per_page (k * n_per_page) classifications;
        success (Page classifications.*2 total_matches)
    end).

(** [for k in data: setattr(c, k, data[k])] *)
Definition setattrs (c : Classification.t) (data : PutData.t) : Classification.t :=
  Classification.Build
    (default (Classification.classification c) (PutData.classification data))
    (default (Classification.obj_id c) (PutData.obj_id data))
    (default (Classification.probability c) (PutData.probability data))
    (default (Classification.taxonomy_id c) (PutData.taxonomy_id data))
    (Classification.author_id c) (Classification.author_name c)
    (Classification.groups c) (Classification.created_at c).

Definition set_groups (c : Classification.t) (groups : list Z) : Classification.t :=
  Classification.Build
    (Classification.classification c) (Classification.obj_id c)
    (Classification.probability c) (Classification.taxonomy_id c)
    (Classification.author_id c) (Classification.author_name c)
    groups (Classification.created_at c).

(** Writing a changed row back; the flush checks its foreign keys. *)
Definition session_update (id : Z) (c : Classification.t) : H unit :=
  s ← session_get;
  if bool_decide (is_Some (objs s !! Classification.obj_id c)
                  ∧ is_Some (taxonomies s !! Classification.taxonomy_id c))
  then session_set (Db (groups s) (objs s) (taxonomies s)
                       (<[id := c]> (classifications s)) (classification_seq s))
  else raise IntegrityError.

Definition session_delete (id : Z) : H unit :=
  s ← session_get;
  session_set (Db (groups s) (objs s) (taxonomies s)
                  (delete id (classifications s)) (classification_seq s)).

Definition put (classification_id : string) (data : PutData.t) : H unit :=
  with_session (
    s ← session_get;
    id ← unwrap (int_of_str classification_id) (raise DataError);
    c ← unwrap (select_classification Update s id)
      (error ("Cannot find a classification with ID: " ++ classification_id ++ "."));
    let group_ids := PutData.group_ids data in
    (** [data.pop("group_ids", None)]: the schema sees what is left *)
    let data :=
      PutData.Build (PutData.classification data) (PutData.obj_id data)
        (PutData.taxonomy_id data) (PutData.probability data) None in
    match schema_load data with
    | Some messages => error ("Invalid/missing parameters: " ++ messages)
    | None => mret ()
    end;;
    let c := setattrs c data in
    c ← match group_ids with
        | Some group_ids =>
            let groups := select_groups s group_ids in
            when (groups_differ groups group_ids)
              (error ("Cannot find one or more groups with IDs: "
                      ++ str_list group_ids ++ "."));;
            mret (set_groups c groups)
        | None => mret c
        end;
    session_update id c;;
    session_commit;;
    obj_key ← internal_key (Classification.obj_id c);
    refresh obj_key;;
    success NoData).

Definition delete (classification_id : string) : H unit :=
  with_session (
    s ← session_get;
    id ← unwrap (int_of_str classification_id) (raise DataError);
    c ← unwrap (select_classification Delete s id)
      (error ("Cannot find a classification with ID: " ++ classification_id ++ "."));
    obj_key ← internal_key (Classification.obj_id c);
    session_delete id;;
    session_commit;;
    refresh obj_key;;
    success NoData).
End Handlers.
End ClassificationHandler.

(** ** Classifications of an object, and objects with classifications *)

Module ObjClassificationHandler.
Import ClassificationHandler.

Definition get (current_user : principal) (obj_id : string) : H unit :=
  with_session (
    s ← session_get;
    let classifications :=
      filter (λ r, classification_accessible current_user Read r.1 r.2 = true
                   ∧ Classification.obj_id r.2 = obj_id)
             (map_to_list (classifications s)) in
    success (Page classifications.*2 (Z.of_nat (length classifications)))).
End ObjClassificationHandler.

Module ObjClassificationQueryHandler.
Import ClassificationHandler.

Inductive data := ObjIds (obj_ids : list string).

Section Handlers.
Variable current_user : principal.
Variable arrow_get : string → option Z.

Definition date_bound (v : pyval) : M db (response data) (option Z) :=
  if truthy v then
    match v with
    | PyStr d =>
        t ← unwrap (arrow_get (strip isspace d)) (raise ParserError);
        mret (Some t)
    | _ => raise AttributeError
    end
  else mret None.

Definition get (query : gmap string string) : M db (response data) unit :=
  let start_date := get_query_argument query "startDate" PyNone in
  let end_date := get_query_argument query "endDate" PyNone in
  with_session (
    s ← session_get;
    let classifications :=
      filter (λ r, classification_accessible current_user Read r.1 r.2 = true)
             (map_to_list (classifications s)) in
    start_date ← date_bound start_date;
    let classifications :=
      match start_date with
      | Some t => filter (λ r, t ≤ Classification.created_at r.2) classifications
      | None => classifications
      end in
    end_date ← date_bound end_date;
    let classifications :=
      match end_date with
      | Some t => filter (λ r, Classification.created_at r.2 ≤ t) classifications
      | None => classifications
      end in
    (** the join with [Obj] keeps the rows whose object exists *)
    let obj_ids : list string :=
      map (λ r : Z * Classification.t, Classification.obj_id r.2) classifications in
    let joined : list string := filter (λ o : string, is_Some (objs s !! o)) obj_ids in
    success (ObjIds (remove_dups joined))).
End Handlers.
End ObjClassificationQueryHandler.

(** ** Mentions ([users_mentioned] in [comment.py]) *)

(** [string.punctuation]: the 32 ASCII punctuation characters. *)
Definition string_punctuation : string :=
  "!" ++ String (ascii_of_nat 34) "#$%&'()*+,-./:;<=>?@[\]^_`{|}~".

(** [s.replace(old, new)] for a one-character [old]. *)
Fixpoint replace (old : ascii) (new : string) (s : string) : string :=
  match s with
  | EmptyString => EmptyString
  | String c s' =>
      if Ascii.eqb c old then new ++ replace old new s'
      else String c (replace old new s')
  end.

(** [c in chars] *)
Fixpoint char_in (c : ascii) (chars : string) : bool :=
  match chars with
  | EmptyString => false
  | String x rest => Ascii.eqb c x || char_in c rest
  end.

(** [s.split()]: the scan of the text, [word] being the run of
    non-whitespace characters read so far, if one has started. *)
Fixpoint split_scan (word : option string) (s : string) : list string :=
  match s with
  | EmptyString =>
      match word with
      | Some w => [w]
      | None => []
      end
  | String c s' =>
      if isspace c then
        match word with
        | Some w => w :: split_scan None s'
        | None => split_scan None s'
        end
      else
        split_scan (Some (match word with
                          | Some w => w ++ String c EmptyString
                          | None => String c EmptyString
                          end)) s'
  end.

Definition split (s : string) : list string := split_scan None s.

(** [word.startswith(p)] *)
Definition startswith (p word : string) : bool := String.prefix p word.

(** The loop of [users_mentioned]: the list [usernames] once every word
    has been looked at. *)
Definition mentioned_usernames (text : string) : list string :=
  let punctuation :=
    replace "@" EmptyString (replace "-" EmptyString string_punctuation) in
  fold_left
    (λ usernames word,
       let word := strip (λ c, char_in c punctuation) word in
       if startswith "@" word
       then (usernames ++ [replace "@" EmptyString word])%list
       else usernames)
    (split (replace "," " " text))
    [].

Module User.
Record t := Build {
  id : Z;
  username : string;
  (** [preferences.notifications.mention.active] is stored and true *)
  mention_active : bool
}.
End User.

(** [users_mentioned(text, session)] over the users the session may read.
    A text that is not a str has no [replace]. *)
Definition users_mentioned {DB R} (readable_users : list User.t)
  (text : option string) : M DB R (list User.t) :=
  match text with
  | None => raise AttributeError
  | Some text =>
      let usernames := mentioned_usernames text in
      mret (filter (λ u, User.username u ∈ usernames ∧ User.mention_active u = true)
                   readable_users)
  end.

(** ** Comments ([comment.py]) *)

(** [s.split(sep)] read left to right: [skip] characters of a separator
    just found are still to be passed over, [piece] is the piece being
    read. *)
Fixpoint split_on (sep : string) (skip : nat) (piece : string) (s : string)
  : list string :=
  match s with
  | EmptyString => [piece]
  | String c s' =>
      match skip with
      | S k => split_on sep k piece s'
      | O =>
          if String.prefix sep s
          then piece :: split_on sep (String.length sep - 1) EmptyString s'
          else split_on sep 0 (piece ++ String c EmptyString) s'
      end
  end.

(** [s.split('base64,')[-1]] *)
Definition after_base64_prefix (s : string) : string :=
  List.last (split_on "base64," 0 EmptyString s) EmptyString.

(** [str.encode(s)]: UTF-8, for code points below 256. *)
Fixpoint encode (s : string) : string :=
  match s with
  | EmptyString => EmptyString
  | String c s' =>
      let n := code c in
      if n <? 128 then String c (encode s')
      else String (ascii_of_N (Z.to_N (192 + n / 64)))
             (String (ascii_of_N (Z.to_N (128 + n mod 64))) (encode s'))
  end.

(** The common columns of the four comment tables. *)
Module Columns.
Record t := Build {
  text : option string;
  attachment_name : option string;
  attachment_bytes : option string;
  author_id : Z;
  groups : list Z;
  bot : bool
}.
End Columns.

(** A loaded comment: an instance of one of the four mapped classes, with
    the foreign keys its class has. *)
Inductive comment :=
| Comment (columns : Columns.t) (obj_id : string)
| CommentOnSpectrum (columns : Columns.t) (spectrum_id : Z) (obj_id : string)
| CommentOnGCN (columns : Columns.t) (gcn_id : Z)
| CommentOnShift (columns : Columns.t) (shift_id : Z).

Definition columns (c : comment) : Columns.t :=
  match c with
  | Comment f _ | CommentOnSpectrum f _ _ | CommentOnGCN f _ | CommentOnShift f _ => f
  end.

Definition set_columns (c : comment) (f : Columns.t) : comment :=
  match c with
  | Comment _ o => Comment f o
  | CommentOnSpectrum _ s o => CommentOnSpectrum f s o
  | CommentOnGCN _ g => CommentOnGCN f g
  | CommentOnShift _ s => CommentOnShift f s
  end.

(** Modelled from the spec: the mapped classes are declared in
    [skyportal/models], outside this excerpt.  Comments on objects and on
    spectra resolve to an owning object ([obj]); comments on GCN events and
    on shifts have no such attribute, which is also what [delete] below
    relies on when it binds [obj_key]. *)
Definition obj_of (c : comment) : option string :=
  match c with
  | Comment _ obj_id | CommentOnSpectrum _ _ obj_id => Some obj_id
  | CommentOnGCN _ _ | CommentOnShift _ _ => None
  end.

(** [hasattr(c, 'obj')] *)
Definition hasattr_obj (c : comment) : bool :=
  match obj_of c with
  | Some _ => true
  | None => false
  end.

(** The resource kinds an [associated_resource_type] can name. *)
Inductive kind := Sources | Spectra | GcnEvent | Shift.

Definition resource_kind (associated_resource_type : string) : option kind :=
  let t := lower associated_resource_type in
  if String.eqb t "sources" then Some Sources
  else if String.eqb t "spectra" then Some Spectra
  else if String.eqb t "gcn_event" then Some GcnEvent
  else if String.eqb t "shift" then Some Shift
  else None.

Module UserNotification.
Record t := Build {
  user : Z;
  text : string;
  notification_type : string;
  url : string
}.
End UserNotification.

(** A table with a serial primary key. *)
Record table (A : Type) := Table {
  rows : gmap Z A;
  next_id : Z
}.
Arguments Table {A} rows next_id.
Arguments rows {A} t.
Arguments next_id {A} t.

Definition insert_row {A} (a : A) (t : table A) : table A :=
  Table (<[next_id t := a]> (rows t)) (next_id t + 1).

Module CommentHandler.

(** The tables the comment handlers touch: [objs] maps an object id to its
    [internal_key], [spectra] a spectrum id to its [obj_id], [gcn_events]
    an event id to its [dateobs]. *)
Record db := Db {
  groups : list Z;
  objs : gmap string string;
  spectra : gmap Z string;
  gcn_events : gmap Z string;
  shifts : list Z;
  users : list User.t;
  notifications : list UserNotification.t;
  comments : table (Columns.t * string);
  comments_on_spectra : table (Columns.t * (Z * string));
  comments_on_gcns : table (Columns.t * Z);
  comments_on_shifts : table (Columns.t * Z)
}.

Record principal := Principal {
  (** [isinstance(self.current_user, Token)] *)
  is_token : bool;
  (** [self.associated_user_object] *)
  user_id : Z;
  username : string;
  accessible_groups : list Z;
  group_readable : Z → bool;
  spectrum_readable : Z → bool;
  gcn_event_readable : Z → bool;
  shift_accessible : Z → bool;
  user_readable : User.t → bool;
  comment_accessible : mode → kind → Z → Columns.t → bool
}.

(** A JSON string or null. *)
Definition nullable := option string.

(** The [attachment] member of a POST body. *)
Inductive attachment :=
| NotADict
| Dict (body : option nullable) (name : option nullable).

Module PostData.
Record t := Build {
  text : option string;
  group_ids : option (list Z);
  attachment : option attachment
}.
End PostData.

(** The body of a PUT; a member that is absent is [None], one that is
    present with a JSON null is [Some None]. *)
Module PutData.
Record t := Build {
  text : option nullable;
  attachment_name : option nullable;
  attachment_bytes : option nullable;
  group_ids : option (list Z)
}.
End PutData.

Inductive data :=
| Comments (comments : list comment)
| SingleComment (c : comment)
| CommentId (comment_id : Z)
| AttachmentText (commentId : Z) (attachment : string)
| NoData.

Definition H := M db (response data).

Definition set_notifications (s : db) (n : list UserNotification.t) : db :=
  Db (groups s) (objs s) (spectra s) (gcn_events s) (shifts s) (users s) n
     (comments s) (comments_on_spectra s) (comments_on_gcns s) (comments_on_shifts s).

Definition set_comments (s : db) (t : table (Columns.t * string)) : db :=
  Db (groups s) (objs s) (spectra s) (gcn_events s) (shifts s) (users s)
     (notifications s) t (comments_on_spectra s) (comments_on_gcns s)
     (comments_on_shifts s).

Definition set_comments_on_spectra (s : db) (t : table (Columns.t * (Z * string))) : db :=
  Db (groups s) (objs s) (spectra s) (gcn_events s) (shifts s) (users s)
     (notifications s) (comments s) t (comments_on_gcns s) (comments_on_shifts s).

Definition set_comments_on_gcns (s : db) (t : table (Columns.t * Z)) : db :=
  Db (groups s) (objs s) (spectra s) (gcn_events s) (shifts s) (users s)
     (notifications s) (comments s) (comments_on_spectra s) t (comments_on_shifts s).

Definition set_comments_on_shifts (s : db) (t : table (Columns.t * Z)) : db :=
  Db (groups s) (objs s) (spectra s) (gcn_events s) (shifts s) (users s)
     (notifications s) (comments s) (comments_on_spectra s) (comments_on_gcns s) t.

(** The row with a given key in the table of a kind, as an instance of the
    kind's class. *)
Definition lookup_comment (s : db) (k : kind) (id : Z) : option comment :=
  match k with
  | Sources => (λ r, Comment r.1 r.2) <$> rows (comments s) !! id
  | Spectra =>
      (λ r, CommentOnSpectrum r.1 r.2.1 r.2.2) <$> rows (comments_on_spectra s) !! id
  | GcnEvent => (λ r, CommentOnGCN r.1 r.2) <$> rows (comments_on_gcns s) !! id
  | Shift => (λ r, CommentOnShift r.1 r.2) <$> rows (comments_on_shifts s) !! id
  end.

(** Every row of the table of a kind, with its key. *)
Definition all_comments (s : db) (k : kind) : list (Z * comment) :=
  match k with
  | Sources => prod_map id (λ r, Comment r.1 r.2) <$> map_to_list (rows (comments s))
  | Spectra =>
      prod_map id (λ r, CommentOnSpectrum r.1 r.2.1 r.2.2)
        <$> map_to_list (rows (comments_on_spectra s))
  | GcnEvent =>
      prod_map id (λ r, CommentOnGCN r.1 r.2) <$> map_to_list (rows (comments_on_gcns s))
  | Shift =>
      prod_map id (λ r, CommentOnShift r.1 r.2) <$> map_to_list (rows (comments_on_shifts s))
  end.

(** Writing an instance back under its key, into the table of its class. *)
Definition store_comment (s : db) (id : Z) (c : comment) : db :=
  match c with
  | Comment f o =>
      set_comments s (Table (<[id := (f, o)]> (rows (comments s))) (next_id (comments s)))
  | CommentOnSpectrum f sp o =>
      set_comments_on_spectra s
        (Table (<[id := (f, (sp, o))]> (rows (comments_on_spectra s)))
               (next_id (comments_on_spectra s)))
  | CommentOnGCN f g =>
      set_comments_on_gcns s
        (Table (<[id := (f, g)]> (rows (comments_on_gcns s)))
               (next_id (comments_on_gcns s)))
  | CommentOnShift f sh =>
      set_comments_on_shifts s
        (Table (<[id := (f, sh)]> (rows (comments_on_shifts s)))
               (next_id (comments_on_shifts s)))
  end.

Definition remove_comment (s : db) (id : Z) (c : comment) : db :=
  match c with
  | Comment _ _ =>
      set_comments s (Table (delete id (rows (comments s))) (next_id (comments s)))
  | CommentOnSpectrum _ _ _ =>
      set_comments_on_spectra s
        (Table (delete id (rows (comments_on_spectra s)))
               (next_id (comments_on_spectra s)))
  | CommentOnGCN _ _ =>
      set_comments_on_gcns s
        (Table (delete id (rows (comments_on_gcns s))) (next_id (comments_on_gcns s)))
  | CommentOnShift _ _ =>
      set_comments_on_shifts s
        (Table (delete id (rows (comments_on_shifts s)))
               (next_id (comments_on_shifts s)))
  end.

(** Adding a new instance: the key it will have, and the session after. *)
Definition add_comment (s : db) (c : comment) : Z * db :=
  match c with
  | Comment f o => (next_id (comments s), set_comments s (insert_row (f, o) (comments s)))
  | CommentOnSpectrum f sp o =>
      (next_id (comments_on_spectra s),
       set_comments_on_spectra s (insert_row (f, (sp, o)) (comments_on_spectra s)))
  | CommentOnGCN f g =>
      (next_id (comments_on_gcns s),
       set_comments_on_gcns s (insert_row (f, g) (comments_on_gcns s)))
  | CommentOnShift f sh =>
      (next_id (comments_on_shifts s),
       set_comments_on_shifts s (insert_row (f, sh) (comments_on_shifts s)))
  end.

Definition dquote : string := String (ascii_of_nat 34) EmptyString.

Section Handlers.
Variable current_user : principal.
(** [schema.load(data, partial=True)] of the kind's class: the normalized
    messages of the ValidationError, if it raises one. *)
Variable schema_load : kind → PutData.t → option string.

(** [Group.select(current_user).where(Group.id.in_(group_ids))], ids only. *)
Definition select_groups (s : db) (group_ids : list Z) : list Z :=
  filter (λ g, group_readable current_user g = true ∧ g ∈ group_ids) (groups s).

(** [{g.id for g in groups} != set(group_ids)] *)
Definition groups_differ (resolved requested : list Z) : bool :=
  bool_decide ((list_to_set resolved : gset Z) ≠ list_to_set requested).

Definition select_comment (m : mode) (s : db) (k : kind) (id : Z) : option comment :=
  c ← lookup_comment s k id;
  if comment_accessible current_user m k id (columns c) then Some c else None.

(** [str(c.obj_id)], [str(c.spectrum_id)], [str(c.gcn_id)] or
    [str(c.shift_id)], by the class of the instance. *)
Definition comment_resource_id_str (c : comment) : string :=
  match c with
  | Comment _ obj_id => obj_id
  | CommentOnSpectrum _ spectrum_id _ => str spectrum_id
  | CommentOnGCN _ gcn_id => str gcn_id
  | CommentOnShift _ shift_id => str shift_id
  end.

Definition resource_id_mismatch {A} (resource_id : string) : H A :=
  error ("Comment resource ID does not match resource ID given in path ("
         ++ resource_id ++ ")").

(** The dispatch on [associated_resource_type.lower()] that loads the one
    comment a request names. *)
Definition find_comment (m : mode) (associated_resource_type : string)
  (comment_id : Z) : H comment :=
  s ← session_get;
  match resource_kind associated_resource_type with
  | Some k =>
      unwrap (select_comment m s k comment_id)
        (error_status "Could not find any accessible comments." 403)
  | None =>
      error ("Unsupported associated_resource_type " ++ dquote
             ++ associated_resource_type ++ dquote ++ ".")
  end.

(** [c.obj.internal_key] *)
Definition obj_internal_key (c : comment) : H string :=
  s ← session_get;
  match obj_of c with
  | None => raise AttributeError
  | Some obj_id => unwrap (objs s !! obj_id) (raise AttributeError)
  end.

(** [c.gcn.dateobs] *)
Definition gcn_dateobs (c : comment) : H string :=
  s ← session_get;
  match c with
  | CommentOnGCN _ gcn_id => unwrap (gcn_events s !! gcn_id) (raise AttributeError)
  | _ => raise AttributeError
  end.

(** The comments of one resource, for a GET without a comment id. *)
Definition comments_of (s : db) (k : kind) (resource_id : string) : H (list comment) :=
  let readable :=
    filter (λ r, comment_accessible current_user Read k r.1 (columns r.2) = true)
           (all_comments s k) in
  match k with
  | Sources =>
      mret (filter (λ c, comment_resource_id_str c = resource_id) readable.*2)
  | _ =>
      id ← unwrap (int_of_str resource_id) (raise DataError);
      mret (filter (λ c, comment_resource_id_str c = str id) readable.*2)
  end.

Definition get (associated_resource_type resource_id : string)
  (comment_id : option string) : H unit :=
  with_session (
    s ← session_get;
    match comment_id with
    | None =>
        match resource_kind associated_resource_type with
        | Some k =>
            comments ← comments_of s k resource_id;
            success (Comments comments)
        | None =>
            error ("Unsupported associated resource type " ++ dquote
                   ++ associated_resource_type ++ dquote ++ ".")
        end
    | Some comment_id =>
        comment_id ← unwrap (int_of_str comment_id)
          (error "Must provide a valid (scalar integer) comment ID. ");
        comment ← find_comment Read associated_resource_type comment_id;
        when (negb (String.eqb (comment_resource_id_str comment) resource_id))
          (resource_id_mismatch resource_id);;
        success (SingleComment comment)
    end).

(** [session.add(comment)]: the flush checks the foreign key to the object
    of a comment on a source. *)
Definition session_add (c : comment) : H Z :=
  s ← session_get;
  match c with
  | Comment _ obj_id =>
      match objs s !! obj_id with
      | None => raise IntegrityError
      | Some _ => mret ()
      end
  | _ => mret ()
  end;;
  let '(id, s') := add_comment s c in
  session_set s';;
  mret id.

Fixpoint for_each {A} (l : list A) (f : A → H unit) : H unit :=
  match l with
  | [] => mret ()
  | a :: rest => f a;; for_each rest f
  end.

Definition post (associated_resource_type resource_id : string)
  (data : PostData.t) : H unit :=
  let comment_text := PostData.text data in
  attachment ←
    match PostData.attachment data with
    | Some (Dict (Some body) (Some name)) =>
        match body with
        | Some body => mret (Some (encode (after_base64_prefix body)), name)
        | None => raise AttributeError
        end
    | Some _ => error "Malformed comment attachment"
    | None => mret (None, None)
    end;
  let attachment_bytes := attachment.1 in
  let attachment_name := attachment.2 in
  let is_bot_request := is_token current_user in
  with_session (
    s ← session_get;
    let group_ids :=
      match PostData.group_ids data with
      | Some (g :: more) => g :: more
      | Some [] | None => accessible_groups current_user
      end in
    let groups := select_groups s group_ids in
    when (groups_differ groups group_ids)
      (error ("Cannot find one or more groups with IDs: " ++ str_list group_ids ++ "."));;
    let columns :=
      Columns.Build comment_text attachment_name attachment_bytes
        (user_id current_user) groups is_bot_request in
    k ← unwrap (resource_kind associated_resource_type)
      (error ("Unknown resource type " ++ dquote ++ associated_resource_type
              ++ dquote ++ "."));
    comment ←
      match k with
      | Sources => mret (Comment columns resource_id)
      | Spectra =>
          spectrum_id ← unwrap (int_of_str resource_id) (raise DataError);
          obj_id ← unwrap
            (if spectrum_readable current_user spectrum_id
             then spectra s !! spectrum_id else None)
            (error ("Could not find any accessible spectra with ID "
                    ++ resource_id ++ "."));
          mret (CommentOnSpectrum columns spectrum_id obj_id)
      | GcnEvent =>
          gcnevent_id ← unwrap (int_of_str resource_id) (raise DataError);
          _ ← unwrap
            (if gcn_event_readable current_user gcnevent_id
             then gcn_events s !! gcnevent_id else None)
            (error ("Could not find any accessible gcn events with ID "
                    ++ resource_id ++ "."));
          mret (CommentOnGCN columns gcnevent_id)
      | Shift =>
          shift_id ← unwrap (int_of_str resource_id) (raise DataError);
          if bool_decide (shift_id ∈ shifts s) && shift_accessible current_user shift_id
          then mret (CommentOnShift columns shift_id)
          else raise UnboundLocalError
      end;
    users_mentioned_in_comment ←
      users_mentioned (filter (λ u, user_readable current_user u = true) (users s))
        comment_text;
    let mentioned_you :=
      "*@" ++ username current_user ++ "* mentioned you in a comment on *" in
    let text_to_send :=
      match k with
      | Shift => mentioned_you ++ "shift " ++ resource_id ++ "*"
      | _ => mentioned_you ++ resource_id ++ "*"
      end in
    let url_endpoint :=
      match k with
      | Sources | Spectra => "/source/" ++ resource_id
      | GcnEvent => "/gcn_events/" ++ resource_id
      | Shift => "/shifts"
      end in
    session_set
      (set_notifications s
         (notifications s
          ++ map (λ u, UserNotification.Build (User.id u) text_to_send "mention"
                         url_endpoint)
                 users_mentioned_in_comment));;
    id ← session_add comment;
    session_commit;;
    for_each users_mentioned_in_comment
      (λ u, flow_push (User.id u) "skyportal/FETCH_NOTIFICATIONS");;
    (if hasattr_obj comment then
       obj_key ← obj_internal_key comment;
       push_all "skyportal/REFRESH_SOURCE" [("obj_key", PStr obj_key)]
     else mret ());;
    match comment with
    | CommentOnGCN _ _ =>
        dateobs ← gcn_dateobs comment;
        push_all "skyportal/REFRESH_GCNEVENT" [("gcnEvent_dateobs", PStr dateobs)]
    | CommentOnSpectrum _ _ _ =>
        obj_key ← obj_internal_key comment;
        push_all "skyportal/REFRESH_SOURCE_SPECTRA" [("obj_internal_key", PStr obj_key)]
    | CommentOnShift _ shift_id =>
        push_all "skyportal/REFRESH_SHIFTS" [("shift_id", PInt shift_id)]
    | Comment _ _ => mret ()
    end;;
    success (CommentId id)).

(** [bytes_is_none ^ name_is_none] *)
Definition one_is_none (c : Columns.t) : bool :=
  xorb (bool_decide (Columns.attachment_bytes c = None))
       (bool_decide (Columns.attachment_name c = None)).

(** The three assignments of [put]: [text] and [attachment_name] when the
    body has them, [attachment_bytes] when the body has it and it is not
    null. *)
Definition assign (f : Columns.t) (data : PutData.t) : Columns.t :=
  let f :=
    match PutData.text data with
    | Some text =>
        Columns.Build text (Columns.attachment_name f) (Columns.attachment_bytes f)
          (Columns.author_id f) (Columns.groups f) (Columns.bot f)
    | None => f
    end in
  let f :=
    match PutData.attachment_name data with
    | Some name =>
        Columns.Build (Columns.text f) name (Columns.attachment_bytes f)
          (Columns.author_id f) (Columns.groups f) (Columns.bot f)
    | None => f
    end in
  match default None (PutData.attachment_bytes data) with
  | Some attachment_bytes =>
      Columns.Build (Columns.text f) (Columns.attachment_name f)
        (Some (encode (after_base64_prefix attachment_bytes)))
        (Columns.author_id f) (Columns.groups f) (Columns.bot f)
  | None => f
  end.

(** [c.groups = groups] *)
Definition set_groups (f : Columns.t) (groups : list Z) : Columns.t :=
  Columns.Build (Columns.text f) (Columns.attachment_name f)
    (Columns.attachment_bytes f) (Columns.author_id f) groups (Columns.bot f).

(** The body as the schema sees it, after the two [data.pop]. *)
Definition without_popped (data : PutData.t) : PutData.t :=
  PutData.Build (PutData.text data) (PutData.attachment_name data) None None.

Definition put (associated_resource_type resource_id comment_id : string)
  (data : PutData.t) : H unit :=
  comment_id ← unwrap (int_of_str comment_id)
    (error "Must provide a valid (scalar integer) comment ID. ");
  with_session (
    s ← session_get;
    c ← find_comment Update associated_resource_type comment_id;
    let comment_resource_id_str := comment_resource_id_str c in
    let group_ids := PutData.group_ids data in
    match (k ← resource_kind associated_resource_type;
           schema_load k (without_popped data)) with
    | Some messages => error ("Invalid/missing parameters: " ++ messages)
    | None => mret ()
    end;;
    let f := assign (columns c) data in
    when (one_is_none f)
      (error ("This update leaves one of attachment name or "
              ++ "attachment bytes null. Both fields must be "
              ++ "filled, or both must be null."));;
    f ← match group_ids with
        | Some group_ids =>
            let groups := select_groups s group_ids in
            when (groups_differ groups group_ids)
              (error ("Cannot find one or more groups with IDs: "
                      ++ str_list group_ids ++ "."));;
            mret (set_groups f groups)
        | None => mret f
        end;
    when (negb (String.eqb comment_resource_id_str resource_id))
      (resource_id_mismatch resource_id);;
    let c := set_columns c f in
    session_set (store_comment s comment_id c);;
    session_commit;;
    (if hasattr_obj c then
       obj_key ← obj_internal_key c;
       push_all "skyportal/REFRESH_SOURCE" [("obj_key", PStr obj_key)]
     else mret ());;
    match c with
    | CommentOnSpectrum _ _ _ =>
        obj_key ← obj_internal_key c;
        push_all "skyportal/REFRESH_SOURCE_SPECTRA" [("obj_internal_key", PStr obj_key)]
    | CommentOnGCN _ _ =>
        obj_key ← obj_internal_key c;
        push_all "skyportal/REFRESH_SOURCE_GCN" [("obj_internal_key", PStr obj_key)]
    | CommentOnShift _ _ =>
        obj_key ← obj_internal_key c;
        push_all "skyportal/REFRESH_SHIFT" [("obj_internal_key", PStr obj_key)]
    | Comment _ _ => mret ()
    end;;
    success NoData).

Definition delete (associated_resource_type resource_id comment_id : string)
  : H unit :=
  comment_id ← unwrap (int_of_str comment_id)
    (error "Must provide a valid (scalar integer) comment ID.");
  with_session (
    s ← session_get;
    c ← find_comment Delete associated_resource_type comment_id;
    let comment_resource_id_str := comment_resource_id_str c in
    (** [gcnevent_dateobs] and [obj_key], whichever the class binds *)
    keys ←
      match c with
      | CommentOnGCN _ _ => dateobs ← gcn_dateobs c; mret (Some dateobs, None)
      | CommentOnShift _ _ => mret (None, None)
      | _ => obj_key ← obj_internal_key c; mret (None, Some obj_key)
      end;
    when (negb (String.eqb comment_resource_id_str resource_id))
      (resource_id_mismatch resource_id);;
    session_set (remove_comment s comment_id c);;
    session_commit;;
    (if hasattr_obj c then
       obj_key ← unwrap keys.2 (raise UnboundLocalError);
       push_all "skyportal/REFRESH_SOURCE" [("obj_key", PStr obj_key)]
     else mret ());;
    match c with
    | CommentOnGCN _ _ =>
        dateobs ← unwrap keys.1 (raise UnboundLocalError);
        push_all "skyportal/REFRESH_GCNEVENT" [("gcnEvent_dateobs", PStr dateobs)]
    | CommentOnSpectrum _ _ _ =>
        obj_key ← unwrap keys.2 (raise UnboundLocalError);
        push_all "skyportal/REFRESH_SOURCE_SPECTRA" [("obj_internal_key", PStr obj_key)]
    | CommentOnShift _ _ => push_all "skyportal/REFRESH_SHIFTS" []
    | Comment _ _ => mret ()
    end;;
    success NoData).
End Handlers.
End CommentHandler.

Module CommentAttachmentHandler.
Import CommentHandler.

Section Handlers.
Variable current_user : principal.
(** How the base handler reads the text of a boolean query argument. *)
Variable as_bool : string → bool.
(** [base64.b64decode]; [None] when it raises binascii.Error. *)
Variable b64decode : string → option string.
(** [bytes.decode()]; [None] when it raises UnicodeDecodeError. *)
Variable decode : string → option string.

Definition get (query : gmap string string)
  (associated_resource_type resource_id comment_id : string) : H unit :=
  comment_id ← unwrap (int_of_str comment_id)
    (error "Must provide a valid (scalar integer) comment ID. ");
  let download := get_query_argument_bool as_bool query "download" true in
  with_session (
    comment ← find_comment current_user Read associated_resource_type comment_id;
    when (negb (String.eqb (comment_resource_id_str comment) resource_id))
      (resource_id_mismatch resource_id);;
    attachment_bytes ←
      match Columns.attachment_bytes (columns comment) with
      | Some (String b bs) => mret (String b bs)
      | Some EmptyString | None => error "Comment has no attachment"
      end;
    if download then
      set_header "Content-Disposition"
        ("attachment; " ++ "filename="
         ++ default "None" (Columns.attachment_name (columns comment)));;
      set_header "Content-type" "application/octet-stream";;
      raw ← unwrap (b64decode attachment_bytes) (raise BinasciiError);
      write raw
    else
      raw ← unwrap (b64decode attachment_bytes) (raise BinasciiError);
      attachment ← unwrap (decode raw) (raise UnicodeDecodeError);
      success (AttachmentText comment_id attachment)).
End Handlers.
End CommentAttachmentHandler.

(** ** Database statistics ([db_stats.py]) *)

(** [query.order_by(key).first()]: the row with the least key, the
    earliest such row of the table when several share it. *)
Fixpoint first_by {A} (key : A → Z) (l : list A) : option A :=
  match l with
  | [] => None
  | a :: rest =>
      match first_by key rest with
      | Some b => if key b <? key a then Some b else Some a
      | None => Some a
      end
  end.

Module Candidate.
Record t := Build {
  obj_id : string;
  created_at : Z
}.
End Candidate.

Module Source.
Record t := Build {
  obj_id : string
}.
End Source.

Module CronJobRun.
Record t := Build {
  script : string;
  created_at : Z;
  exit_status : Z;
  output : string
}.
End CronJobRun.

Module StatsHandler.

(** The store as the statistics see it.  [pg_class] is the catalogue of
    the storage engine, a relation name with the planner's estimate
    [reltuples] of its rows; of the counted tables only the number of rows
    matters, so their rows are left abstract. *)
Record db := Db {
  pg_class : list (string * Z);
  photometry : list ();
  candidates : list Candidate.t;
  sources : list Source.t;
  objs : list ();
  spectra : list ();
  groups : list ();
  users : list ();
  tokens : list ();
  cron_job_runs : list CronJobRun.t
}.

(** What a statement is executed with in the place of a parameter: a
    text, or a whole row of an earlier result. *)
Inductive parameter :=
| Text (s : string)
| ResultRow (columns : list string).

(** One entry of [Latest cron job run times & statuses]: what the summary
    line is formatted from, and the captured output. *)
Record cron_summary := CronSummary {
  summary_script : parameter;
  summary_ran_at : Z;
  summary_exit_status : Z;
  summary_output : string
}.

(** The [data] dict of the reply, one field per key. *)
Record data := Data {
  number_of_photometry_approx : Z;
  number_of_candidates : Z;
  number_of_sources : Z;
  number_of_objs : Z;
  number_of_spectra : Z;
  number_of_groups : Z;
  number_of_users : Z;
  number_of_tokens : Z;
  oldest_candidate_creation_datetime : option Z;
  newest_candidate_creation_datetime : option Z;
  oldest_unsaved_candidate_creation_datetime : option Z;
  latest_cron_job_runs : list cron_summary
}.

Definition H := M db (response data).

(** [sa.select(sa.func.count()).select_from(T)] *)
Definition count {A} (table : list A) : Z := Z.of_nat (length table).

(** [SELECT reltuples::bigint FROM pg_catalog.pg_class WHERE relname = ...] *)
Definition reltuples (s : db) (relname : string) : list Z :=
  (filter (λ r, r.1 = relname) (pg_class s)).*2.

(** [Candidate.obj_id.notin_(sa.select(Source.obj_id).subquery())] *)
Definition unsaved (s : db) (cand : Candidate.t) : Prop :=
  Candidate.obj_id cand ∉ Source.obj_id <$> sources s.

Global Instance unsaved_dec s cand : Decision (unsaved s cand).
Proof. unfold unsaved. apply _. Defined.

(** [select(CronJobRun.script).distinct()] executed, and [.all()]: the
    rows of the result, each with the one column selected. *)
Definition distinct_scripts (s : db) : list parameter :=
  (λ script, ResultRow [script]) <$> remove_dups (CronJobRun.script <$> cron_job_runs s).

(** [select(CronJobRun).where(CronJobRun.script == script)
    .order_by(CronJobRun.created_at.desc())] executed, and [.first()].
    The driver binds a text; it has no adaptation for a result row, and
    the execution of a statement that carries one raises
    ProgrammingError. *)
Definition latest_run (s : db) (script : parameter) : H (option CronJobRun.t) :=
  match script with
  | Text name =>
      mret (first_by (λ r, - CronJobRun.created_at r)
              (filter (λ r, CronJobRun.script r = name) (cron_job_runs s)))
  | ResultRow _ => raise ProgrammingError
  end.

(** The loop over [cron_job_scripts]: [script] is the row itself, as the
    loop takes it from the result, and goes into the query and into the
    summary as it is. *)
Fixpoint cron_summaries (s : db) (cron_job_scripts : list parameter)
  : H (list cron_summary) :=
  match cron_job_scripts with
  | [] => mret []
  | script :: rest =>
      cron_job_run ← latest_run s script;
      cron_job_run ← unwrap cron_job_run (raise AttributeError);
      more ← cron_summaries s rest;
      mret (CronSummary script (CronJobRun.created_at cron_job_run)
              (CronJobRun.exit_status cron_job_run)
              (CronJobRun.output cron_job_run) :: more)
  end.

Definition get : H unit :=
  estimate ←
    with_session (
      s ← session_get;
      unwrap (head (reltuples s "photometry")) (raise IndexError));
  with_session (
    s ← session_get;
    let oldest := first_by Candidate.created_at (candidates s) in
    let newest := first_by (λ c, - Candidate.created_at c) (candidates s) in
    let oldest_unsaved :=
      first_by Candidate.created_at (filter (unsaved s) (candidates s)) in
    let cron_job_scripts := distinct_scripts s in
    runs ← cron_summaries s cron_job_scripts;
    success
      (Data estimate
         (count (candidates s)) (count (sources s)) (count (objs s))
         (count (spectra s)) (count (groups s)) (count (users s))
         (count (tokens s))
         (Candidate.created_at <$> oldest)
         (Candidate.created_at <$> newest)
         (Candidate.created_at <$> oldest_unsaved)
         runs)).
End StatsHandler.

(** ** A small deployment, for concrete runs *)

Module Scenario.

(** Transient > { Supernova > { Ia, II }, AGN } *)
Definition taxonomy : hierarchy :=
  Node (Some "Transient")
    (Some [Node (Some "Supernova")
             (Some [Node (Some "Ia") None; Node (Some "II") None]);
           Node (Some "AGN") None]).

Definition member_of_1_and_2 (g : Z) : bool := (g =? 1) || (g =? 2).

Definition classifier : ClassificationHandler.principal :=
  ClassificationHandler.Principal 10 "alice" [1; 2] member_of_1_and_2
    (λ _, true) (λ _ _ _, true).

Definition a_classification : Classification.t :=
  Classification.Build "AGN" "ZTF21abc" None 7 10 "alice" [1] 1000.

Definition classification_store : ClassificationHandler.db :=
  ClassificationHandler.Db [1; 2; 3] {[ "ZTF21abc" := "key-abc" ]}
    {[ 7 := taxonomy ]} {[ 1 := a_classification ]} 2.

Definition commenter : CommentHandler.principal :=
  CommentHandler.Principal false 10 "alice" [1; 2] member_of_1_and_2
    (λ _, true) (λ _, true) (λ _, true) (λ _, true) (λ _ _ _ _, true).

(** A comment by alice with the attachment [note.txt], base64 of "hi". *)
Definition with_attachment : Columns.t :=
  Columns.Build (Some "see attached") (Some "note.txt") (Some "aGk=") 10 [1] false.

Definition comment_store : CommentHandler.db :=
  CommentHandler.Db [1; 2; 3] {[ "ZTF21abc" := "key-abc" ]}
    {[ 5 := "ZTF21abc" ]} {[ 3 := "2021-01-01T00:00:00" ]} [4]
    [User.Build 11 "bob" true; User.Build 12 "alice-2" false] []
    (Table {[ 1 := (with_attachment, "ZTF21abc") ]} 2)
    (Table {[ 1 := (with_attachment, (5, "ZTF21abc")) ]} 2)
    (Table {[ 1 := (with_attachment, 3) ]} 2)
    (Table {[ 1 := (with_attachment, 4) ]} 2).

(** Every patch passes the schema. *)
Definition lenient_schema : kind → CommentHandler.PutData.t → option string :=
  λ _ _, None.

(** A reading of boolean query arguments: [true], [yes], [t] and [1], in
    any case, are true, every other text is false. *)
Definition as_bool (v : string) : bool :=
  bool_decide (lower v ∈ ["true"; "yes"; "t"; "1"]).

(** Decoders for the attachments of the scenario: [aGk=] is the base64 of
    [hi]; [abc], three characters without padding, is not base64. *)
Definition b64decode (s : string) : option string :=
  if String.eqb s "aGk=" then Some "hi" else None.
Definition decode (s : string) : option string := Some s.

(** An attachment as a client may post it, with a body that is not
    base64. *)
Definition not_base64 : CommentHandler.attachment :=
  CommentHandler.Dict (Some (Some "abc")) (Some (Some "blob.bin")).

Definition statistics_store : StatsHandler.db :=
  StatsHandler.Db [("objs", 3); ("photometry", 1200)] [(); ()]
    [Candidate.Build "ZTF21abc" 50; Candidate.Build "ZTF21xyz" 20;
     Candidate.Build "ZTF21new" 90]
    [Source.Build "ZTF21xyz"] [(); (); ()] [()] [(); (); ()] [(); ()] [()]
    [CronJobRun.Build "nightly.py" 5 0 "ok"; CronJobRun.Build "nightly.py" 9 1 "failed"].

(** The same deployment before any cron job has run. *)
Definition statistics_store_without_runs : StatsHandler.db :=
  StatsHandler.Db [("objs", 3); ("photometry", 1200)] [(); ()]
    [Candidate.Build "ZTF21abc" 50; Candidate.Build "ZTF21xyz" 20;
     Candidate.Build "ZTF21new" 90]
    [Source.Build "ZTF21xyz"] [(); (); ()] [()] [(); (); ()] [(); ()] [()] [].
End Scenario.

(** * Specification-side notions *)

Module CH := ClassificationHandler.
Module CM := CommentHandler.
Module CA := CommentAttachmentHandler.
Module ST := StatsHandler.

(** ** The taxonomy tree *)

(** Induction on a hierarchy with the hypothesis available for every
    subclass. *)
Fixpoint hierarchy_induction (P : hierarchy → Prop)
  (Hleaf : ∀ class, P (Node class None))
  (Hnode : ∀ class items, Forall P items → P (Node class (Some items)))
  (h : hierarchy) : P h :=
  match h with
  | Node class None => Hleaf class
  | Node class (Some items) =>
      Hnode class items
        ((fix all (l : list hierarchy) : Forall P l :=
            match l with
            | [] => @List.Forall_nil _ P
            | x :: rest =>
                @List.Forall_cons _ P x rest (hierarchy_induction P Hleaf Hnode x) (all rest)
            end) items)
  end.

(** The answer of [ClassificationHandler.post] to a label outside the
    taxonomy. *)
Definition label_refused (data : CH.PostData.t) : response CH.data :=
  Error 400
    ("That classification (" ++ CH.PostData.classification data ++ ") "
     ++ "is not in the allowed classes for the chosen "
     ++ "taxonomy (id=" ++ str (CH.PostData.taxonomy_id data)).

(** ** Words of a text *)

Fixpoint all_chars (p : ascii → bool) (s : string) : bool :=
  match s with
  | EmptyString => true
  | String c s' => p c && all_chars p s'
  end.

Definition blank (s : string) : Prop := all_chars isspace s = true.

(** A word: at least one character, none of them whitespace. *)
Definition is_word (w : string) : Prop :=
  w ≠ EmptyString ∧ all_chars (λ c, negb (isspace c)) w = true.

(** Nothing, or something that starts with whitespace. *)
Definition separated (s : string) : Prop :=
  match s with
  | EmptyString => True
  | String c _ => isspace c = true
  end.

(** [words s l]: the text [s] is the words [l], in order, with whitespace
    between them and possibly around them. *)
Inductive words : string → list string → Prop :=
| words_blank ws : blank ws → words ws []
| words_next ws w rest l :
    blank ws → is_word w → separated rest → words rest l →
    words (ws ++ w ++ rest) (w :: l).

(** ** Stripping *)

Definition first_char (s : string) : option ascii :=
  match s with
  | EmptyString => None
  | String c _ => Some c
  end.

Fixpoint last_char (s : string) : option ascii :=
  match s with
  | EmptyString => None
  | String c EmptyString => Some c
  | String _ s' => last_char s'
  end.

(** [stripped p s t]: [t] is [s] without a leading and a trailing run of
    characters of [p], and neither end of [t] is in [p]. *)
Definition stripped (p : ascii → bool) (s t : string) : Prop :=
  (∃ a b, s = a ++ t ++ b ∧ all_chars p a = true ∧ all_chars p b = true)
  ∧ (∀ c, first_char t = Some c → p c = false)
  ∧ (∀ c, last_char t = Some c → p c = false).

(** ** The candidates of [users_mentioned] *)

(** What is stripped from a word: [string.punctuation] but for the hyphen
    and the at sign. *)
Definition strippable (c : ascii) : bool :=
  char_in c string_punctuation && negb (Ascii.eqb c "-") && negb (Ascii.eqb c "@").

(** The candidates as the words of the claim describe them, the last step
    taking away the at sign at the front only. *)
Definition drop_leading_at (word : string) : string :=
  match word with
  | String "@" rest => rest
  | _ => word
  end.

Definition candidates_as_claimed (text : string) : list string :=
  map drop_leading_at
    (List.filter (startswith "@")
       (map (strip strippable) (split (replace "," " " text)))).


(** ** Comments *)

(** The users a text mentions, among those the caller may read. *)
Definition mentioned (u : CM.principal) (d : CM.db) (text : string) : list User.t :=
  filter (λ x, User.username x ∈ mentioned_usernames text ∧ User.mention_active x = true)
         (filter (λ x, CM.user_readable u x = true) (CM.users d)).

(** The probability of a POST is absent or within [0, 1]. *)
Definition probability_allowed (probability : option Q) : Prop :=
  match probability with
  | Some p => CH.number_lt p 0 || CH.number_lt 1 p = false
  | None => True
  end.

(** ** Group ids *)

(** Every requested id is the id of a group the caller may read: the ids
    resolved and the ids requested are the same set. *)
Definition resolved_ch (u : CH.principal) (d : CH.db) (group_ids : list Z) : Prop :=
  (list_to_set (CH.select_groups u d group_ids) : gset Z) = list_to_set group_ids.

Definition resolved_cm (u : CM.principal) (d : CM.db) (group_ids : list Z) : Prop :=
  (list_to_set (CM.select_groups u d group_ids) : gset Z) = list_to_set group_ids.

(** The request did not go through: an error envelope, or an exception. *)
Definition failed {DB D} (out : outcome DB (response D)) : Prop :=
  match ended out with
  | Returned (Error _ _) | Raised _ => True
  | Returned (Success _) | Fell_through => False
  end.

Definition groups_not_found {D} (group_ids : list Z) : response D :=
  Error 400 ("Cannot find one or more groups with IDs: " ++ str_list group_ids ++ ".").

(** The attachment of a POST is absent, or an object with a string [body]
    and a [name]. *)
Definition attachment_readable (a : option CM.attachment) : Prop :=
  match a with
  | None | Some (CM.Dict (Some (Some _)) (Some _)) => True
  | Some _ => False
  end.

(** ** The resource of a comment *)

Definition resource_id_does_not_match (resource_id : string) : response CM.data :=
  Error 400 ("Comment resource ID does not match resource ID given in path ("
             ++ resource_id ++ ")").



(** ** Statistics *)

(** The same store with another photometry table. *)
Definition with_photometry (d : ST.db) (rows : list ()) : ST.db :=
  ST.Db (ST.pg_class d) rows (ST.candidates d) (ST.sources d) (ST.objs d)
    (ST.spectra d) (ST.groups d) (ST.users d) (ST.tokens d) (ST.cron_job_runs d).

(** ** Further notions used below *)

Module OQ := ObjClassificationQueryHandler.

Definition probability_refused (str_number : Q → string) (p : Q) : response CH.data :=
  Error 400 ("That probability (" ++ str_number p ++ ") is outside "
             ++ "the allowable range (0-1).").

Definition classification_not_found (classification_id : string) : response CH.data :=
  Error 400 ("Cannot find a classification with ID: " ++ classification_id ++ ".").

(** The notification a mention in a comment on [resource_id] produces. *)
Definition mention_notification (u : CM.principal) (k : kind) (resource_id : string)
  (x : User.t) : UserNotification.t :=
  let mentioned_you :=
    "*@" ++ CM.username u ++ "* mentioned you in a comment on *" in
  UserNotification.Build (User.id x)
    match k with
    | Shift => mentioned_you ++ "shift " ++ resource_id ++ "*"
    | _ => mentioned_you ++ resource_id ++ "*"
    end
    "mention"
    match k with
    | Sources | Spectra => "/source/" ++ resource_id
    | GcnEvent => "/gcn_events/" ++ resource_id
    | Shift => "/shifts"
    end.

Definition fetch_notifications (x : User.t) : push :=
  FlowPush (User.id x) "skyportal/FETCH_NOTIFICATIONS".

(** The group ids a comment POST works with. *)
Definition post_group_ids (u : CM.principal) (requested : option (list Z)) : list Z :=
  match requested with
  | Some (g :: more) => g :: more
  | Some [] | None => CM.accessible_groups u
  end.

(** Name and bytes are both there or both missing. *)
Definition paired (f : Columns.t) : Prop :=
  Columns.attachment_name f = None ↔ Columns.attachment_bytes f = None.

(** What a delete broadcasts, by the class of the comment deleted. *)
Definition delete_pushes (c : comment) (obj_key dateobs : string) : list push :=
  match c with
  | Comment _ _ => [PushAll "skyportal/REFRESH_SOURCE" [("obj_key", PStr obj_key)]]
  | CommentOnSpectrum _ _ _ =>
      [PushAll "skyportal/REFRESH_SOURCE" [("obj_key", PStr obj_key)];
       PushAll "skyportal/REFRESH_SOURCE_SPECTRA" [("obj_internal_key", PStr obj_key)]]
  | CommentOnGCN _ _ =>
      [PushAll "skyportal/REFRESH_GCNEVENT" [("gcnEvent_dateobs", PStr dateobs)]]
  | CommentOnShift _ _ => [PushAll "skyportal/REFRESH_SHIFTS" []]
  end.

(** The key of the object of a comment, and the [dateobs] of its event,
    where its class has one. *)
Definition obj_key_is (d : CM.db) (c : comment) (obj_key : string) : Prop :=
  match obj_of c with
  | Some obj_id => CM.objs d !! obj_id = Some obj_key
  | None => True
  end.

Definition dateobs_is (d : CM.db) (c : comment) (dateobs : string) : Prop :=
  match c with
  | CommentOnGCN _ gcn_id => CM.gcn_events d !! gcn_id = Some dateobs
  | _ => True
  end.

Definition not_an_integer : response CM.data :=
  Error 400 "Must provide a valid (scalar integer) comment ID. ".

(** * Properties *)

(** ** Running handlers *)

Ltac run_handler :=
  cbv beta iota zeta delta
    [run mbind mret M_bind M_ret bind pure with_session
     session_get session_set session_commit reply raise
     error error_status success when unwrap push_all flow_push
     set_header write committed pending pushed out_headers
     out_body ended store pushes headers body].

Ltac exec := run_handler; cbn [negb orb andb fst snd default].

(** Follow every branch of the handler that the goal still mentions. *)
Ltac cases :=
  repeat (exec;
          match goal with
          | |- context [if ?b then _ else _] => destruct b eqn:?
          | |- context [match ?o with Some _ => _ | None => _ end] =>
              destruct o eqn:?
          end);
  exec.

(** ** The taxonomy tree *)

Lemma allowed_classes_unfold class subclasses :
  allowed_classes (Node class subclasses) =
  (match class with Some label => [label] | None => [] end
   ++ match subclasses with
      | Some items => concat (map allowed_classes items)
      | None => []
      end)%list.
Proof.
  destruct subclasses as [items|]; [|reflexivity].
  cbn [allowed_classes]. f_equal.
  induction items as [|item rest IH]; [reflexivity|].
  cbn [map concat]. now rewrite <- IH.
Qed.

Lemma py_in_In x l : py_in x l = true ↔ In x l.
Proof.
  induction l as [|y l IH]; cbn [py_in In].
  - split; [discriminate | tauto].
  - destruct (String.eqb_spec x y) as [->|Hne].
    + split; auto.
    + rewrite IH. split; [auto | intros [Heq|H]; [congruence | exact H]].
Qed.

Lemma allowed_classes_occurs label h :
  In label (allowed_classes h) ↔ occurs label h.
Proof.
  induction h as [class | class items IH] using hierarchy_induction;
    rewrite allowed_classes_unfold.
  - rewrite app_nil_r. destruct class as [l|]; cbn [In]; split.
    + intros [->|[]]. exists 1%nat. constructor.
    + intros [d H]. inversion H; subst. now left.
    + intros [].
    + intros [d H]. inversion H.
  - rewrite in_app_iff, in_concat. split.
    + intros [Hroot | (ys & Hys & Hin)].
      * destruct class as [l|]; [|destruct Hroot].
        destruct Hroot as [->|[]]. exists 1%nat. constructor.
      * apply in_map_iff in Hys as (item & <- & Hitem).
        rewrite Forall_forall in IH.
        apply IH in Hin as [d Hd]; [|now apply list_elem_of_In].
        exists (S d). econstructor; eauto.
    + intros [d H]. inversion H; subst.
      * left. now left.
      * right. exists (allowed_classes item). split; [now apply in_map|].
        rewrite Forall_forall in IH. apply IH; [now apply list_elem_of_In|].
        now exists d0.
Qed.

(** C1. Against a visible taxonomy, creating a classification gets past the
    label check exactly when the label is the [class] of some node of the
    hierarchy, at whatever depth, which is what the depth-first generator
    collects; a label that is nowhere in the tree is answered with the
    400 error, the store is as before and nothing is broadcast. *)
Theorem C1_label_accepted_iff_in_hierarchy
  (u : CH.principal) (str_number : Q → string) (utcnow : Z)
  (data : CH.PostData.t) (d : CH.db) (taxonomy : hierarchy) :
  CH.select_taxonomy u d (CH.PostData.taxonomy_id data) = Some taxonomy →
  let label := CH.PostData.classification data in
  let out := run (CH.post u str_number utcnow data) d in
  (py_in label (allowed_classes taxonomy) = true ↔ occurs label taxonomy)
  ∧ (ended out ≠ Returned (label_refused data) ↔ occurs label taxonomy)
  ∧ (¬ occurs label taxonomy →
     ended out = Returned (label_refused data) ∧ store out = d ∧ pushes out = []).
Proof.
  intros Htax label out.
  assert (Hin : py_in label (allowed_classes taxonomy) = true ↔ occurs label taxonomy).
  { rewrite py_in_In. apply allowed_classes_occurs. }
  assert (Hno : py_in label (allowed_classes taxonomy) = false →
                ended out = Returned (label_refused data)
                ∧ store out = d ∧ pushes out = []).
  { intros Hf. subst out label. unfold CH.post. exec. rewrite Htax. exec.
    rewrite Hf. exec. auto. }
  assert (Hyes : py_in label (allowed_classes taxonomy) = true →
                 ended out ≠ Returned (label_refused data)).
  { intros Ht. subst out label. unfold CH.post, label_refused. exec.
    rewrite Htax. exec. rewrite Ht.
    unfold CH.session_add, CH.internal_key, CH.refresh.
    cases; discriminate. }
  split; [exact Hin|]. split.
  - rewrite <- Hin. split.
    + intros Hne. destruct (py_in label (allowed_classes taxonomy)) eqn:E; [reflexivity|].
      destruct (Hno eq_refl) as [He _]. contradiction.
    + exact Hyes.
  - intros Hnot. apply Hno.
    destruct (py_in label (allowed_classes taxonomy)) eqn:E; [|reflexivity].
    exfalso. apply Hnot, Hin. reflexivity.
Qed.

(** C1 at work: in the scenario's taxonomy [Ia] sits at depth 3 and is
    accepted, [Ib] is nowhere and is refused with the store untouched. *)
Lemma C1_label_accepted_iff_in_hierarchy_witness :
  let post label :=
    run (CH.post Scenario.classifier (λ _, "1.5") 2000
           (CH.PostData.Build "ZTF21abc" label 7 None (Some [1])))
        Scenario.classification_store in
  CH.select_taxonomy Scenario.classifier Scenario.classification_store 7
  = Some Scenario.taxonomy
  ∧ occurs "Ia" Scenario.taxonomy
  ∧ ended (post "Ia")
    ≠ Returned (label_refused (CH.PostData.Build "ZTF21abc" "Ia" 7 None (Some [1])))
  ∧ ¬ occurs "Ib" Scenario.taxonomy
  ∧ ended (post "Ib")
    = Returned (label_refused (CH.PostData.Build "ZTF21abc" "Ib" 7 None (Some [1])))
  ∧ store (post "Ib") = Scenario.classification_store.
Proof.
  intros post.
  assert (Htax : CH.select_taxonomy Scenario.classifier Scenario.classification_store 7
                 = Some Scenario.taxonomy) by (vm_compute; reflexivity).
  destruct (C1_label_accepted_iff_in_hierarchy Scenario.classifier (λ _, "1.5") 2000
              (CH.PostData.Build "ZTF21abc" "Ia" 7 None (Some [1]))
              Scenario.classification_store Scenario.taxonomy Htax)
    as (Hin_a & Hacc_a & _).
  destruct (C1_label_accepted_iff_in_hierarchy Scenario.classifier (λ _, "1.5") 2000
              (CH.PostData.Build "ZTF21abc" "Ib" 7 None (Some [1]))
              Scenario.classification_store Scenario.taxonomy Htax)
    as (Hin_b & _ & Hrej_b).
  assert (Ha : occurs "Ia" Scenario.taxonomy).
  { apply Hin_a. vm_compute. reflexivity. }
  assert (Hb : ¬ occurs "Ib" Scenario.taxonomy).
  { intros H. apply Hin_b in H. vm_compute in H. discriminate H. }
  split; [exact Htax|]. split; [exact Ha|]. split; [now apply Hacc_a|].
  split; [exact Hb|]. destruct (Hrej_b Hb) as (He & Hs & _).
  split; [exact He | exact Hs].
Defined.

(** ** Paging the classification listing *)

(** The page size: the requested [numPerPage], 100 without one, never more
    than 500. *)
Lemma page_size_clamped (requested : option Z) :
  let n := Z.min (default CH.DEFAULT_CLASSIFICATIONS_PER_PAGE requested)
                 CH.MAX_CLASSIFICATIONS_PER_PAGE in
  n ≤ 500 ∧ (requested = None → n = 100)
  ∧ (∀ r, requested = Some r → 500 ≤ r → n = 500)
  ∧ (∀ r, requested = Some r → r ≤ 500 → n = r).
Proof.
  unfold CH.DEFAULT_CLASSIFICATIONS_PER_PAGE, CH.MAX_CLASSIFICATIONS_PER_PAGE.
  cbv zeta.
  destruct requested as [r|]; unfold default, from_option, id; repeat split;
    try discriminate; try (intros ? [= <-]); intros; lia.
Qed.

(** Without a [pageNumber] the listing starts at the first match and
    returns at most [min(numPerPage, 500)] rows. *)
Lemma get_first_page (u : CH.principal) (arrow_get : string → option Z)
  (query : gmap string string) (d : CH.db) (n : Z) :
  query !! "pageNumber" = None →
  query !! "startDate" = None → query !! "endDate" = None →
  (match query !! "numPerPage" with
   | Some v => int_of_str v
   | None => Some 100
   end) = Some n →
  0 ≤ n →
  let visible :=
    (filter (λ r, CH.classification_accessible u Read r.1 r.2 = true)
            (map_to_list (CH.classifications d))).*2 in
  ended (run (CH.get u arrow_get query None) d)
  = Returned (Success (CH.Page (take (Z.to_nat (Z.min n 500)) visible)
                               (Z.of_nat (length visible)))).
Proof.
  intros Hp Hs He Hn Hpos visible. unfold CH.get, get_query_argument.
  rewrite Hp, Hs, He. unfold CH.MAX_CLASSIFICATIONS_PER_PAGE in *.
  assert (Hlim : (Z.min n 500 <? 0) || (0 * Z.min n 500 <? 0) = false).
  { apply orb_false_iff. split; apply Z.ltb_ge; lia. }
  destruct (query !! "numPerPage") as [v|] eqn:Hv.
  - unfold int_. exec. rewrite Hn. exec. unfold CH.date_bound, sub_int, CH.limit_offset.
    exec. cbn [truthy]. exec. replace (1 - 1) with 0 by reflexivity.
    rewrite Hlim. exec. subst visible.
    rewrite length_fmap, fmap_take. reflexivity.
  - injection Hn as <-. unfold int_. exec.
    unfold CH.date_bound, sub_int, CH.limit_offset, CH.DEFAULT_CLASSIFICATIONS_PER_PAGE.
    exec. cbn [truthy]. exec. replace (1 - 1) with 0 by reflexivity.
    rewrite Hlim. exec. subst visible.
    rewrite length_fmap, fmap_take. reflexivity.
Qed.

(** Any [pageNumber] in the query string is text, and Python does not
    subtract 1 from text: once the listing is reached, the request ends in
    a TypeError whatever page was asked for. *)
Lemma get_any_page_number_raises (u : CH.principal) (arrow_get : string → option Z)
  (query : gmap string string) (d : CH.db) (page n : string) (size : Z) :
  query !! "pageNumber" = Some page →
  query !! "numPerPage" = Some n → int_of_str n = Some size →
  query !! "startDate" = None → query !! "endDate" = None →
  ended (run (CH.get u arrow_get query None) d) = Raised TypeError.
Proof.
  intros Hp Hn Hsize Hs He. unfold CH.get, get_query_argument.
  rewrite Hp, Hn, Hs, He. unfold int_. exec. rewrite Hsize. exec.
  unfold CH.date_bound, sub_int. exec. cbn [truthy]. exec. reflexivity.
Qed.

(** C5 on the code: [pageNumber=2&numPerPage=10] does not skip ten matches,
    it raises TypeError; [numPerPage=1000] alone is clamped and served. *)
Theorem C5_page_number_raises_type_error :
  let get query :=
    run (CH.get Scenario.classifier (λ _, None) query None)
        Scenario.classification_store in
  ended (get {[ "pageNumber" := "2"; "numPerPage" := "10" ]}) = Raised TypeError
  ∧ ended (get {[ "pageNumber" := "1" ]}) = Raised TypeError
  ∧ ended (get {[ "numPerPage" := "1000" ]})
    = Returned (Success (CH.Page [Scenario.a_classification] 1)).
Proof.
  repeat split; vm_compute; reflexivity.
Qed.

(** ** Creating a classification *)

(** A creation that passes every check stores the classification under
    the next key, with the groups resolved, and broadcasts the two
    refreshes keyed by the object. *)
Lemma post_classification (u : CH.principal) (str_number : Q → string) (utcnow : Z)
  (data : CH.PostData.t) (d : CH.db) (taxonomy : hierarchy) (key : string) :
  CH.select_taxonomy u d (CH.PostData.taxonomy_id data) = Some taxonomy →
  py_in (CH.PostData.classification data) (allowed_classes taxonomy) = true →
  probability_allowed (CH.PostData.probability data) →
  CH.objs d !! CH.PostData.obj_id data = Some key →
  let group_ids := default (CH.accessible_groups u) (CH.PostData.group_ids data) in
  CH.groups_differ (CH.select_groups u d group_ids) group_ids = false →
  let out := run (CH.post u str_number utcnow data) d in
  let id := CH.classification_seq d in
  ended out = Returned (Success (CH.ClassificationId id))
  ∧ CH.classifications (store out) !! id
    = Some (Classification.Build (CH.PostData.classification data)
              (CH.PostData.obj_id data) (CH.PostData.probability data)
              (CH.PostData.taxonomy_id data) (CH.user_id u) (CH.username u)
              (CH.select_groups u d group_ids) utcnow)
  ∧ pushes out
    = [PushAll "skyportal/REFRESH_SOURCE" [("obj_key", PStr key)];
       PushAll "skyportal/REFRESH_CANDIDATE" [("id", PStr key)]].
Proof.
  intros Htax Hin Hp Hobj gids Hg out id. subst out id.
  unfold CH.post. exec. rewrite Htax. exec. rewrite Hin. exec.
  unfold probability_allowed in Hp.
  destruct (CH.PostData.probability data) as [p|]; [rewrite Hp|]; exec.
  all: fold gids; rewrite Hg; exec.
  all: unfold CH.session_add, CH.internal_key, CH.refresh; exec.
  all: cbn [CH.objs Classification.obj_id]; rewrite Hobj; exec.
  all: cbn [CH.objs CH.classifications]; rewrite Hobj; exec.
  all: cbn [CH.classifications]; rewrite lookup_insert_eq; repeat split.
Qed.

(** ** Words of a text *)

Lemma append_cons (c : ascii) (s t : string) : String c s ++ t = String c (s ++ t).
Proof. reflexivity. Qed.

Lemma append_nil_l (s : string) : EmptyString ++ s = s.
Proof. reflexivity. Qed.

Lemma append_nil_r (s : string) : s ++ EmptyString = s.
Proof.
  induction s as [|c s IH]; [reflexivity|]. now rewrite append_cons, IH.
Qed.

Lemma append_assoc (a b c : string) : (a ++ b) ++ c = a ++ b ++ c.
Proof.
  induction a as [|x a IH]; [reflexivity|]. now rewrite !append_cons, IH.
Qed.

Lemma append_char (a : string) (c : ascii) (s : string) :
  (a ++ String c EmptyString) ++ s = a ++ String c s.
Proof. now rewrite append_assoc, append_cons, append_nil_l. Qed.

Lemma all_chars_app p a b :
  all_chars p (a ++ b) = all_chars p a && all_chars p b.
Proof.
  induction a as [|c a IH]; [reflexivity|].
  rewrite append_cons. cbn [all_chars]. now rewrite IH, andb_assoc.
Qed.

Lemma split_scan_blank ws s :
  blank ws → split_scan None (ws ++ s) = split_scan None s.
Proof.
  unfold blank. induction ws as [|c ws IH]; [reflexivity|].
  cbn [all_chars]. intros [Hc Hws]%andb_prop.
  rewrite append_cons. cbn [split_scan]. rewrite Hc. auto.
Qed.

Lemma split_scan_word acc w s :
  is_word w →
  split_scan acc (w ++ s) =
  split_scan (Some (match acc with Some a => a ++ w | None => w end)) s.
Proof.
  intros [Hne Hw]. revert acc Hne Hw.
  induction w as [|c w IH]; intros acc Hne Hw; [congruence|].
  cbn [all_chars] in Hw. apply andb_prop in Hw as [Hc Hw].
  rewrite append_cons. cbn [split_scan].
  rewrite (negb_true_iff _) in Hc. rewrite Hc.
  destruct w as [|c' w].
  - rewrite append_nil_l. now destruct acc.
  - rewrite IH; [|discriminate|exact Hw].
    destruct acc as [a|]; [|reflexivity].
    now rewrite append_char.
Qed.

Lemma split_scan_separated w s :
  separated s → split_scan (Some w) s = w :: split_scan None s.
Proof.
  destruct s as [|c s]; cbn; [reflexivity|]. now intros ->.
Qed.

Lemma words_split s l : words s l → split s = l.
Proof.
  unfold split. induction 1 as [ws Hws | ws w rest l Hws Hw Hsep _ IH].
  - rewrite <- (append_nil_r ws). now rewrite split_scan_blank.
  - rewrite split_scan_blank by exact Hws.
    rewrite split_scan_word by exact Hw.
    rewrite split_scan_separated by exact Hsep.
    now rewrite IH.
Qed.

Lemma words_after_space c s l :
  isspace c = true → words s l → words (String c s) l.
Proof.
  intros Hc Hw. destruct Hw as [ws Hws | ws w rest l Hws Hw Hsep Hrest].
  - constructor. unfold blank in *. cbn. now rewrite Hc.
  - change (String c (ws ++ w ++ rest)) with (String c ws ++ w ++ rest).
    constructor; auto. unfold blank in *. cbn. now rewrite Hc.
Qed.

Lemma split_scan_words s :
  words s (split_scan None s)
  ∧ ∀ acc, is_word acc → words (acc ++ s) (split_scan (Some acc) s).
Proof.
  induction s as [|c s [IHnone IHsome]].
  - split.
    + now constructor.
    + intros acc Hacc. cbn [split_scan].
      change (acc ++ EmptyString) with (EmptyString ++ acc ++ EmptyString).
      constructor; [reflexivity | exact Hacc | exact I | now constructor].
  - cbn [split_scan]. destruct (isspace c) eqn:Hc; split.
    + now apply words_after_space.
    + intros acc Hacc.
      change (acc ++ String c s) with (EmptyString ++ acc ++ String c s).
      constructor; [reflexivity | exact Hacc | exact Hc |].
      now apply words_after_space.
    + apply (IHsome (String c EmptyString)).
      split; [discriminate | cbn; now rewrite Hc].
    + intros acc [Hne Hacc]. rewrite <- append_char. apply IHsome. split.
      * destruct acc; discriminate.
      * rewrite all_chars_app, Hacc. cbn. now rewrite Hc.
Qed.

(** [s.split()] returns the words of [s], and [s] has no other
    decomposition into words. *)
Lemma split_words s l : words s l ↔ split s = l.
Proof.
  split; [apply words_split|]. intros <-. apply split_scan_words.
Qed.

(** ** Stripping *)

Lemma lstrip_spec p s :
  (∃ a, s = a ++ lstrip p s ∧ all_chars p a = true)
  ∧ ∀ c, first_char (lstrip p s) = Some c → p c = false.
Proof.
  induction s as [|c s [(a & Ha & Hpa) IH]]; cbn [lstrip].
  - split; [now exists EmptyString | discriminate].
  - destruct (p c) eqn:Hc.
    + split; [|exact IH]. exists (String c a).
      rewrite append_cons, <- Ha. cbn [all_chars]. now rewrite Hc, Hpa.
    + split; [now exists EmptyString|]. cbn. now intros ? [= <-].
Qed.

Lemma rstrip_spec p s :
  (∃ b, s = rstrip p s ++ b ∧ all_chars p b = true)
  ∧ (∀ c, last_char (rstrip p s) = Some c → p c = false)
  ∧ (∀ c, first_char s = Some c → p c = false → first_char (rstrip p s) = Some c).
Proof.
  induction s as [|c s ((b & Hb & Hpb) & IHlast & _)]; cbn [rstrip].
  - repeat split; [now exists EmptyString | discriminate | discriminate].
  - destruct (rstrip p s) as [|x r] eqn:Hr.
    + rewrite append_nil_l in Hb. subst b. destruct (p c) eqn:Hc.
      * repeat split; [|discriminate|].
        -- exists (String c s). rewrite append_nil_l. cbn [all_chars].
           now rewrite Hc, Hpb.
        -- cbn. intros ? [= <-]. congruence.
      * repeat split.
        -- exists s. now rewrite append_cons, append_nil_l.
        -- cbn. now intros ? [= <-].
        -- cbn. now intros ? [= <-].
    + repeat split.
      * exists b. now rewrite append_cons, <- Hb.
      * intros y Hy. apply IHlast. exact Hy.
      * cbn. now intros ? [= <-].
Qed.

(** [s.strip(chars)] strips, in the sense above. *)
Lemma strip_stripped p s : stripped p s (strip p s).
Proof.
  unfold strip.
  destruct (lstrip_spec p s) as ((a & Ha & Hpa) & Hfirst).
  destruct (rstrip_spec p (lstrip p s)) as ((b & Hb & Hpb) & Hlast & Hkeep).
  repeat split.
  - exists a, b. repeat split; [|exact Hpa|exact Hpb]. now rewrite <- Hb.
  - intros c Hc. destruct (lstrip p s) as [|x t] eqn:Ht; [discriminate|].
    specialize (Hfirst x eq_refl). specialize (Hkeep x eq_refl Hfirst).
    congruence.
  - exact Hlast.
Qed.

(** ** The candidates of [users_mentioned] *)

Lemma char_in_punctuation c :
  char_in c (replace "@" EmptyString (replace "-" EmptyString string_punctuation))
  = strippable c.
Proof.
  destruct c as [[] [] [] [] [] [] [] []]; vm_compute; reflexivity.
Qed.

Lemma strip_ext p q s : (∀ c, p c = q c) → strip p s = strip q s.
Proof.
  intros Hpq. unfold strip.
  assert (Hl : ∀ t, lstrip p t = lstrip q t).
  { induction t as [|c t IH]; cbn; [reflexivity|]. now rewrite Hpq, IH. }
  assert (Hr : ∀ t, rstrip p t = rstrip q t).
  { induction t as [|c t IH]; cbn; [reflexivity|]. now rewrite Hpq, IH. }
  now rewrite Hl, Hr.
Qed.

Lemma fold_left_collect {A B} (keep : A → bool) (f : A → B) (l : list A) (acc : list B) :
  fold_left (λ acc a, if keep a then (acc ++ [f a])%list else acc) l acc
  = (acc ++ map f (List.filter keep l))%list.
Proof.
  revert acc. induction l as [|a l IH]; intros acc; cbn [fold_left List.filter map].
  - now rewrite app_nil_r.
  - rewrite IH. destruct (keep a); [|reflexivity].
    cbn [map]. now rewrite <- app_assoc.
Qed.

Lemma replace_removes c s : char_in c (replace c EmptyString s) = false.
Proof.
  induction s as [|x s IH]; cbn [replace]; [reflexivity|].
  destruct (Ascii.eqb x c) eqn:E.
  - now rewrite append_nil_l.
  - cbn [char_in]. rewrite IH, orb_false_r, Ascii.eqb_sym. exact E.
Qed.

(** C2, as stated, fails: for the word [@bob@example.org] the helper asks
    for the user [bobexample.org], every at sign gone, where the claim
    keeps the inner one. *)
Lemma C2_inner_at_sign_is_removed :
  mentioned_usernames "@bob@example.org" = ["bobexample.org"]
  ∧ candidates_as_claimed "@bob@example.org" = ["bob@example.org"]
  ∧ mentioned_usernames "@bob@example.org" ≠ candidates_as_claimed "@bob@example.org".
Proof.
  split; [vm_compute; reflexivity|].
  split; [vm_compute; reflexivity|].
  vm_compute. discriminate.
Qed.

(** C2, amended. The candidate usernames are obtained by replacing commas
    with spaces, splitting on whitespace, stripping punctuation other than
    the hyphen and the at sign from both ends of each word, keeping the
    words that begin with an at sign, and removing every at sign from each
    word kept; so no candidate contains one.  The text
    [hi @bob, see @alice-2!] yields [bob] and [alice-2]. *)
Theorem C2_mention_candidates (text : string) :
  let tokens := split (replace "," " " text) in
  mentioned_usernames text
  = map (replace "@" EmptyString)
      (List.filter (startswith "@") (map (strip strippable) tokens))
  ∧ (∀ l, words (replace "," " " text) l ↔ l = tokens)
  ∧ Forall (λ w, stripped strippable w (strip strippable w)) tokens
  ∧ Forall (λ u, char_in "@" u = false) (mentioned_usernames text)
  ∧ mentioned_usernames "hi @bob, see @alice-2!" = ["bob"; "alice-2"].
Proof.
  intros tokens.
  assert (Heq : mentioned_usernames text
                = map (replace "@" EmptyString)
                    (List.filter (startswith "@") (map (strip strippable) tokens))).
  { unfold mentioned_usernames. subst tokens.
    rewrite (fold_left_collect
               (λ w, startswith "@"
                       (strip (λ c, char_in c
                                      (replace "@" EmptyString
                                         (replace "-" EmptyString string_punctuation))) w))
               (λ w, replace "@" EmptyString
                       (strip (λ c, char_in c
                                      (replace "@" EmptyString
                                         (replace "-" EmptyString string_punctuation))) w))).
    cbn [app]. induction (split (replace "," " " text)) as [|w l IH]; [reflexivity|].
    cbn [List.filter map].
    rewrite (strip_ext _ strippable w char_in_punctuation).
    destruct (startswith "@" (strip strippable w)); cbn [map];
      rewrite ?(strip_ext _ strippable w char_in_punctuation); now rewrite IH. }
  split; [exact Heq|]. split; [|split; [|split]].
  - intros l. rewrite split_words. subst tokens. split; congruence.
  - apply Forall_forall. intros w _. apply strip_stripped.
  - rewrite Heq. apply Forall_forall. intros u Hu.
    apply list_elem_of_In, in_map_iff in Hu as (w & <- & _).
    apply replace_removes.
  - vm_compute. reflexivity.
Qed.

(** ** Running the comment handlers *)

Ltac cexec :=
  repeat (exec;
          cbn [CM.groups CM.objs CM.spectra CM.gcn_events CM.shifts CM.users
               CM.notifications CM.comments CM.comments_on_spectra
               CM.comments_on_gcns CM.comments_on_shifts
               CM.set_notifications CM.set_comments CM.set_comments_on_spectra
               CM.set_comments_on_gcns CM.set_comments_on_shifts
               CM.add_comment CM.store_comment CM.remove_comment
               CM.PostData.text CM.PostData.group_ids CM.PostData.attachment
               obj_of hasattr_obj columns set_columns]).

Lemma for_each_flow_push (users : list User.t) (w : world CM.db) :
  CM.for_each users (λ u, flow_push (User.id u) "skyportal/FETCH_NOTIFICATIONS") w
  = (Continue (),
     World (committed w) (pending w)
       (pushed w ++ map (λ u, FlowPush (User.id u) "skyportal/FETCH_NOTIFICATIONS") users)
       (out_headers w) (out_body w)).
Proof.
  revert w. induction users as [|a l IH]; intros w.
  - cbn [CM.for_each map]. exec. rewrite app_nil_r. now destruct w.
  - cbn [CM.for_each map]. exec. rewrite IH.
    cbn [committed pending pushed out_headers out_body].
    now rewrite <- app_assoc.
Qed.

(** ** Updating a comment *)

(** A sound update of a comment on an object, or on a spectrum, commits and
    broadcasts the refresh of its class. *)
Lemma put_object_comment_refreshes (u : CM.principal)
  (schema_load : kind → CM.PutData.t → option string)
  (associated_resource_type resource_id comment_id : string)
  (data : CM.PutData.t) (d : CM.db) (id : Z) (k : kind) (c : comment) (key : string) :
  int_of_str comment_id = Some id →
  resource_kind associated_resource_type = Some k →
  CM.select_comment u Update d k id = Some c →
  CM.comment_resource_id_str c = resource_id →
  schema_load k (CM.without_popped data) = None →
  CM.PutData.group_ids data = None →
  CM.one_is_none (CM.assign (columns c) data) = false →
  (∃ obj_id, obj_of c = Some obj_id ∧ CM.objs d !! obj_id = Some key) →
  let out := run (CM.put u schema_load associated_resource_type resource_id
                    comment_id data) d in
  ended out = Returned (Success CM.NoData)
  ∧ pushes out
    = (PushAll "skyportal/REFRESH_SOURCE" [("obj_key", PStr key)]
       :: match c with
          | CommentOnSpectrum _ _ _ =>
              [PushAll "skyportal/REFRESH_SOURCE_SPECTRA"
                 [("obj_internal_key", PStr key)]]
          | _ => []
          end).
Proof.
  intros Hid Hk Hc Hres Hschema Hgroups Hxor (obj_id & Hobj & Hkey) out.
  subst out. unfold CM.put, CM.find_comment. exec. rewrite Hid. exec.
  rewrite Hk. exec. rewrite Hc. exec. cbn [mbind option_bind]. rewrite Hschema.
  rewrite Hgroups, Hxor. exec. rewrite Hres, String.eqb_refl. exec.
  unfold CM.obj_internal_key, hasattr_obj. exec.
  destruct c as [f o | f s o | f g | f s]; cbn [obj_of set_columns] in *;
    [| | discriminate Hobj | discriminate Hobj]; injection Hobj as ->; exec.
  - unfold CM.store_comment, CM.set_comments. cbn [CM.objs].
    repeat (cbn [CM.objs]; rewrite Hkey; exec). auto.
  - unfold CM.store_comment, CM.set_comments_on_spectra. cbn [CM.objs].
    repeat (cbn [CM.objs]; rewrite Hkey; exec). auto.
Qed.

(** A comment on a GCN event or on a shift has no [obj]: an update that
    passes every check is committed, and the request then dies of
    AttributeError while it builds the payload, with nothing broadcast. *)
Lemma put_gcn_or_shift_comment_raises (u : CM.principal)
  (schema_load : kind → CM.PutData.t → option string)
  (associated_resource_type resource_id comment_id : string)
  (data : CM.PutData.t) (d : CM.db) (id : Z) (k : kind) (c : comment) :
  int_of_str comment_id = Some id →
  resource_kind associated_resource_type = Some k →
  CM.select_comment u Update d k id = Some c →
  CM.comment_resource_id_str c = resource_id →
  schema_load k (CM.without_popped data) = None →
  CM.PutData.group_ids data = None →
  CM.one_is_none (CM.assign (columns c) data) = false →
  obj_of c = None →
  let out := run (CM.put u schema_load associated_resource_type resource_id
                    comment_id data) d in
  ended out = Raised AttributeError
  ∧ pushes out = []
  ∧ store out
    = CM.store_comment d id (set_columns c (CM.assign (columns c) data)).
Proof.
  intros Hid Hk Hc Hres Hschema Hgroups Hxor Hobj out.
  subst out. unfold CM.put, CM.find_comment. exec. rewrite Hid. exec.
  rewrite Hk. exec. rewrite Hc. exec. cbn [mbind option_bind]. rewrite Hschema.
  rewrite Hgroups, Hxor. exec. rewrite Hres, String.eqb_refl. exec.
  unfold CM.obj_internal_key, hasattr_obj. exec.
  destruct c as [f o | f s o | f g | f s]; cbn [obj_of set_columns columns] in *;
    [discriminate Hobj | discriminate Hobj | |]; exec; auto.
Qed.

(** C3 on the code: editing the text of the scenario's comment on GCN
    event 3, or on shift 4, ends in AttributeError with no
    [REFRESH_SOURCE_GCN] or [REFRESH_SHIFT] sent, although the new text has
    been committed; the same edit of the comment on the object or on the
    spectrum succeeds with its events. *)
Theorem C3_gcn_and_shift_updates_raise :
  let edit := CM.PutData.Build (Some (Some "edited")) None None None in
  let put kind resource_id :=
    run (CM.put Scenario.commenter Scenario.lenient_schema kind resource_id "1" edit)
        Scenario.comment_store in
  (ended (put "gcn_event" "3") = Raised AttributeError
   ∧ pushes (put "gcn_event" "3") = []
   ∧ (Columns.text ∘ fst) <$> rows (CM.comments_on_gcns (store (put "gcn_event" "3"))) !! 1
     = Some (Some "edited"))
  ∧ (ended (put "shift" "4") = Raised AttributeError
     ∧ pushes (put "shift" "4") = []
     ∧ (Columns.text ∘ fst) <$> rows (CM.comments_on_shifts (store (put "shift" "4"))) !! 1
       = Some (Some "edited"))
  ∧ (ended (put "sources" "ZTF21abc") = Returned (Success CM.NoData)
     ∧ pushes (put "sources" "ZTF21abc")
       = [PushAll "skyportal/REFRESH_SOURCE" [("obj_key", PStr "key-abc")]])
  ∧ (ended (put "spectra" "5") = Returned (Success CM.NoData)
     ∧ pushes (put "spectra" "5")
       = [PushAll "skyportal/REFRESH_SOURCE" [("obj_key", PStr "key-abc")];
          PushAll "skyportal/REFRESH_SOURCE_SPECTRA"
            [("obj_internal_key", PStr "key-abc")]]).
Proof.
  repeat split; vm_compute; reflexivity.
Qed.

(** ** Downloading an attachment *)

(** The steps every download goes through before it looks at the
    attachment. *)
Lemma attachment_get_found (u : CM.principal) (as_bool : string → bool)
  (b64decode decode : string → option string) (query : gmap string string)
  (associated_resource_type resource_id comment_id : string)
  (d : CM.db) (id : Z) (k : kind) (c : comment) :
  int_of_str comment_id = Some id →
  resource_kind associated_resource_type = Some k →
  CM.select_comment u Read d k id = Some c →
  CM.comment_resource_id_str c = resource_id →
  run (CA.get u as_bool b64decode decode query associated_resource_type
         resource_id comment_id) d
  = match Columns.attachment_bytes (columns c) with
    | None | Some EmptyString =>
        Outcome (Returned (Error 400 "Comment has no attachment")) d [] [] []
    | Some bytes =>
        let sent :=
          [("Content-Disposition",
            "attachment; filename="
            ++ default "None" (Columns.attachment_name (columns c)));
           ("Content-type", "application/octet-stream")] in
        if match query !! "download" with Some v => as_bool v | None => true end then
          match b64decode bytes with
          | Some raw => Outcome Fell_through d [] sent [raw]
          | None => Outcome (Raised BinasciiError) d [] sent []
          end
        else
          match b64decode bytes with
          | Some raw =>
              match decode raw with
              | Some text =>
                  Outcome (Returned (Success (CM.AttachmentText id text))) d [] [] []
              | None => Outcome (Raised UnicodeDecodeError) d [] [] []
              end
          | None => Outcome (Raised BinasciiError) d [] [] []
          end
    end.
Proof.
  intros Hid Hk Hc Hres.
  unfold CA.get, CM.find_comment, get_query_argument_bool. exec.
  rewrite Hid. exec. rewrite Hk. exec. rewrite Hc. exec.
  rewrite Hres, String.eqb_refl. exec.
  destruct (Columns.attachment_bytes (columns c)) as [[|b bs]|]; exec;
    [reflexivity | | reflexivity].
  destruct (match query !! "download" with Some v => as_bool v | None => true end);
    exec.
  - destruct (b64decode (String b bs)); exec; reflexivity.
  - destruct (b64decode (String b bs)) as [raw|]; exec; [|reflexivity].
    destruct (decode raw); exec; reflexivity.
Qed.

(** C4 as the claim has it fails on an attachment that is not base64: the
    body [abc] is accepted and stored as it is, and its download raises
    binascii.Error, with or without [download]. *)
Theorem C4_undecodable_attachment_raises :
  let posted :=
    run (CM.post Scenario.commenter "sources" "ZTF21abc"
           (CM.PostData.Build (Some "see file") None (Some Scenario.not_base64)))
        Scenario.comment_store in
  let get query :=
    run (CA.get Scenario.commenter Scenario.as_bool Scenario.b64decode Scenario.decode
           query "sources" "ZTF21abc" "2") (store posted) in
  ended posted = Returned (Success (CM.CommentId 2))
  ∧ (Columns.attachment_bytes ∘ columns
       <$> CM.select_comment Scenario.commenter Read (store posted) Sources 2)
    = Some (Some "abc")
  ∧ (ended (get ∅) = Raised BinasciiError ∧ body (get ∅) = [])
  ∧ ended (get {[ "download" := "false" ]}) = Raised BinasciiError.
Proof.
  repeat split; vm_compute; reflexivity.
Qed.

(** C4, amended.  For a comment the caller may read, asked for under its
    own resource: without attachment bytes, or with empty ones, the answer
    is the error "Comment has no attachment"; with bytes that are base64,
    the decoded bytes go out with the two headers when [download] is true
    or absent, and when [download] is false, and the decoded bytes are
    text, the answer is the JSON body with the comment id and that
    text. *)
Theorem C4_attachment_download (u : CM.principal) (as_bool : string → bool)
  (b64decode decode : string → option string) (query : gmap string string)
  (associated_resource_type resource_id comment_id : string)
  (d : CM.db) (id : Z) (k : kind) (c : comment) :
  int_of_str comment_id = Some id →
  resource_kind associated_resource_type = Some k →
  CM.select_comment u Read d k id = Some c →
  CM.comment_resource_id_str c = resource_id →
  let out := run (CA.get u as_bool b64decode decode query associated_resource_type
                    resource_id comment_id) d in
  let download := match query !! "download" with Some v => as_bool v | None => true end in
  match Columns.attachment_bytes (columns c) with
  | None | Some EmptyString =>
      out = Outcome (Returned (Error 400 "Comment has no attachment")) d [] [] []
  | Some bytes =>
      ∀ raw, b64decode bytes = Some raw →
        if download then
          out = Outcome Fell_through d []
                  [("Content-Disposition",
                    "attachment; filename="
                    ++ default "None" (Columns.attachment_name (columns c)));
                   ("Content-type", "application/octet-stream")]
                  [raw]
        else
          ∀ text, decode raw = Some text →
            out = Outcome (Returned (Success (CM.AttachmentText id text))) d [] [] []
  end.
Proof.
  intros Hid Hk Hc Hres out download. subst out download.
  rewrite (attachment_get_found u as_bool b64decode decode query
             associated_resource_type resource_id comment_id d id k c Hid Hk Hc Hres).
  destruct (Columns.attachment_bytes (columns c)) as [[|b bs]|];
    [reflexivity | | reflexivity].
  intros raw Hraw. cbv zeta. rewrite Hraw.
  destruct (match query !! "download" with Some v => as_bool v | None => true end);
    [reflexivity|].
  intros text Htext. rewrite Htext. reflexivity.
Qed.

(** C4 in the scenario: comment 1 carries [note.txt], the base64 of [hi].
    Plainly asked for it is sent raw; with [download=false] it comes as
    JSON. *)
Lemma C4_attachment_download_witness :
  let get query :=
    run (CA.get Scenario.commenter Scenario.as_bool Scenario.b64decode Scenario.decode
           query "sources" "ZTF21abc" "1") Scenario.comment_store in
  get ∅
  = Outcome Fell_through Scenario.comment_store []
      [("Content-Disposition", "attachment; filename=note.txt");
       ("Content-type", "application/octet-stream")] ["hi"]
  ∧ get {[ "download" := "false" ]}
    = Outcome (Returned (Success (CM.AttachmentText 1 "hi"))) Scenario.comment_store
        [] [] [].
Proof.
  intros get.
  pose proof (λ query,
                C4_attachment_download Scenario.commenter Scenario.as_bool
                  Scenario.b64decode Scenario.decode query "sources" "ZTF21abc" "1"
                  Scenario.comment_store 1 Sources
                  (Comment Scenario.with_attachment "ZTF21abc")
                  eq_refl eq_refl eq_refl eq_refl) as H.
  split.
  - exact (H ∅ "hi" eq_refl).
  - exact (H {[ "download" := "false" ]} "hi" eq_refl "hi" eq_refl).
Defined.

(** ** Attachment name and bytes go together *)

(** An attachment object without [body], or without [name], or an
    attachment that is no object at all, is refused before the session is
    opened. *)
Lemma post_malformed_attachment (u : CM.principal)
  (associated_resource_type resource_id : string) (data : CM.PostData.t)
  (d : CM.db) (a : CM.attachment) :
  CM.PostData.attachment data = Some a →
  (∀ body name, a ≠ CM.Dict (Some body) (Some name)) →
  run (CM.post u associated_resource_type resource_id data) d
  = Outcome (Returned (Error 400 "Malformed comment attachment")) d [] [] [].
Proof.
  intros Ha Hbad. unfold CM.post. rewrite Ha.
  destruct a as [|[body|] [name|]]; exec; try reflexivity.
  now destruct (Hbad body name).
Qed.

(** An update that would leave one of the two without the other is
    refused, and the store is as before. *)
Lemma put_unpaired_attachment (u : CM.principal)
  (schema_load : kind → CM.PutData.t → option string)
  (associated_resource_type resource_id comment_id : string)
  (data : CM.PutData.t) (d : CM.db) (id : Z) (k : kind) (c : comment) :
  int_of_str comment_id = Some id →
  resource_kind associated_resource_type = Some k →
  CM.select_comment u Update d k id = Some c →
  schema_load k (CM.without_popped data) = None →
  CM.one_is_none (CM.assign (columns c) data) = true →
  run (CM.put u schema_load associated_resource_type resource_id comment_id data) d
  = Outcome
      (Returned (Error 400
         ("This update leaves one of attachment name or "
          ++ "attachment bytes null. Both fields must be "
          ++ "filled, or both must be null."))) d [] [] [].
Proof.
  intros Hid Hk Hc Hschema Hxor.
  unfold CM.put, CM.find_comment. exec. rewrite Hid. exec.
  rewrite Hk. exec. rewrite Hc. exec. cbn [mbind option_bind]. rewrite Hschema. exec.
  rewrite Hxor. exec. reflexivity.
Qed.

(** C6 on the code: a creation whose attachment carries both keys, the
    name being JSON null, is accepted; the comment it stores has attachment
    bytes and no attachment name. *)
Theorem C6_null_name_creates_unpaired_attachment :
  let data :=
    CM.PostData.Build (Some "spectrum attached")  None
      (Some (CM.Dict (Some (Some "data:text/plain;base64,aGk=")) (Some None))) in
  let out := run (CM.post Scenario.commenter "sources" "ZTF21abc" data)
                 Scenario.comment_store in
  ended out = Returned (Success (CM.CommentId 2))
  ∧ (Columns.attachment_bytes ∘ fst) <$> rows (CM.comments (store out)) !! 2
    = Some (Some "aGk=")
  ∧ (Columns.attachment_name ∘ fst) <$> rows (CM.comments (store out)) !! 2
    = Some None.
Proof.
  repeat split; vm_compute; reflexivity.
Qed.

(** ** Group ids left empty *)

(** A comment on an existing object, without attachment, whose groups
    resolve: it is stored under the next key of the table, with the groups
    resolved, and the mentioned users are notified. *)
Lemma post_comment_on_source (u : CM.principal)
  (associated_resource_type resource_id text : string)
  (requested : option (list Z)) (d : CM.db) (key : string) :
  resource_kind associated_resource_type = Some Sources →
  CM.objs d !! resource_id = Some key →
  let group_ids :=
    match requested with
    | Some (g :: more) => g :: more
    | _ => CM.accessible_groups u
    end in
  CM.groups_differ (CM.select_groups u d group_ids) group_ids = false →
  let out := run (CM.post u associated_resource_type resource_id
                    (CM.PostData.Build (Some text) requested None)) d in
  let id := next_id (CM.comments d) in
  ended out = Returned (Success (CM.CommentId id))
  ∧ rows (CM.comments (store out)) !! id
    = Some (Columns.Build (Some text) None None (CM.user_id u)
              (CM.select_groups u d group_ids) (CM.is_token u), resource_id)
  ∧ pushes out
    = (map (λ x, FlowPush (User.id x) "skyportal/FETCH_NOTIFICATIONS")
           (mentioned u d text)
       ++ [PushAll "skyportal/REFRESH_SOURCE" [("obj_key", PStr key)]])%list.
Proof.
  intros Hk Hobj gids Hg out id. subst out id.
  unfold CM.post. cexec.
  fold gids. rewrite Hg. cexec. rewrite Hk. cexec. unfold users_mentioned. cexec.
  unfold CM.session_add. cexec. rewrite Hobj. cexec.
  rewrite for_each_flow_push. cexec.
  unfold CM.obj_internal_key. cexec. rewrite Hobj. cexec.
  unfold insert_row. cbn [rows next_id]. rewrite lookup_insert_eq.
  repeat split.
Qed.

(** ** Group ids: empty lists, and ids that do not resolve *)

Lemma select_groups_nil_ch (u : CH.principal) (d : CH.db) :
  CH.select_groups u d [] = [].
Proof.
  unfold CH.select_groups. induction (CH.groups d) as [|g l IH]; [reflexivity|].
  rewrite filter_cons_False; [exact IH|]. intros [_ Hin]. inversion Hin.
Qed.

Lemma groups_differ_nil_ch (u : CH.principal) (d : CH.db) :
  CH.groups_differ (CH.select_groups u d []) [] = false.
Proof.
  rewrite select_groups_nil_ch. unfold CH.groups_differ.
  apply bool_decide_eq_false. intros H. now apply H.
Qed.

(** C10. An explicit [group_ids: []] is taken as absent by comment
    creation, which answers exactly as without the member and stores the
    comment with the caller's accessible groups; classification creation
    keeps the empty list, and the classification it creates has no group. *)
Theorem C10_empty_group_ids
  (commenter : CM.principal) (classifier : CH.principal) :
  (∀ associated_resource_type resource_id text attachment d,
     run (CM.post commenter associated_resource_type resource_id
            (CM.PostData.Build text (Some []) attachment)) d
     = run (CM.post commenter associated_resource_type resource_id
              (CM.PostData.Build text None attachment)) d)
  ∧ (∀ associated_resource_type resource_id text d key,
       resource_kind associated_resource_type = Some Sources →
       CM.objs d !! resource_id = Some key →
       CM.groups_differ
         (CM.select_groups commenter d (CM.accessible_groups commenter))
         (CM.accessible_groups commenter) = false →
       let out := run (CM.post commenter associated_resource_type resource_id
                         (CM.PostData.Build (Some text) (Some []) None)) d in
       ended out = Returned (Success (CM.CommentId (next_id (CM.comments d))))
       ∧ (Columns.groups ∘ fst) <$> rows (CM.comments (store out)) !! next_id (CM.comments d)
         = Some (CM.select_groups commenter d (CM.accessible_groups commenter)))
  ∧ (∀ str_number utcnow obj_id label taxonomy_id probability d taxonomy key,
       CH.select_taxonomy classifier d taxonomy_id = Some taxonomy →
       py_in label (allowed_classes taxonomy) = true →
       probability_allowed probability →
       CH.objs d !! obj_id = Some key →
       let out := run (CH.post classifier str_number utcnow
                         (CH.PostData.Build obj_id label taxonomy_id probability
                            (Some []))) d in
       ended out = Returned (Success (CH.ClassificationId (CH.classification_seq d)))
       ∧ Classification.groups <$> CH.classifications (store out) !! CH.classification_seq d
         = Some []).
Proof.
  split; [|split].
  - reflexivity.
  - intros t r text d key Hk Hobj Hg out.
    destruct (post_comment_on_source commenter t r text (Some []) d key Hk Hobj Hg)
      as (He & Hrow & _).
    split; [exact He|]. subst out. rewrite Hrow. reflexivity.
  - intros str_number utcnow obj_id label taxonomy_id probability d taxonomy key
      Htax Hin Hp Hobj out.
    destruct (post_classification classifier str_number utcnow
                (CH.PostData.Build obj_id label taxonomy_id probability (Some []))
                d taxonomy key Htax Hin Hp Hobj (groups_differ_nil_ch classifier d))
      as (He & Hrow & _).
    split; [exact He|]. subst out. rewrite Hrow.
    cbn [fmap option_fmap option_map Classification.groups default from_option
         CH.PostData.group_ids id].
    now rewrite select_groups_nil_ch.
Qed.

(** C10 in the scenario: alice, with accessible groups 1 and 2, posts with
    [group_ids: []]; her comment gets groups 1 and 2, her classification
    none. *)
Lemma C10_empty_group_ids_witness :
  let comment :=
    run (CM.post Scenario.commenter "sources" "ZTF21abc"
           (CM.PostData.Build (Some "nice") (Some []) None)) Scenario.comment_store in
  let classification :=
    run (CH.post Scenario.classifier (λ _, "1.5") 2000
           (CH.PostData.Build "ZTF21abc" "Ia" 7 None (Some [])))
        Scenario.classification_store in
  (Columns.groups ∘ fst) <$> rows (CM.comments (store comment)) !! 2 = Some [1; 2]
  ∧ Classification.groups <$> CH.classifications (store classification) !! 2 = Some [].
Proof.
  intros comment classification.
  destruct (C10_empty_group_ids Scenario.commenter Scenario.classifier) as (_ & Hc & Hk).
  split.
  - refine (proj2 (Hc "sources" "ZTF21abc" "nice" Scenario.comment_store "key-abc" _ _ _)).
    + vm_compute. reflexivity.
    + vm_compute. reflexivity.
    + vm_compute. reflexivity.
  - refine (proj2 (Hk (λ _, "1.5") 2000 "ZTF21abc" "Ia" 7 None
                      Scenario.classification_store Scenario.taxonomy "key-abc" _ _ _ _)).
    + vm_compute. reflexivity.
    + vm_compute. reflexivity.
    + exact I.
    + vm_compute. reflexivity.
Defined.

(** *** Ids that do not resolve *)

Lemma ch_post_unresolved (u : CH.principal) str_number utcnow obj_id label taxonomy_id
  probability (group_ids : list Z) (d : CH.db) :
  ¬ resolved_ch u d group_ids →
  let out := run (CH.post u str_number utcnow
                    (CH.PostData.Build obj_id label taxonomy_id probability
                       (Some group_ids))) d in
  failed out ∧ store out = d ∧ pushes out = [].
Proof.
  intros Hno out. subst out.
  assert (Hg : CH.groups_differ (CH.select_groups u d group_ids) group_ids = true).
  { apply bool_decide_eq_true. exact Hno. }
  unfold CH.post, failed. exec.
  cbn [CH.PostData.group_ids CH.PostData.taxonomy_id CH.PostData.classification
       CH.PostData.probability CH.PostData.obj_id default from_option id].
  rewrite Hg. cases; auto.
Qed.

Lemma ch_put_unresolved (u : CH.principal) schema_load classification_id
  label obj_id taxonomy_id probability (group_ids : list Z) (d : CH.db) :
  ¬ resolved_ch u d group_ids →
  let out := run (CH.put u schema_load classification_id
                    (CH.PutData.Build label obj_id taxonomy_id probability
                       (Some group_ids))) d in
  failed out ∧ store out = d ∧ pushes out = [].
Proof.
  intros Hno out. subst out.
  assert (Hg : CH.groups_differ (CH.select_groups u d group_ids) group_ids = true).
  { apply bool_decide_eq_true. exact Hno. }
  unfold CH.put, failed. exec.
  cbn [CH.PutData.group_ids CH.PutData.taxonomy_id CH.PutData.classification
       CH.PutData.probability CH.PutData.obj_id].
  rewrite Hg. cases; auto.
Qed.

Lemma cm_post_unresolved (u : CM.principal) associated_resource_type resource_id
  text attachment (g : Z) (more : list Z) (d : CM.db) :
  ¬ resolved_cm u d (g :: more) →
  let out := run (CM.post u associated_resource_type resource_id
                    (CM.PostData.Build text (Some (g :: more)) attachment)) d in
  failed out ∧ store out = d ∧ pushes out = [].
Proof.
  intros Hno out. subst out.
  assert (Hg : CM.groups_differ (CM.select_groups u d (g :: more)) (g :: more) = true).
  { apply bool_decide_eq_true. exact Hno. }
  unfold CM.post, failed. cexec.
  destruct attachment as [[|[[body|]|] [name|]]|]; cexec; auto.
  all: rewrite Hg; cexec; auto.
Qed.

Lemma cm_put_unresolved (u : CM.principal) schema_load associated_resource_type
  resource_id comment_id text attachment_name attachment_bytes
  (group_ids : list Z) (d : CM.db) :
  ¬ resolved_cm u d group_ids →
  let out := run (CM.put u schema_load associated_resource_type resource_id comment_id
                    (CM.PutData.Build text attachment_name attachment_bytes
                       (Some group_ids))) d in
  failed out ∧ store out = d ∧ pushes out = [].
Proof.
  intros Hno out. subst out.
  assert (Hg : CM.groups_differ (CM.select_groups u d group_ids) group_ids = true).
  { apply bool_decide_eq_true. exact Hno. }
  unfold CM.put, CM.find_comment, failed. cexec.
  destruct (int_of_str comment_id); cexec; auto.
  destruct (resource_kind associated_resource_type) as [k|]; cexec; auto.
  destruct (CM.select_comment u Update d k z); cexec; auto.
  cbn [mbind option_bind].
  destruct (schema_load k _); cexec; auto.
  destruct (CM.one_is_none _); cexec; auto.
  cbn [CM.PutData.group_ids]. rewrite Hg. cexec. auto.
Qed.

Lemma ch_post_groups_error (u : CH.principal) str_number utcnow obj_id label taxonomy_id
  probability (group_ids : list Z) (d : CH.db) taxonomy :
  ¬ resolved_ch u d group_ids →
  CH.select_taxonomy u d taxonomy_id = Some taxonomy →
  py_in label (allowed_classes taxonomy) = true →
  probability_allowed probability →
  ended (run (CH.post u str_number utcnow
                (CH.PostData.Build obj_id label taxonomy_id probability
                   (Some group_ids))) d)
  = Returned (groups_not_found group_ids).
Proof.
  intros Hno Htax Hin Hp.
  assert (Hg : CH.groups_differ (CH.select_groups u d group_ids) group_ids = true).
  { apply bool_decide_eq_true. exact Hno. }
  unfold CH.post. exec.
  cbn [CH.PostData.group_ids CH.PostData.taxonomy_id CH.PostData.classification
       CH.PostData.probability CH.PostData.obj_id default from_option id].
  rewrite Htax. exec. rewrite Hin, Hg. exec.
  unfold probability_allowed in Hp.
  destruct probability as [p|]; [rewrite Hp|]; exec; reflexivity.
Qed.

Lemma ch_put_groups_error (u : CH.principal) schema_load classification_id
  label obj_id taxonomy_id probability (group_ids : list Z) (d : CH.db) id c :
  ¬ resolved_ch u d group_ids →
  int_of_str classification_id = Some id →
  CH.select_classification u Update d id = Some c →
  schema_load (CH.PutData.Build label obj_id taxonomy_id probability None) = None →
  ended (run (CH.put u schema_load classification_id
                (CH.PutData.Build label obj_id taxonomy_id probability
                   (Some group_ids))) d)
  = Returned (groups_not_found group_ids).
Proof.
  intros Hno Hid Hc Hschema.
  assert (Hg : CH.groups_differ (CH.select_groups u d group_ids) group_ids = true).
  { apply bool_decide_eq_true. exact Hno. }
  unfold CH.put. exec.
  cbn [CH.PutData.group_ids CH.PutData.taxonomy_id CH.PutData.classification
       CH.PutData.probability CH.PutData.obj_id].
  rewrite Hid. exec. rewrite Hc. exec. rewrite Hschema, Hg. exec. reflexivity.
Qed.

Lemma cm_post_groups_error (u : CM.principal) associated_resource_type resource_id
  text attachment (g : Z) (more : list Z) (d : CM.db) :
  ¬ resolved_cm u d (g :: more) →
  attachment_readable attachment →
  ended (run (CM.post u associated_resource_type resource_id
                (CM.PostData.Build text (Some (g :: more)) attachment)) d)
  = Returned (groups_not_found (g :: more)).
Proof.
  intros Hno Hatt.
  assert (Hg : CM.groups_differ (CM.select_groups u d (g :: more)) (g :: more) = true).
  { apply bool_decide_eq_true. exact Hno. }
  unfold CM.post. cexec.
  destruct attachment as [[|[[body|]|] [name|]]|]; try destruct Hatt; cexec.
  all: rewrite Hg; cexec; reflexivity.
Qed.

Lemma cm_put_groups_error (u : CM.principal) schema_load associated_resource_type
  resource_id comment_id (data : CM.PutData.t) (group_ids : list Z) (d : CM.db) id k c :
  CM.PutData.group_ids data = Some group_ids →
  ¬ resolved_cm u d group_ids →
  int_of_str comment_id = Some id →
  resource_kind associated_resource_type = Some k →
  CM.select_comment u Update d k id = Some c →
  schema_load k (CM.without_popped data) = None →
  CM.one_is_none (CM.assign (columns c) data) = false →
  ended (run (CM.put u schema_load associated_resource_type resource_id comment_id
                data) d)
  = Returned (groups_not_found group_ids).
Proof.
  intros Hgids Hno Hid Hk Hc Hschema Hxor.
  assert (Hg : CM.groups_differ (CM.select_groups u d group_ids) group_ids = true).
  { apply bool_decide_eq_true. exact Hno. }
  unfold CM.put, CM.find_comment. cexec. rewrite Hid. cexec. rewrite Hk. cexec.
  rewrite Hc. cexec. cbn [mbind option_bind]. rewrite Hschema, Hxor, Hgids. cexec.
  rewrite Hg. cexec. reflexivity.
Qed.

(** C7, as stated, fails for comment creation: with the explicit list
    [group_ids: []] the request succeeds, and the groups resolved and
    attached are alice's groups 1 and 2, not the empty set requested. *)
Lemma C7_empty_list_is_not_the_resolved_set :
  let out :=
    run (CM.post Scenario.commenter "sources" "ZTF21abc"
           (CM.PostData.Build (Some "nice") (Some []) None)) Scenario.comment_store in
  ended out = Returned (Success (CM.CommentId 2))
  ∧ (Columns.groups ∘ fst) <$> rows (CM.comments (store out)) !! 2 = Some [1; 2]
  ∧ (list_to_set [1; 2] : gset Z) ≠ list_to_set [].
Proof.
  split; [vm_compute; reflexivity|]. split; [vm_compute; reflexivity|].
  intros H. apply (bool_decide_eq_true_2 _) in H. vm_compute in H. discriminate H.
Qed.

(** C7, amended. For a classification create or update, a comment update,
    and a comment create whose explicit [group_ids] list is not empty: the
    operation succeeds only if the groups resolved for the caller have
    exactly the requested ids; otherwise it fails with the store as it was
    and nothing pushed, and the failure is the 400 error about the groups
    whenever the checks placed before the group check pass. *)
Theorem C7_unresolved_group_ids_abort
  (classifier : CH.principal) (commenter : CM.principal) :
  (∀ str_number utcnow obj_id label taxonomy_id probability group_ids d,
     let out := run (CH.post classifier str_number utcnow
                       (CH.PostData.Build obj_id label taxonomy_id probability
                          (Some group_ids))) d in
     (∀ x, ended out = Returned (Success x) → resolved_ch classifier d group_ids)
     ∧ (¬ resolved_ch classifier d group_ids →
        failed out ∧ store out = d ∧ pushes out = []
        ∧ ∀ taxonomy,
            CH.select_taxonomy classifier d taxonomy_id = Some taxonomy →
            py_in label (allowed_classes taxonomy) = true →
            probability_allowed probability →
            ended out = Returned (groups_not_found group_ids)))
  ∧ (∀ schema_load classification_id label obj_id taxonomy_id probability group_ids d,
       let out := run (CH.put classifier schema_load classification_id
                         (CH.PutData.Build label obj_id taxonomy_id probability
                            (Some group_ids))) d in
       (∀ x, ended out = Returned (Success x) → resolved_ch classifier d group_ids)
       ∧ (¬ resolved_ch classifier d group_ids →
          failed out ∧ store out = d ∧ pushes out = []
          ∧ ∀ id c,
              int_of_str classification_id = Some id →
              CH.select_classification classifier Update d id = Some c →
              schema_load (CH.PutData.Build label obj_id taxonomy_id probability None)
              = None →
              ended out = Returned (groups_not_found group_ids)))
  ∧ (∀ associated_resource_type resource_id text attachment g more d,
       let out := run (CM.post commenter associated_resource_type resource_id
                         (CM.PostData.Build text (Some (g :: more)) attachment)) d in
       (∀ x, ended out = Returned (Success x) → resolved_cm commenter d (g :: more))
       ∧ (¬ resolved_cm commenter d (g :: more) →
          failed out ∧ store out = d ∧ pushes out = []
          ∧ (attachment_readable attachment →
             ended out = Returned (groups_not_found (g :: more)))))
  ∧ (∀ schema_load associated_resource_type resource_id comment_id text
       attachment_name attachment_bytes group_ids d,
       let data := CM.PutData.Build text attachment_name attachment_bytes
                     (Some group_ids) in
       let out := run (CM.put commenter schema_load associated_resource_type
                         resource_id comment_id data) d in
       (∀ x, ended out = Returned (Success x) → resolved_cm commenter d group_ids)
       ∧ (¬ resolved_cm commenter d group_ids →
          failed out ∧ store out = d ∧ pushes out = []
          ∧ ∀ id k c,
              int_of_str comment_id = Some id →
              resource_kind associated_resource_type = Some k →
              CM.select_comment commenter Update d k id = Some c →
              schema_load k (CM.without_popped data) = None →
              CM.one_is_none (CM.assign (columns c) data) = false →
              ended out = Returned (groups_not_found group_ids))).
Proof.
  split; [|split; [|split]].
  - intros str_number utcnow obj_id label taxonomy_id probability group_ids d out.
    pose proof (ch_post_unresolved classifier str_number utcnow obj_id label
                  taxonomy_id probability group_ids d) as Hun.
    split.
    + intros x Hx. unfold resolved_ch in *.
      destruct (decide ((list_to_set (CH.select_groups classifier d group_ids) : gset Z)
                        = list_to_set group_ids)) as [H|H]; [exact H|].
      destruct (Hun H) as (Hf & _). unfold failed in Hf. fold out in Hf.
      rewrite Hx in Hf. destruct Hf.
    + intros H. destruct (Hun H) as (Hf & Hs & Hp). repeat split; auto.
      intros taxonomy Htax Hin Hprob. now apply (ch_post_groups_error _ _ _ _ _ _ _ _ _ taxonomy).
  - intros schema_load classification_id label obj_id taxonomy_id probability group_ids d out.
    pose proof (ch_put_unresolved classifier schema_load classification_id label obj_id
                  taxonomy_id probability group_ids d) as Hun.
    split.
    + intros x Hx. unfold resolved_ch in *.
      destruct (decide ((list_to_set (CH.select_groups classifier d group_ids) : gset Z)
                        = list_to_set group_ids)) as [H|H]; [exact H|].
      destruct (Hun H) as (Hf & _). unfold failed in Hf. fold out in Hf.
      rewrite Hx in Hf. destruct Hf.
    + intros H. destruct (Hun H) as (Hf & Hs & Hp). repeat split; auto.
      intros id c Hid Hc Hschema.
      now apply (ch_put_groups_error _ _ _ _ _ _ _ _ _ id c).
  - intros t r text attachment g more d out.
    pose proof (cm_post_unresolved commenter t r text attachment g more d) as Hun.
    split.
    + intros x Hx. unfold resolved_cm in *.
      destruct (decide ((list_to_set (CM.select_groups commenter d (g :: more)) : gset Z)
                        = list_to_set (g :: more))) as [H|H]; [exact H|].
      destruct (Hun H) as (Hf & _). unfold failed in Hf. fold out in Hf.
      rewrite Hx in Hf. destruct Hf.
    + intros H. destruct (Hun H) as (Hf & Hs & Hp). repeat split; auto.
      intros Hatt. now apply cm_post_groups_error.
  - intros schema_load t r comment_id text attachment_name attachment_bytes group_ids d
      data out.
    pose proof (cm_put_unresolved commenter schema_load t r comment_id text
                  attachment_name attachment_bytes group_ids d) as Hun.
    split.
    + intros x Hx. unfold resolved_cm in *.
      destruct (decide ((list_to_set (CM.select_groups commenter d group_ids) : gset Z)
                        = list_to_set group_ids)) as [H|H]; [exact H|].
      destruct (Hun H) as (Hf & _). unfold failed in Hf. fold data out in Hf.
      rewrite Hx in Hf. destruct Hf.
    + intros H. destruct (Hun H) as (Hf & Hs & Hp). repeat split; auto.
      intros id k c Hid Hk Hc Hschema Hxor.
      now apply (cm_put_groups_error _ _ _ _ _ data group_ids d id k c).
Qed.

(** C7, amended, in the scenario: group 9 does not exist, and each of the
    four writes that asks for groups 1 and 9 gets the error about the
    groups and leaves the store alone. *)
Lemma C7_unresolved_group_ids_abort_witness :
  let posted :=
    run (CH.post Scenario.classifier (λ _, "1.5") 2000
           (CH.PostData.Build "ZTF21abc" "Ia" 7 None (Some [1; 9])))
        Scenario.classification_store in
  let updated :=
    run (CH.put Scenario.classifier (λ _, None) "1"
           (CH.PutData.Build (Some "Ia") None None None (Some [1; 9])))
        Scenario.classification_store in
  let commented :=
    run (CM.post Scenario.commenter "sources" "ZTF21abc"
           (CM.PostData.Build (Some "nice") (Some [1; 9]) None))
        Scenario.comment_store in
  let edited :=
    run (CM.put Scenario.commenter Scenario.lenient_schema "sources" "ZTF21abc" "1"
           (CM.PutData.Build (Some (Some "edited")) None None (Some [1; 9])))
        Scenario.comment_store in
  ¬ resolved_ch Scenario.classifier Scenario.classification_store [1; 9]
  ∧ ¬ resolved_cm Scenario.commenter Scenario.comment_store [1; 9]
  ∧ (ended posted = Returned (groups_not_found [1; 9])
     ∧ store posted = Scenario.classification_store)
  ∧ (ended updated = Returned (groups_not_found [1; 9])
     ∧ store updated = Scenario.classification_store)
  ∧ (ended commented = Returned (groups_not_found [1; 9])
     ∧ store commented = Scenario.comment_store)
  ∧ (ended edited = Returned (groups_not_found [1; 9])
     ∧ store edited = Scenario.comment_store).
Proof.
  intros posted updated commented edited.
  assert (Hch : ¬ resolved_ch Scenario.classifier Scenario.classification_store [1; 9]).
  { intros H. unfold resolved_ch in H. apply (bool_decide_eq_true_2 _) in H.
    vm_compute in H. discriminate H. }
  assert (Hcm : ¬ resolved_cm Scenario.commenter Scenario.comment_store [1; 9]).
  { intros H. unfold resolved_cm in H. apply (bool_decide_eq_true_2 _) in H.
    vm_compute in H. discriminate H. }
  destruct (C7_unresolved_group_ids_abort Scenario.classifier Scenario.commenter)
    as (Hpost & Hput & Hcpost & Hcput).
  split; [exact Hch|]. split; [exact Hcm|]. split; [|split; [|split]].
  - destruct (Hpost (λ _, "1.5") 2000 "ZTF21abc" "Ia" 7 None [1; 9]
                Scenario.classification_store) as (_ & H).
    destruct (H Hch) as (_ & Hs & _ & He). split; [|exact Hs].
    apply (He Scenario.taxonomy); [vm_compute; reflexivity.. | exact I].
  - destruct (Hput (λ _, None) "1" (Some "Ia") None None None [1; 9]
                Scenario.classification_store) as (_ & H).
    destruct (H Hch) as (_ & Hs & _ & He). split; [|exact Hs].
    apply (He 1 Scenario.a_classification); vm_compute; reflexivity.
  - destruct (Hcpost "sources" "ZTF21abc" (Some "nice") None 1 [9]
                Scenario.comment_store) as (_ & H).
    destruct (H Hcm) as (_ & Hs & _ & He). split; [|exact Hs].
    apply He. exact I.
  - destruct (Hcput Scenario.lenient_schema "sources" "ZTF21abc" "1"
                (Some (Some "edited")) None None [1; 9] Scenario.comment_store)
      as (_ & H).
    destruct (H Hcm) as (_ & Hs & _ & He). split; [|exact Hs].
    apply (He 1 Sources (Comment Scenario.with_attachment "ZTF21abc"));
      vm_compute; reflexivity.
Defined.

(** ** The resource id of the path *)





(** ** Statistics *)

Lemma first_by_None {A} (key : A → Z) (l : list A) :
  first_by key l = None ↔ l = [].
Proof.
  destruct l as [|a l]; cbn [first_by]; [tauto|].
  split; [|discriminate].
  destruct (first_by key l) as [b|]; [destruct (key b <? key a)|]; discriminate.
Qed.

(** The first row in key order is a row of the table, and no row has a
    smaller key. *)
Lemma first_by_least {A} (key : A → Z) (l : list A) (a : A) :
  first_by key l = Some a → a ∈ l ∧ ∀ b, b ∈ l → key a ≤ key b.
Proof.
  revert a. induction l as [|x l IH]; intros a; cbn [first_by]; [discriminate|].
  destruct (first_by key l) as [b|] eqn:Hb.
  - destruct (IH b eq_refl) as (Hin & Hmin).
    destruct (Z.ltb_spec (key b) (key x)); intros [= <-].
    + split; [now right|]. intros y [->|Hy]%elem_of_cons; [lia | auto].
    + split; [now left|]. intros y [->|Hy]%elem_of_cons; [lia|].
      specialize (Hmin y Hy). lia.
  - apply first_by_None in Hb as ->. intros [= <-].
    split; [now left|]. intros y [->|Hy]%elem_of_cons; [lia | inversion Hy].
Qed.

(** With no run of any cron job on record the loop has nothing to go
    through and the endpoint answers. *)
Lemma stats_get_run (d : ST.db) (estimate : Z) :
  head (ST.reltuples d "photometry") = Some estimate →
  ST.cron_job_runs d = [] →
  run ST.get d
  = Outcome
      (Returned (Success
         (ST.Data estimate
            (ST.count (ST.candidates d)) (ST.count (ST.sources d))
            (ST.count (ST.objs d)) (ST.count (ST.spectra d))
            (ST.count (ST.groups d)) (ST.count (ST.users d))
            (ST.count (ST.tokens d))
            (Candidate.created_at <$> first_by Candidate.created_at (ST.candidates d))
            (Candidate.created_at
               <$> first_by (λ c, - Candidate.created_at c) (ST.candidates d))
            (Candidate.created_at
               <$> first_by Candidate.created_at
                     (filter (ST.unsaved d) (ST.candidates d)))
            [])))
      d [] [] [].
Proof.
  intros Hest Hruns. unfold ST.get, ST.distinct_scripts. exec. rewrite Hest. exec.
  rewrite Hruns. cbn [fmap list_fmap remove_dups ST.cron_summaries]. exec.
  reflexivity.
Qed.

(** The distinct scripts of a table with a run in it: a first row, and the
    rest. *)
Lemma distinct_scripts_cons (d : ST.db) :
  ST.cron_job_runs d ≠ [] →
  ∃ script rest, ST.distinct_scripts d = ST.ResultRow [script] :: rest.
Proof.
  intros Hruns. unfold ST.distinct_scripts.
  destruct (remove_dups (CronJobRun.script <$> ST.cron_job_runs d))
    as [|script rest] eqn:E.
  - destruct (ST.cron_job_runs d) as [|r l]; [now destruct Hruns|].
    assert (Hin : CronJobRun.script r ∈ remove_dups (CronJobRun.script <$> r :: l)).
    { apply elem_of_remove_dups. now left. }
    rewrite E in Hin. inversion Hin.
  - exists script, ((λ script, ST.ResultRow [script]) <$> rest). reflexivity.
Qed.

(** C9 on the code.  The cron loop takes each row of the distinct scripts
    and puts the row itself, not the script in it, into the query for the
    latest run: once a cron job has run, the endpoint ends in
    ProgrammingError and reports no count and no timestamp. *)
Theorem C9_cron_run_breaks_statistics (d : ST.db) (estimate : Z) :
  head (ST.reltuples d "photometry") = Some estimate →
  ST.cron_job_runs d ≠ [] →
  run ST.get d = Outcome (Raised ProgrammingError) d [] [] [].
Proof.
  intros Hest Hruns. destruct (distinct_scripts_cons d Hruns) as (script & rest & Hrows).
  unfold ST.get. exec. rewrite Hest. exec. rewrite Hrows.
  cbn [ST.cron_summaries ST.latest_run]. exec. reflexivity.
Qed.

(** C9 in the scenario: two runs of [nightly.py] are on record, and the
    statistics are not served; on the same tables without the runs they
    are. *)
Lemma C9_cron_run_breaks_statistics_witness :
  ended (run ST.get Scenario.statistics_store) = Raised ProgrammingError
  ∧ ∃ stats,
      ended (run ST.get Scenario.statistics_store_without_runs)
      = Returned (Success stats)
      ∧ ST.number_of_photometry_approx stats = 1200
      ∧ ST.number_of_candidates stats = 3.
Proof.
  split.
  - rewrite (C9_cron_run_breaks_statistics Scenario.statistics_store 1200).
    + reflexivity.
    + vm_compute. reflexivity.
    + discriminate.
  - eexists. split; [vm_compute; reflexivity|]. split; reflexivity.
Defined.

(** * Further properties of the handlers *)

(** ** Classifications *)

Lemma number_lt_spec (a b : Q) : CH.number_lt a b = true ↔ (a < b)%Q.
Proof.
  unfold CH.number_lt. rewrite negb_true_iff. split.
  - intros H. apply Qnot_le_lt. intros Hle. apply Qle_bool_iff in Hle. congruence.
  - intros H. destruct (Qle_bool b a) eqn:E; [|reflexivity].
    apply Qle_bool_iff in E. exfalso. exact (Qlt_not_le _ _ H E).
Qed.

(** A probability is refused exactly when it is below 0 or above 1; 0 and
    1 themselves pass.  The refusal leaves the store alone. *)
Theorem post_probability_range (u : CH.principal) (str_number : Q → string)
  (utcnow : Z) (obj_id label : string) (taxonomy_id : Z) (p : Q)
  (group_ids : option (list Z)) (d : CH.db) (taxonomy : hierarchy) :
  CH.select_taxonomy u d taxonomy_id = Some taxonomy →
  py_in label (allowed_classes taxonomy) = true →
  let out := run (CH.post u str_number utcnow
                    (CH.PostData.Build obj_id label taxonomy_id (Some p) group_ids)) d in
  (ended out = Returned (probability_refused str_number p) ↔ (p < 0 ∨ 1 < p)%Q)
  ∧ ((p < 0 ∨ 1 < p)%Q → store out = d ∧ pushes out = []).
Proof.
  intros Htax Hin out. subst out. unfold CH.post, probability_refused. exec.
  cbn [CH.PostData.group_ids CH.PostData.taxonomy_id CH.PostData.classification
       CH.PostData.probability CH.PostData.obj_id].
  rewrite Htax. exec. rewrite Hin. exec.
  destruct (CH.number_lt p 0 || CH.number_lt 1 p) eqn:E; exec.
  - apply orb_true_iff in E. rewrite !number_lt_spec in E. tauto.
  - apply orb_false_iff in E as [E0 E1].
    assert (Hno : ¬ (p < 0 ∨ 1 < p)%Q).
    { intros [H|H]; apply number_lt_spec in H; congruence. }
    split; [|tauto]. split; [|tauto]. intros Hend. exfalso. revert Hend.
    unfold CH.session_add, CH.internal_key, CH.refresh.
    cases; discriminate.
Qed.

Lemma post_probability_range_witness :
  let post p :=
    run (CH.post Scenario.classifier (λ _, "1.5") 2000
           (CH.PostData.Build "ZTF21abc" "Ia" 7 (Some p) None))
        Scenario.classification_store in
  ended (post (3 # 2)) = Returned (probability_refused (λ _, "1.5") (3 # 2))
  ∧ store (post (3 # 2)) = Scenario.classification_store
  ∧ ended (post 1%Q) ≠ Returned (probability_refused (λ _, "1.5") 1%Q)
  ∧ ended (post 0%Q) ≠ Returned (probability_refused (λ _, "1.5") 0%Q).
Proof.
  intros post.
  assert (Htax : CH.select_taxonomy Scenario.classifier Scenario.classification_store 7
                 = Some Scenario.taxonomy) by (vm_compute; reflexivity).
  assert (Hin : py_in "Ia" (allowed_classes Scenario.taxonomy) = true)
    by (vm_compute; reflexivity).
  pose proof (λ p, post_probability_range Scenario.classifier (λ _, "1.5") 2000
                     "ZTF21abc" "Ia" 7 p None Scenario.classification_store
                     Scenario.taxonomy Htax Hin) as H.
  assert (Hhigh : (3 # 2 < 0 ∨ 1 < 3 # 2)%Q) by (right; reflexivity).
  split; [apply (proj1 (H (3 # 2))), Hhigh|].
  split; [apply (proj2 (H (3 # 2)) Hhigh)|].
  split.
  - intros He. apply (proj1 (H 1%Q)) in He. destruct He as [He|He]; discriminate He.
  - intros He. apply (proj1 (H 0%Q)) in He. destruct He as [He|He]; discriminate He.
Defined.

Lemma get_single (u : CH.principal) (arrow_get : string → option Z) (d : CH.db)
  (classification_id : string) (id : Z) :
  int_of_str classification_id = Some id →
  run (CH.get u arrow_get ∅ (Some classification_id)) d
  = Outcome (Returned match CH.select_classification u Read d id with
                      | Some c => Success (CH.Single c)
                      | None =>
                          Error 400 ("Cannot find classification with ID: "
                                     ++ classification_id ++ ".")
                      end) d [] [] [].
Proof.
  intros Hid. unfold CH.get, get_query_argument. rewrite !lookup_empty.
  unfold int_. exec. rewrite Hid. exec.
  destruct (CH.select_classification u Read d id); exec; reflexivity.
Qed.

(** Round trip: a classification just created, fetched by the id the
    creation returned, comes back with the label, taxonomy and probability
    that were posted (if the caller may read it). *)
Theorem post_then_get_classification (u : CH.principal) (str_number : Q → string)
  (arrow_get : string → option Z) (utcnow : Z) (data : CH.PostData.t) (d : CH.db)
  (taxonomy : hierarchy) (key classification_id : string) :
  CH.select_taxonomy u d (CH.PostData.taxonomy_id data) = Some taxonomy →
  py_in (CH.PostData.classification data) (allowed_classes taxonomy) = true →
  probability_allowed (CH.PostData.probability data) →
  CH.objs d !! CH.PostData.obj_id data = Some key →
  CH.groups_differ
    (CH.select_groups u d (default (CH.accessible_groups u) (CH.PostData.group_ids data)))
    (default (CH.accessible_groups u) (CH.PostData.group_ids data)) = false →
  (∀ c, CH.classification_accessible u Read (CH.classification_seq d) c = true) →
  int_of_str classification_id = Some (CH.classification_seq d) →
  let posted := run (CH.post u str_number utcnow data) d in
  ended posted = Returned (Success (CH.ClassificationId (CH.classification_seq d)))
  ∧ ∃ c, ended (run (CH.get u arrow_get ∅ (Some classification_id)) (store posted))
         = Returned (Success (CH.Single c))
         ∧ Classification.classification c = CH.PostData.classification data
         ∧ Classification.taxonomy_id c = CH.PostData.taxonomy_id data
         ∧ Classification.probability c = CH.PostData.probability data
         ∧ Classification.obj_id c = CH.PostData.obj_id data.
Proof.
  intros Htax Hin Hp Hobj Hg Hread Hid posted.
  destruct (post_classification u str_number utcnow data d taxonomy key
              Htax Hin Hp Hobj Hg) as (He & Hrow & _).
  fold posted in He, Hrow. split; [exact He|].
  eexists. rewrite (get_single u arrow_get (store posted) classification_id _ Hid).
  cbn [ended]. unfold CH.select_classification. rewrite Hrow.
  cbn [mbind option_bind]. rewrite Hread. repeat split.
Qed.

Lemma post_then_get_classification_witness :
  let data := CH.PostData.Build "ZTF21abc" "Ia" 7 (Some (1 # 2)) (Some [1]) in
  let posted := run (CH.post Scenario.classifier (λ _, "0.5") 2000 data)
                    Scenario.classification_store in
  ended posted = Returned (Success (CH.ClassificationId 2))
  ∧ ∃ c, ended (run (CH.get Scenario.classifier (λ _, None) ∅ (Some "2")) (store posted))
         = Returned (Success (CH.Single c))
         ∧ Classification.classification c = "Ia"
         ∧ Classification.taxonomy_id c = 7
         ∧ Classification.probability c = Some (1 # 2)
         ∧ Classification.obj_id c = "ZTF21abc".
Proof.
  apply (post_then_get_classification Scenario.classifier (λ _, "0.5") (λ _, None) 2000
           (CH.PostData.Build "ZTF21abc" "Ia" 7 (Some (1 # 2)) (Some [1]))
           Scenario.classification_store Scenario.taxonomy "key-abc" "2").
  - vm_compute. reflexivity.
  - vm_compute. reflexivity.
  - vm_compute. reflexivity.
  - vm_compute. reflexivity.
  - vm_compute. reflexivity.
  - intros c. reflexivity.
  - vm_compute. reflexivity.
Defined.

(** Deleting a classification the caller may delete removes the row,
    broadcasts the two refreshes with the key read before the deletion and
    answers success; the id is then unknown to a second delete. *)
Theorem delete_classification (u : CH.principal) (d : CH.db)
  (classification_id : string) (id : Z) (c : Classification.t) (key : string) :
  int_of_str classification_id = Some id →
  CH.select_classification u Delete d id = Some c →
  CH.objs d !! Classification.obj_id c = Some key →
  let out := run (CH.delete u classification_id) d in
  ended out = Returned (Success CH.NoData)
  ∧ CH.classifications (store out) = base.delete id (CH.classifications d)
  ∧ pushes out
    = [PushAll "skyportal/REFRESH_SOURCE" [("obj_key", PStr key)];
       PushAll "skyportal/REFRESH_CANDIDATE" [("id", PStr key)]]
  ∧ run (CH.delete u classification_id) (store out)
    = Outcome (Returned (classification_not_found classification_id)) (store out) [] [] [].
Proof.
  intros Hid Hc Hobj out.
  assert (Hout : out = Outcome (Returned (Success CH.NoData))
                   (CH.Db (CH.groups d) (CH.objs d) (CH.taxonomies d)
                      (base.delete id (CH.classifications d)) (CH.classification_seq d))
                   [PushAll "skyportal/REFRESH_SOURCE" [("obj_key", PStr key)];
                    PushAll "skyportal/REFRESH_CANDIDATE" [("id", PStr key)]] [] []).
  { subst out. unfold CH.delete, CH.internal_key, CH.session_delete, CH.refresh. exec.
    rewrite Hid. exec. rewrite Hc. exec. rewrite Hobj. exec. reflexivity. }
  rewrite Hout. cbn [ended store pushes]. repeat split.
  unfold CH.delete, classification_not_found. exec. rewrite Hid. exec.
  unfold CH.select_classification. cbn [CH.classifications].
  rewrite lookup_delete_eq. cbn [mbind option_bind]. exec. reflexivity.
Qed.

Lemma delete_classification_witness :
  let out := run (CH.delete Scenario.classifier "1") Scenario.classification_store in
  ended out = Returned (Success CH.NoData)
  ∧ CH.classifications (store out) !! 1 = None
  ∧ ended (run (CH.delete Scenario.classifier "1") (store out))
    = Returned (classification_not_found "1").
Proof.
  intros out.
  destruct (delete_classification Scenario.classifier Scenario.classification_store
              "1" 1 Scenario.a_classification "key-abc") as (He & Hs & _ & Hagain).
  - vm_compute. reflexivity.
  - vm_compute. reflexivity.
  - vm_compute. reflexivity.
  - fold out in He, Hs, Hagain. split; [exact He|]. split.
    + rewrite Hs. apply lookup_delete_eq.
    + now rewrite Hagain.
Defined.

Lemma setattrs_popped (c : Classification.t) (data : CH.PutData.t) :
  CH.setattrs c
    (CH.PutData.Build (CH.PutData.classification data) (CH.PutData.obj_id data)
       (CH.PutData.taxonomy_id data) (CH.PutData.probability data) None)
  = CH.setattrs c data.
Proof. reflexivity. Qed.

(** An update sets the fields of the body as they come: the label is not
    looked up in the taxonomy, so any label the schema lets through is
    stored. *)
Theorem put_classification_sets_fields (u : CH.principal)
  (schema_load : CH.PutData.t → option string) (d : CH.db)
  (classification_id : string) (id : Z) (c : Classification.t)
  (data : CH.PutData.t) (key : string) :
  int_of_str classification_id = Some id →
  CH.select_classification u Update d id = Some c →
  CH.PutData.group_ids data = None →
  schema_load (CH.PutData.Build (CH.PutData.classification data) (CH.PutData.obj_id data)
                 (CH.PutData.taxonomy_id data) (CH.PutData.probability data) None) = None →
  CH.objs d !! Classification.obj_id (CH.setattrs c data) = Some key →
  is_Some (CH.taxonomies d !! Classification.taxonomy_id (CH.setattrs c data)) →
  let out := run (CH.put u schema_load classification_id data) d in
  ended out = Returned (Success CH.NoData)
  ∧ CH.classifications (store out) !! id = Some (CH.setattrs c data)
  ∧ (∀ label, CH.PutData.classification data = Some label →
       Classification.classification <$> CH.classifications (store out) !! id
       = Some label)
  ∧ pushes out
    = [PushAll "skyportal/REFRESH_SOURCE" [("obj_key", PStr key)];
       PushAll "skyportal/REFRESH_CANDIDATE" [("id", PStr key)]].
Proof.
  intros Hid Hc Hg Hschema Hobj Htax out. subst out.
  unfold CH.put, CH.session_update, CH.internal_key, CH.refresh. exec.
  rewrite Hid. exec. rewrite Hc. exec. rewrite Hg, Hschema. exec.
  rewrite !setattrs_popped.
  rewrite bool_decide_eq_true_2 by (split; [rewrite Hobj; eauto | exact Htax]).
  exec. cbn [CH.objs CH.classifications]. rewrite Hobj. exec.
  cbn [CH.classifications]. rewrite lookup_insert_eq.
  repeat split. intros label Hl. cbn [fmap option_fmap option_map].
  unfold CH.setattrs. rewrite Hl. reflexivity.
Qed.

Lemma put_classification_sets_fields_witness :
  py_in "Kilonova" (allowed_classes Scenario.taxonomy) = false
  ∧ let out :=
      run (CH.put Scenario.classifier (λ _, None) "1"
             (CH.PutData.Build (Some "Kilonova") None None None None))
          Scenario.classification_store in
    ended out = Returned (Success CH.NoData)
    ∧ Classification.classification <$> CH.classifications (store out) !! 1
      = Some "Kilonova".
Proof.
  split; [vm_compute; reflexivity|].
  destruct (put_classification_sets_fields Scenario.classifier (λ _, None)
              Scenario.classification_store "1" 1 Scenario.a_classification
              (CH.PutData.Build (Some "Kilonova") None None None None) "key-abc")
    as (He & _ & Hl & _).
  - vm_compute. reflexivity.
  - vm_compute. reflexivity.
  - reflexivity.
  - reflexivity.
  - vm_compute. reflexivity.
  - exists Scenario.taxonomy. vm_compute. reflexivity.
  - split; [exact He|]. apply Hl. reflexivity.
Defined.

Lemma get_first_page_witness :
  ended (run (CH.get Scenario.classifier (λ _, None) {[ "numPerPage" := "1000" ]} None)
             Scenario.classification_store)
  = Returned (Success (CH.Page [Scenario.a_classification] 1)).
Proof.
  rewrite (get_first_page Scenario.classifier (λ _, None) {[ "numPerPage" := "1000" ]}
             Scenario.classification_store 1000).
  - vm_compute. reflexivity.
  - vm_compute. reflexivity.
  - vm_compute. reflexivity.
  - vm_compute. reflexivity.
  - vm_compute. reflexivity.
  - lia.
Defined.

Lemma get_any_page_number_raises_witness :
  ended (run (CH.get Scenario.classifier (λ _, None)
                {[ "pageNumber" := "1"; "numPerPage" := "25" ]} None)
             Scenario.classification_store)
  = Raised TypeError.
Proof.
  apply (get_any_page_number_raises Scenario.classifier (λ _, None) _
           Scenario.classification_store "1" "25" 25); vm_compute; reflexivity.
Defined.

(** ** Objects with classifications *)

(** Without date bounds the query answers with the ids of the existing
    objects that have a classification the caller may read, each id
    once. *)
Theorem classified_objects (u : CH.principal) (arrow_get : string → option Z)
  (d : CH.db) :
  ∃ obj_ids,
    run (OQ.get u arrow_get ∅) d = Outcome (Returned (Success (OQ.ObjIds obj_ids))) d [] [] []
    ∧ NoDup obj_ids
    ∧ ∀ o, o ∈ obj_ids
           ↔ is_Some (CH.objs d !! o)
             ∧ ∃ id c, CH.classifications d !! id = Some c
                       ∧ CH.classification_accessible u Read id c = true
                       ∧ Classification.obj_id c = o.
Proof.
  eexists. split.
  { unfold OQ.get, get_query_argument, OQ.date_bound. rewrite !lookup_empty.
    cbn [truthy]. exec. reflexivity. }
  split; [apply NoDup_remove_dups|].
  intros o. rewrite elem_of_remove_dups, list_elem_of_filter.
  apply and_iff_compat_l. rewrite list_elem_of_In, in_map_iff. split.
  - intros ([id c] & <- & Hin%list_elem_of_In). cbn [snd].
    apply list_elem_of_filter in Hin as (Hacc & Hin).
    apply elem_of_map_to_list in Hin. exists id, c. auto.
  - intros (id & c & Hl & Hacc & <-). exists (id, c). split; [reflexivity|].
    apply list_elem_of_In, list_elem_of_filter. split; [exact Hacc|].
    now apply elem_of_map_to_list.
Qed.

(** ** Comments *)

(** A comment on an existing object: one notification is stored for each
    user mentioned, with the link to the source; after the commit each of
    them is told to fetch notifications, then the source is refreshed. *)
Theorem post_on_source_notifies (u : CM.principal)
  (associated_resource_type resource_id text : string)
  (requested : option (list Z)) (d : CM.db) (key : string) :
  resource_kind associated_resource_type = Some Sources →
  CM.objs d !! resource_id = Some key →
  resolved_cm u d (post_group_ids u requested) →
  let out := run (CM.post u associated_resource_type resource_id
                    (CM.PostData.Build (Some text) requested None)) d in
  ended out = Returned (Success (CM.CommentId (next_id (CM.comments d))))
  ∧ CM.notifications (store out)
    = (CM.notifications d
       ++ map (mention_notification u Sources resource_id) (mentioned u d text))%list
  ∧ pushes out
    = (map fetch_notifications (mentioned u d text)
       ++ [PushAll "skyportal/REFRESH_SOURCE" [("obj_key", PStr key)]])%list
  ∧ next_id (CM.comments (store out)) = next_id (CM.comments d) + 1.
Proof.
  intros Hk Hobj Hres out. subst out.
  assert (Hg : CM.groups_differ (CM.select_groups u d (post_group_ids u requested))
                 (post_group_ids u requested) = false).
  { apply bool_decide_eq_false. intros H. now apply H. }
  unfold CM.post. cexec. fold (post_group_ids u requested). rewrite Hg. cexec.
  rewrite Hk. cexec. unfold users_mentioned. cexec.
  unfold CM.session_add. cexec. rewrite Hobj. cexec.
  rewrite for_each_flow_push. cexec.
  unfold CM.obj_internal_key. cexec. rewrite Hobj. cexec.
  repeat split.
Qed.

Lemma post_on_source_notifies_witness :
  let out :=
    run (CM.post Scenario.commenter "sources" "ZTF21abc"
           (CM.PostData.Build (Some "hi @bob, see @alice-2!") None None))
        Scenario.comment_store in
  CM.notifications (store out)
  = [UserNotification.Build 11 "*@alice* mentioned you in a comment on *ZTF21abc*"
       "mention" "/source/ZTF21abc"]
  ∧ pushes out
    = [FlowPush 11 "skyportal/FETCH_NOTIFICATIONS";
       PushAll "skyportal/REFRESH_SOURCE" [("obj_key", PStr "key-abc")]].
Proof.
  destruct (post_on_source_notifies Scenario.commenter "sources" "ZTF21abc"
              "hi @bob, see @alice-2!" None Scenario.comment_store "key-abc")
    as (_ & Hn & Hp & _).
  - vm_compute. reflexivity.
  - vm_compute. reflexivity.
  - unfold resolved_cm. apply (bool_decide_eq_true_1 _). vm_compute. reflexivity.
  - split.
    + etransitivity; [exact Hn|]. vm_compute. reflexivity.
    + etransitivity; [exact Hp|]. vm_compute. reflexivity.
Defined.

(** A comment on a GCN event refreshes the event, keyed by its [dateobs],
    and neither the source nor its spectra. *)
Theorem post_on_gcn_event (u : CM.principal)
  (associated_resource_type resource_id text : string)
  (requested : option (list Z)) (d : CM.db) (gcn_id : Z) (dateobs : string) :
  resource_kind associated_resource_type = Some GcnEvent →
  int_of_str resource_id = Some gcn_id →
  CM.gcn_event_readable u gcn_id = true →
  CM.gcn_events d !! gcn_id = Some dateobs →
  resolved_cm u d (post_group_ids u requested) →
  let out := run (CM.post u associated_resource_type resource_id
                    (CM.PostData.Build (Some text) requested None)) d in
  ended out = Returned (Success (CM.CommentId (next_id (CM.comments_on_gcns d))))
  ∧ rows (CM.comments_on_gcns (store out)) !! next_id (CM.comments_on_gcns d)
    = Some (Columns.Build (Some text) None None (CM.user_id u)
              (CM.select_groups u d (post_group_ids u requested)) (CM.is_token u),
            gcn_id)
  ∧ pushes out
    = (map fetch_notifications (mentioned u d text)
       ++ [PushAll "skyportal/REFRESH_GCNEVENT" [("gcnEvent_dateobs", PStr dateobs)]])%list.
Proof.
  intros Hk Hid Hread Hev Hres out. subst out.
  assert (Hg : CM.groups_differ (CM.select_groups u d (post_group_ids u requested))
                 (post_group_ids u requested) = false).
  { apply bool_decide_eq_false. intros H. now apply H. }
  unfold CM.post. cexec. fold (post_group_ids u requested). rewrite Hg. cexec.
  rewrite Hk. cexec. rewrite Hid. cexec. rewrite Hread, Hev. cexec.
  unfold users_mentioned. cexec. unfold CM.session_add. cexec.
  rewrite for_each_flow_push. cexec.
  unfold CM.gcn_dateobs. cexec. rewrite Hev. cexec.
  unfold insert_row. cbn [rows next_id]. rewrite lookup_insert_eq.
  repeat split.
Qed.

Lemma post_on_gcn_event_witness :
  pushes (run (CM.post Scenario.commenter "gcn_event" "3"
                 (CM.PostData.Build (Some "bright") None None)) Scenario.comment_store)
  = [PushAll "skyportal/REFRESH_GCNEVENT"
       [("gcnEvent_dateobs", PStr "2021-01-01T00:00:00")]].
Proof.
  destruct (post_on_gcn_event Scenario.commenter "gcn_event" "3" "bright" None
              Scenario.comment_store 3 "2021-01-01T00:00:00") as (_ & _ & Hp).
  - vm_compute. reflexivity.
  - vm_compute. reflexivity.
  - reflexivity.
  - vm_compute. reflexivity.
  - unfold resolved_cm. apply (bool_decide_eq_true_1 _). vm_compute. reflexivity.
  - etransitivity; [exact Hp|]. vm_compute. reflexivity.
Defined.

(** A comment on a shift the caller cannot access: the handler means to
    answer 403, but formats the message from [shift.id] with [shift] never
    bound, so the request ends in UnboundLocalError; nothing is stored. *)
Theorem post_on_inaccessible_shift (u : CM.principal)
  (associated_resource_type resource_id : string) (text : option string)
  (requested : option (list Z)) (d : CM.db) (shift_id : Z) :
  resource_kind associated_resource_type = Some Shift →
  int_of_str resource_id = Some shift_id →
  shift_id ∉ CM.shifts d ∨ CM.shift_accessible u shift_id = false →
  resolved_cm u d (post_group_ids u requested) →
  run (CM.post u associated_resource_type resource_id
         (CM.PostData.Build text requested None)) d
  = Outcome (Raised UnboundLocalError) d [] [] [].
Proof.
  intros Hk Hid Hno Hres.
  assert (Hg : CM.groups_differ (CM.select_groups u d (post_group_ids u requested))
                 (post_group_ids u requested) = false).
  { apply bool_decide_eq_false. intros H. now apply H. }
  assert (Hsh : bool_decide (shift_id ∈ CM.shifts d) && CM.shift_accessible u shift_id
                = false).
  { apply andb_false_iff. destruct Hno as [H|H]; [left | right; exact H].
    now apply bool_decide_eq_false. }
  unfold CM.post. cexec. fold (post_group_ids u requested). rewrite Hg. cexec.
  rewrite Hk. cexec. rewrite Hid. cexec. rewrite Hsh. cexec. reflexivity.
Qed.

Lemma post_on_inaccessible_shift_witness :
  run (CM.post Scenario.commenter "shift" "8"
         (CM.PostData.Build (Some "swap?") None None)) Scenario.comment_store
  = Outcome (Raised UnboundLocalError) Scenario.comment_store [] [] [].
Proof.
  apply (post_on_inaccessible_shift Scenario.commenter "shift" "8" (Some "swap?") None
           Scenario.comment_store 8).
  - vm_compute. reflexivity.
  - vm_compute. reflexivity.
  - left. intros H. apply (bool_decide_eq_true_2 _) in H. vm_compute in H.
    discriminate H.
  - unfold resolved_cm. apply (bool_decide_eq_true_1 _). vm_compute. reflexivity.
Defined.

(** A body without [text] (or with a null one) gets past the group and
    resource checks and then fails in the mention scan with
    AttributeError; nothing is stored. *)
Theorem post_without_text (u : CM.principal)
  (associated_resource_type resource_id : string)
  (requested : option (list Z)) (d : CM.db) :
  resource_kind associated_resource_type = Some Sources →
  resolved_cm u d (post_group_ids u requested) →
  run (CM.post u associated_resource_type resource_id
         (CM.PostData.Build None requested None)) d
  = Outcome (Raised AttributeError) d [] [] [].
Proof.
  intros Hk Hres.
  assert (Hg : CM.groups_differ (CM.select_groups u d (post_group_ids u requested))
                 (post_group_ids u requested) = false).
  { apply bool_decide_eq_false. intros H. now apply H. }
  unfold CM.post. cexec. fold (post_group_ids u requested). rewrite Hg. cexec.
  rewrite Hk. cexec. unfold users_mentioned. cexec. reflexivity.
Qed.

Lemma post_without_text_witness :
  run (CM.post Scenario.commenter "sources" "ZTF21abc"
         (CM.PostData.Build None (Some [1]) None)) Scenario.comment_store
  = Outcome (Raised AttributeError) Scenario.comment_store [] [] [].
Proof.
  apply post_without_text.
  - vm_compute. reflexivity.
  - unfold resolved_cm. apply (bool_decide_eq_true_1 _). vm_compute. reflexivity.
Defined.

(** Deleting a comment under its own resource removes it from the table
    of its class and broadcasts what its class calls for: the source (and
    its spectra) by the object's key, the event by its [dateobs], or the
    shifts with an empty payload. *)
Theorem delete_comment (u : CM.principal) (d : CM.db)
  (associated_resource_type resource_id comment_id : string)
  (id : Z) (k : kind) (c : comment) (obj_key dateobs : string) :
  int_of_str comment_id = Some id →
  resource_kind associated_resource_type = Some k →
  CM.select_comment u Delete d k id = Some c →
  CM.comment_resource_id_str c = resource_id →
  obj_key_is d c obj_key → dateobs_is d c dateobs →
  run (CM.delete u associated_resource_type resource_id comment_id) d
  = Outcome (Returned (Success CM.NoData)) (CM.remove_comment d id c)
      (delete_pushes c obj_key dateobs) [] [].
Proof.
  intros Hid Hk Hc Hres Hobj Hdate.
  unfold CM.delete, CM.find_comment. cexec. rewrite Hid. cexec.
  rewrite Hk. cexec. rewrite Hc. cexec.
  unfold CM.obj_internal_key, CM.gcn_dateobs, obj_key_is, dateobs_is in *.
  destruct c as [f o | f s o | f g | f s]; cbn [obj_of] in *; cexec.
  - rewrite Hobj. cexec. rewrite Hres, String.eqb_refl. cexec. reflexivity.
  - rewrite Hobj. cexec. rewrite Hres, String.eqb_refl. cexec. reflexivity.
  - rewrite Hdate. cexec. rewrite Hres, String.eqb_refl. cexec. reflexivity.
  - rewrite Hres, String.eqb_refl. cexec. reflexivity.
Qed.

Lemma delete_comment_witness :
  let out := run (CM.delete Scenario.commenter "shift" "4" "1") Scenario.comment_store in
  ended out = Returned (Success CM.NoData)
  ∧ pushes out = [PushAll "skyportal/REFRESH_SHIFTS" []]
  ∧ rows (CM.comments_on_shifts (store out)) !! 1 = None.
Proof.
  intros out.
  assert (H : out = Outcome (Returned (Success CM.NoData))
                      (CM.remove_comment Scenario.comment_store 1
                         (CommentOnShift Scenario.with_attachment 4))
                      (delete_pushes (CommentOnShift Scenario.with_attachment 4)
                         EmptyString EmptyString) [] []).
  { apply (delete_comment Scenario.commenter Scenario.comment_store "shift" "4" "1"
             1 Shift (CommentOnShift Scenario.with_attachment 4)).
    - vm_compute. reflexivity.
    - vm_compute. reflexivity.
    - vm_compute. reflexivity.
    - vm_compute. reflexivity.
    - exact I.
    - exact I. }
  rewrite H. repeat split; try (vm_compute; reflexivity).
Defined.

Lemma one_is_none_paired (f : Columns.t) : CM.one_is_none f = false ↔ paired f.
Proof.
  unfold CM.one_is_none, paired.
  destruct (Columns.attachment_bytes f) as [b|], (Columns.attachment_name f) as [n|].
  - rewrite !bool_decide_eq_false_2 by discriminate. cbn. intuition discriminate.
  - rewrite bool_decide_eq_false_2 by discriminate.
    rewrite bool_decide_eq_true_2 by reflexivity. cbn. split; [discriminate|].
    intros [H _]. discriminate (H eq_refl).
  - rewrite bool_decide_eq_true_2 by reflexivity.
    rewrite bool_decide_eq_false_2 by discriminate. cbn. split; [discriminate|].
    intros [_ H]. discriminate (H eq_refl).
  - rewrite !bool_decide_eq_true_2 by reflexivity. cbn. intuition.
Qed.

(** Whatever the comment looked like before, an update that is committed
    leaves a comment whose attachment name and bytes go together: when the
    request succeeds, or dies after the commit, the comment stored under
    the id is paired. *)
Theorem put_keeps_attachment_paired (u : CM.principal)
  (schema_load : kind → CM.PutData.t → option string) (d : CM.db)
  (associated_resource_type resource_id comment_id : string) (data : CM.PutData.t) :
  let out := run (CM.put u schema_load associated_resource_type resource_id
                    comment_id data) d in
  store out = d
  ∨ ∃ k id c, resource_kind associated_resource_type = Some k
              ∧ int_of_str comment_id = Some id
              ∧ CM.lookup_comment (store out) k id = Some c
              ∧ paired (columns c).
Proof.
  intros out. subst out. unfold CM.put, CM.find_comment. cexec.
  destruct (int_of_str comment_id) as [id|] eqn:Hid; cexec; [|now left].
  destruct (resource_kind associated_resource_type) as [k|] eqn:Hk; cexec; [|now left].
  destruct (CM.select_comment u Update d k id) as [c|] eqn:Hc; cexec; [|now left].
  cbn [mbind option_bind].
  destruct (schema_load k (CM.without_popped data)); cexec; [now left|].
  destruct (CM.one_is_none (CM.assign (columns c) data)) eqn:Hx; cexec; [now left|].
  assert (Hclass : match c, k with
                   | Comment _ _, Sources | CommentOnSpectrum _ _ _, Spectra
                   | CommentOnGCN _ _, GcnEvent | CommentOnShift _ _, Shift => True
                   | _, _ => False
                   end).
  { unfold CM.select_comment, CM.lookup_comment in Hc.
    destruct k; destruct (rows _ !! id) as [r|]; cbn in Hc; try discriminate;
      destruct (CM.comment_accessible u Update _ id _); now inversion Hc. }
  assert (Hgroups : ∀ g, paired (CM.set_groups (CM.assign (columns c) data) g)).
  { intros g. apply one_is_none_paired. exact Hx. }
  assert (Hassign : paired (CM.assign (columns c) data)).
  { now apply one_is_none_paired. }
  destruct (CM.PutData.group_ids data) as [gids|]; cexec.
  - destruct (CM.groups_differ (CM.select_groups u d gids) gids); cexec; [now left|].
    destruct (negb (String.eqb (CM.comment_resource_id_str c) resource_id)); cexec;
      [now left|].
    right. exists k, id.
    destruct c as [f o | f s o | f g | f s], k; try destruct Hclass;
      cexec; unfold CM.obj_internal_key; cexec.
    all: try (destruct (CM.objs d !! o) eqn:Ho; cexec; rewrite ?Ho; cexec).
    all: eexists; (split; [reflexivity|]); (split; [reflexivity|]).
    all: unfold CM.lookup_comment, CM.set_comments, CM.set_comments_on_spectra,
           CM.set_comments_on_gcns, CM.set_comments_on_shifts;
      cbn [rows CM.comments CM.comments_on_spectra CM.comments_on_gcns
           CM.comments_on_shifts];
      rewrite lookup_insert_eq; cbn [fmap option_fmap option_map fst snd columns];
      (split; [reflexivity|]); apply Hgroups.
  - destruct (negb (String.eqb (CM.comment_resource_id_str c) resource_id)); cexec;
      [now left|].
    right. exists k, id.
    destruct c as [f o | f s o | f g | f s], k; try destruct Hclass;
      cexec; unfold CM.obj_internal_key; cexec.
    all: try (destruct (CM.objs d !! o) eqn:Ho; cexec; rewrite ?Ho; cexec).
    all: eexists; (split; [reflexivity|]); (split; [reflexivity|]).
    all: unfold CM.lookup_comment, CM.set_comments, CM.set_comments_on_spectra,
           CM.set_comments_on_gcns, CM.set_comments_on_shifts;
      cbn [rows CM.comments CM.comments_on_spectra CM.comments_on_gcns
           CM.comments_on_shifts];
      rewrite lookup_insert_eq; cbn [fmap option_fmap option_map fst snd columns];
      (split; [reflexivity|]); apply Hassign.
Qed.

(** Fetching one comment: under the id of its own resource the caller
    gets the comment; a comment that is missing, or that the caller may not
    read, is answered with 403; nothing changes either way. *)
Theorem get_comment (u : CM.principal) (d : CM.db)
  (associated_resource_type resource_id comment_id : string) (id : Z) (k : kind) :
  int_of_str comment_id = Some id →
  resource_kind associated_resource_type = Some k →
  run (CM.get u associated_resource_type resource_id (Some comment_id)) d
  = Outcome
      (Returned
         match CM.select_comment u Read d k id with
         | None => Error 403 "Could not find any accessible comments."
         | Some c =>
             if String.eqb (CM.comment_resource_id_str c) resource_id
             then Success (CM.SingleComment c)
             else resource_id_does_not_match resource_id
         end) d [] [] [].
Proof.
  intros Hid Hk. unfold CM.get, CM.find_comment. cexec. rewrite Hid. cexec.
  rewrite Hk. cexec.
  destruct (CM.select_comment u Read d k id) as [c|]; cexec; [|reflexivity].
  destruct (String.eqb (CM.comment_resource_id_str c) resource_id); cexec; reflexivity.
Qed.

Lemma get_comment_witness :
  ended (run (CM.get Scenario.commenter "spectra" "5" (Some "1")) Scenario.comment_store)
  = Returned (Success (CM.SingleComment
                         (CommentOnSpectrum Scenario.with_attachment 5 "ZTF21abc")))
  ∧ ended (run (CM.get Scenario.commenter "spectra" "5" (Some "7")) Scenario.comment_store)
    = Returned (Error 403 "Could not find any accessible comments.").
Proof.
  split.
  - rewrite (get_comment Scenario.commenter Scenario.comment_store "spectra" "5" "1"
               1 Spectra); vm_compute; reflexivity.
  - rewrite (get_comment Scenario.commenter Scenario.comment_store "spectra" "5" "7"
               7 Spectra); vm_compute; reflexivity.
Defined.

(** A comment id that is not an integer is refused by every
    single-comment operation before the session is opened. *)
Theorem comment_id_must_be_an_integer (u : CM.principal) (d : CM.db)
  (associated_resource_type resource_id comment_id : string) :
  int_of_str comment_id = None →
  run (CM.get u associated_resource_type resource_id (Some comment_id)) d
  = Outcome (Returned not_an_integer) d [] [] []
  ∧ (∀ schema_load data,
       run (CM.put u schema_load associated_resource_type resource_id comment_id data) d
       = Outcome (Returned not_an_integer) d [] [] [])
  ∧ ended (run (CM.delete u associated_resource_type resource_id comment_id) d)
    = Returned (Error 400 "Must provide a valid (scalar integer) comment ID.")
  ∧ store (run (CM.delete u associated_resource_type resource_id comment_id) d) = d
  ∧ (∀ as_bool b64decode decode query,
       run (CA.get u as_bool b64decode decode query associated_resource_type
              resource_id comment_id) d
       = Outcome (Returned not_an_integer) d [] [] []).
Proof.
  intros Hid. unfold CM.get, CM.put, CM.delete, CA.get, not_an_integer.
  repeat split; intros; cexec; rewrite Hid; cexec; reflexivity.
Qed.

Lemma comment_id_must_be_an_integer_witness :
  int_of_str "1e3" = None
  ∧ run (CM.get Scenario.commenter "sources" "ZTF21abc" (Some "1e3")) Scenario.comment_store
    = Outcome (Returned not_an_integer) Scenario.comment_store [] [] []
  ∧ store (run (CM.delete Scenario.commenter "sources" "ZTF21abc" "1e3")
             Scenario.comment_store)
    = Scenario.comment_store.
Proof.
  assert (Hid : int_of_str "1e3" = None) by (vm_compute; reflexivity).
  destruct (comment_id_must_be_an_integer Scenario.commenter Scenario.comment_store
              "sources" "ZTF21abc" "1e3" Hid) as (Hget & _ & _ & Hdel & _).
  split; [exact Hid|]. split; [exact Hget | exact Hdel].
Defined.

(** ** Attachments that do not decode *)

(** Bytes that are not base64 end the download in binascii.Error, after
    the two headers are set when the bytes were to be sent raw; bytes that
    are base64 of something that is not text end the JSON answer in
    UnicodeDecodeError.  Nothing of the store changes. *)
Theorem attachment_decoding_failures (u : CM.principal) (as_bool : string → bool)
  (b64decode decode : string → option string) (query : gmap string string)
  (associated_resource_type resource_id comment_id : string)
  (d : CM.db) (id : Z) (k : kind) (c : comment) (b : ascii) (bs : string) :
  int_of_str comment_id = Some id →
  resource_kind associated_resource_type = Some k →
  CM.select_comment u Read d k id = Some c →
  CM.comment_resource_id_str c = resource_id →
  Columns.attachment_bytes (columns c) = Some (String b bs) →
  let out := run (CA.get u as_bool b64decode decode query associated_resource_type
                    resource_id comment_id) d in
  let download := match query !! "download" with Some v => as_bool v | None => true end in
  (b64decode (String b bs) = None →
   ended out = Raised BinasciiError ∧ store out = d ∧ body out = []
   ∧ headers out
     = if download then
         [("Content-Disposition",
           "attachment; filename="
           ++ default "None" (Columns.attachment_name (columns c)));
          ("Content-type", "application/octet-stream")]
       else [])
  ∧ (∀ raw, b64decode (String b bs) = Some raw → decode raw = None →
       download = false →
       out = Outcome (Raised UnicodeDecodeError) d [] [] []).
Proof.
  intros Hid Hk Hc Hres Hbytes out download. subst out download.
  rewrite (attachment_get_found u as_bool b64decode decode query
             associated_resource_type resource_id comment_id d id k c Hid Hk Hc Hres).
  rewrite Hbytes. cbv zeta. split.
  - intros ->.
    destruct (match query !! "download" with Some v => as_bool v | None => true end);
      repeat split.
  - intros raw -> -> ->. reflexivity.
Qed.

Lemma attachment_decoding_failures_witness :
  let posted :=
    run (CM.post Scenario.commenter "sources" "ZTF21abc"
           (CM.PostData.Build (Some "see file") None (Some Scenario.not_base64)))
        Scenario.comment_store in
  let out :=
    run (CA.get Scenario.commenter Scenario.as_bool Scenario.b64decode Scenario.decode
           {[ "download" := "no" ]} "sources" "ZTF21abc" "2") (store posted) in
  ended out = Raised BinasciiError ∧ store out = store posted ∧ headers out = [].
Proof.
  intros posted out.
  destruct (attachment_decoding_failures Scenario.commenter Scenario.as_bool
              Scenario.b64decode Scenario.decode {[ "download" := "no" ]}
              "sources" "ZTF21abc" "2" (store posted) 2 Sources
              (Comment (Columns.Build (Some "see file") (Some "blob.bin") (Some "abc")
                          10 [1; 2] false) "ZTF21abc")
              "a" "bc") as (Hbad & _).
  - vm_compute. reflexivity.
  - vm_compute. reflexivity.
  - vm_compute. reflexivity.
  - vm_compute. reflexivity.
  - reflexivity.
  - destruct (Hbad eq_refl) as (He & Hs & _ & Hh).
    fold out in He, Hs, Hh. split; [exact He|]. split; [exact Hs|].
    etransitivity; [exact Hh|]. vm_compute. reflexivity.
Defined.

(** ** The general lemmas above, at work in the scenario *)

Lemma post_malformed_attachment_witness :
  run (CM.post Scenario.commenter "sources" "ZTF21abc"
         (CM.PostData.Build (Some "see file") None
            (Some (CM.Dict None (Some (Some "note.txt"))))))
      Scenario.comment_store
  = Outcome (Returned (Error 400 "Malformed comment attachment"))
      Scenario.comment_store [] [] [].
Proof.
  apply (post_malformed_attachment Scenario.commenter "sources" "ZTF21abc" _
           Scenario.comment_store (CM.Dict None (Some (Some "note.txt")))).
  - reflexivity.
  - intros body name. discriminate.
Defined.

Lemma put_unpaired_attachment_witness :
  CM.one_is_none
    (CM.assign Scenario.with_attachment (CM.PutData.Build None (Some None) None None))
  = true
  ∧ store (run (CM.put Scenario.commenter Scenario.lenient_schema "sources" "ZTF21abc"
                  "1" (CM.PutData.Build None (Some None) None None))
               Scenario.comment_store)
    = Scenario.comment_store.
Proof.
  assert (Hx : CM.one_is_none
                 (CM.assign Scenario.with_attachment
                    (CM.PutData.Build None (Some None) None None)) = true)
    by (vm_compute; reflexivity).
  split; [exact Hx|].
  rewrite (put_unpaired_attachment Scenario.commenter Scenario.lenient_schema
             "sources" "ZTF21abc" "1" (CM.PutData.Build None (Some None) None None)
             Scenario.comment_store 1 Sources
             (Comment Scenario.with_attachment "ZTF21abc")
             eq_refl eq_refl eq_refl eq_refl Hx).
  reflexivity.
Defined.

Lemma put_object_comment_refreshes_witness :
  let out :=
    run (CM.put Scenario.commenter Scenario.lenient_schema "spectra" "5" "1"
           (CM.PutData.Build (Some (Some "edited")) None None None))
        Scenario.comment_store in
  ended out = Returned (Success CM.NoData)
  ∧ pushes out
    = [PushAll "skyportal/REFRESH_SOURCE" [("obj_key", PStr "key-abc")];
       PushAll "skyportal/REFRESH_SOURCE_SPECTRA" [("obj_internal_key", PStr "key-abc")]].
Proof.
  apply (put_object_comment_refreshes Scenario.commenter Scenario.lenient_schema
           "spectra" "5" "1" (CM.PutData.Build (Some (Some "edited")) None None None)
           Scenario.comment_store 1 Spectra
           (CommentOnSpectrum Scenario.with_attachment 5 "ZTF21abc") "key-abc").
  - vm_compute. reflexivity.
  - vm_compute. reflexivity.
  - vm_compute. reflexivity.
  - vm_compute. reflexivity.
  - reflexivity.
  - reflexivity.
  - vm_compute. reflexivity.
  - exists "ZTF21abc". split; [reflexivity | vm_compute; reflexivity].
Defined.

Lemma put_gcn_or_shift_comment_raises_witness :
  let out :=
    run (CM.put Scenario.commenter Scenario.lenient_schema "shift" "4" "1"
           (CM.PutData.Build (Some (Some "edited")) None None None))
        Scenario.comment_store in
  ended out = Raised AttributeError ∧ pushes out = []
  ∧ store out ≠ Scenario.comment_store.
Proof.
  intros out.
  destruct (put_gcn_or_shift_comment_raises Scenario.commenter Scenario.lenient_schema
              "shift" "4" "1" (CM.PutData.Build (Some (Some "edited")) None None None)
              Scenario.comment_store 1 Shift
              (CommentOnShift Scenario.with_attachment 4)) as (He & Hp & Hs).
  - vm_compute. reflexivity.
  - vm_compute. reflexivity.
  - vm_compute. reflexivity.
  - vm_compute. reflexivity.
  - reflexivity.
  - reflexivity.
  - vm_compute. reflexivity.
  - reflexivity.
  - fold out in He, Hp, Hs. split; [exact He|]. split; [exact Hp|].
    rewrite Hs. intros H.
    apply (f_equal (λ s, (Columns.text ∘ fst) <$> rows (CM.comments_on_shifts s) !! 1)) in H.
    vm_compute in H. discriminate H.
Defined.

(** ** Ids as text: [str] and [int] *)

Lemma int_digits_of_uint (d a : Decimal.uint) (after_digit : bool) :
  d ≠ Decimal.Nil ∨ after_digit = true →
  int_digits (Z.of_N (DecimalPos.Unsigned.of_lu a)) after_digit
    (NilEmpty.string_of_uint d)
  = Some (Z.of_N (DecimalPos.Unsigned.of_lu (Decimal.revapp d a))).
Proof.
  revert a after_digit.
  induction d as [|d IH|d IH|d IH|d IH|d IH|d IH|d IH|d IH|d IH|d IH];
    intros a after_digit Hok.
  - destruct Hok as [H| ->]; [congruence | reflexivity].
  - cbn [NilEmpty.string_of_uint int_digits Decimal.revapp].
    change (digit_of "0") with (Some 0).
    rewrite <- (IH (Decimal.D0 a) true) by auto. f_equal.
    cbn [DecimalPos.Unsigned.of_lu]. lia.
  - cbn [NilEmpty.string_of_uint int_digits Decimal.revapp].
    change (digit_of "1") with (Some 1).
    rewrite <- (IH (Decimal.D1 a) true) by auto. f_equal.
    cbn [DecimalPos.Unsigned.of_lu]. lia.
  - cbn [NilEmpty.string_of_uint int_digits Decimal.revapp].
    change (digit_of "2") with (Some 2).
    rewrite <- (IH (Decimal.D2 a) true) by auto. f_equal.
    cbn [DecimalPos.Unsigned.of_lu]. lia.
  - cbn [NilEmpty.string_of_uint int_digits Decimal.revapp].
    change (digit_of "3") with (Some 3).
    rewrite <- (IH (Decimal.D3 a) true) by auto. f_equal.
    cbn [DecimalPos.Unsigned.of_lu]. lia.
  - cbn [NilEmpty.string_of_uint int_digits Decimal.revapp].
    change (digit_of "4") with (Some 4).
    rewrite <- (IH (Decimal.D4 a) true) by auto. f_equal.
    cbn [DecimalPos.Unsigned.of_lu]. lia.
  - cbn [NilEmpty.string_of_uint int_digits Decimal.revapp].
    change (digit_of "5") with (Some 5).
    rewrite <- (IH (Decimal.D5 a) true) by auto. f_equal.
    cbn [DecimalPos.Unsigned.of_lu]. lia.
  - cbn [NilEmpty.string_of_uint int_digits Decimal.revapp].
    change (digit_of "6") with (Some 6).
    rewrite <- (IH (Decimal.D6 a) true) by auto. f_equal.
    cbn [DecimalPos.Unsigned.of_lu]. lia.
  - cbn [NilEmpty.string_of_uint int_digits Decimal.revapp].
    change (digit_of "7") with (Some 7).
    rewrite <- (IH (Decimal.D7 a) true) by auto. f_equal.
    cbn [DecimalPos.Unsigned.of_lu]. lia.
  - cbn [NilEmpty.string_of_uint int_digits Decimal.revapp].
    change (digit_of "8") with (Some 8).
    rewrite <- (IH (Decimal.D8 a) true) by auto. f_equal.
    cbn [DecimalPos.Unsigned.of_lu]. lia.
  - cbn [NilEmpty.string_of_uint int_digits Decimal.revapp].
    change (digit_of "9") with (Some 9).
    rewrite <- (IH (Decimal.D9 a) true) by auto. f_equal.
    cbn [DecimalPos.Unsigned.of_lu]. lia.
Qed.

Lemma int_digits_to_uint (p : positive) :
  int_digits 0 false (NilEmpty.string_of_uint (Pos.to_uint p)) = Some (Z.pos p).
Proof.
  pose proof (int_digits_of_uint (Pos.to_uint p) Decimal.Nil false
                (or_introl (DecimalPos.Unsigned.to_uint_nonnil p))) as H.
  change (Z.of_N (DecimalPos.Unsigned.of_lu Decimal.Nil)) with 0 in H.
  rewrite H.
  change (Decimal.revapp (Pos.to_uint p) Decimal.Nil) with (Decimal.rev (Pos.to_uint p)).
  now rewrite <- DecimalPos.Unsigned.of_uint_alt, DecimalPos.Unsigned.of_to.
Qed.

Lemma digits_not_space (d : Decimal.uint) :
  all_chars (λ c, negb (isspace c)) (NilEmpty.string_of_uint d) = true.
Proof. induction d; cbn; auto. Qed.

Lemma rstrip_nothing p s :
  all_chars (λ c, negb (p c)) s = true → rstrip p s = s.
Proof.
  induction s as [|c s IH]; [reflexivity|]. cbn [all_chars rstrip].
  intros [Hc Hs]%andb_prop. rewrite (IH Hs).
  destruct s; [|reflexivity]. apply negb_true_iff in Hc. now rewrite Hc.
Qed.

Lemma strip_nothing p s :
  all_chars (λ c, negb (p c)) s = true → strip p s = s.
Proof.
  intros H. unfold strip.
  assert (Hl : lstrip p s = s).
  { destruct s as [|c s]; [reflexivity|]. cbn [all_chars lstrip] in *.
    apply andb_prop in H as [Hc _]. apply negb_true_iff in Hc. now rewrite Hc. }
  rewrite Hl. now apply rstrip_nothing.
Qed.

Lemma int_of_digits_string (d : Decimal.uint) :
  d ≠ Decimal.Nil →
  int_of_str (NilEmpty.string_of_uint d)
  = int_digits 0 false (NilEmpty.string_of_uint d).
Proof.
  intros Hd. unfold int_of_str. rewrite strip_nothing by apply digits_not_space.
  destruct d; [congruence | reflexivity..].
Qed.

(** Reading back the decimal text of an integer gives the integer: the
    text Python prints for an id is a text [int] accepts, with the same
    value.  So two ids print alike only if they are equal. *)
Theorem int_of_str_of_int (n : Z) :
  int_of_str (str n) = Some n ∧ ∀ m, str n = str m → n = m.
Proof.
  assert (Hrt : ∀ k, int_of_str (str k) = Some k).
  { intros [|p|p]; unfold str; cbn [Z.to_int NilEmpty.string_of_int].
    - reflexivity.
    - rewrite int_of_digits_string by apply DecimalPos.Unsigned.to_uint_nonnil.
      apply int_digits_to_uint.
    - unfold int_of_str.
      rewrite strip_nothing by (cbn [all_chars]; rewrite digits_not_space; reflexivity).
      rewrite int_digits_to_uint. reflexivity. }
  split; [apply Hrt|]. intros m Heq.
  pose proof (Hrt n) as Hn. rewrite Heq, Hrt in Hn. congruence.
Qed.

Lemma int_of_str_of_int_witness :
  str 305 = "305" ∧ int_of_str (str 305) = Some 305
  ∧ int_of_str (str (-12)) = Some (-12) ∧ str 305 ≠ str 350.
Proof.
  split; [reflexivity|].
  split; [exact (proj1 (int_of_str_of_int 305))|].
  split; [exact (proj1 (int_of_str_of_int (-12)))|].
  intros H. apply (proj2 (int_of_str_of_int 305) 350) in H. discriminate H.
Defined.

(** ** Attachment bodies *)

Lemma prefix_append (p t : string) :
  String.prefix p t = true → ∃ r, t = p ++ r.
Proof.
  revert t. induction p as [|a p IH]; intros t.
  - intros _. now exists t.
  - destruct t as [|b t]; cbn [String.prefix]; [intros H; discriminate H|].
    destruct (ascii_dec a b) as [->|]; [|intros H; discriminate H].
    intros H. destruct (IH t H) as [r ->]. now exists r.
Qed.

Lemma char_in_append c a b : char_in c (a ++ b) = char_in c a || char_in c b.
Proof.
  induction a as [|x a IH]; [reflexivity|].
  rewrite append_cons. cbn [char_in]. now rewrite IH, orb_assoc.
Qed.

Lemma split_on_no_comma (s piece : string) :
  char_in "," s = false →
  split_on "base64," 0 piece s = [piece ++ s].
Proof.
  revert piece. induction s as [|c s IH]; intros piece Hs.
  - cbn [split_on]. now rewrite append_nil_r.
  - cbn [split_on].
    destruct (String.prefix "base64," (String c s)) eqn:Hp.
    + apply prefix_append in Hp as [r Hr]. rewrite Hr in Hs.
      rewrite char_in_append in Hs. apply orb_false_iff in Hs as [Hs _].
      vm_compute in Hs. discriminate Hs.
    + cbn [char_in] in Hs. apply orb_false_iff in Hs as [_ Hs].
      rewrite (IH _ Hs). now rewrite append_char.
Qed.

Lemma encode_ascii (s : string) :
  all_chars (λ c, code c <? 128) s = true → encode s = s.
Proof.
  induction s as [|c s IH]; [reflexivity|]. cbn [all_chars encode].
  intros [Hc Hs]%andb_prop. now rewrite Hc, IH.
Qed.

(** A body that is plain ASCII without a comma, as base64 text is, is
    stored unchanged: nothing is taken for a data-URI prefix and the
    encoding to bytes is the identity. *)
Theorem plain_body_stored_as_is (body : string) :
  char_in "," body = false →
  all_chars (λ c, code c <? 128) body = true →
  encode (after_base64_prefix body) = body.
Proof.
  intros Hcomma Hascii. unfold after_base64_prefix.
  rewrite split_on_no_comma by exact Hcomma.
  cbn [List.last]. rewrite append_nil_l. now apply encode_ascii.
Qed.

Lemma plain_body_stored_as_is_witness :
  encode (after_base64_prefix "aGVsbG8gd29ybGQ=") = "aGVsbG8gd29ybGQ=".
Proof.
  apply plain_body_stored_as_is; vm_compute; reflexivity.
Defined.

(** ** Statistics *)

(** Before any cron job has run the endpoint answers: the photometry count
    is the catalogue's estimate, whatever the photometry table holds; the
    seven other counts are the numbers of rows of their tables; each of
    the three timestamps is absent exactly when its query has no row; the
    cron report is empty. *)
Theorem statistics_without_cron_runs (d : ST.db) (estimate : Z) :
  head (ST.reltuples d "photometry") = Some estimate →
  ST.cron_job_runs d = [] →
  ∃ stats,
    run ST.get d = Outcome (Returned (Success stats)) d [] [] []
    ∧ ST.number_of_photometry_approx stats = estimate
    ∧ (∀ rows, ended (run ST.get (with_photometry d rows)) = Returned (Success stats))
    ∧ (ST.number_of_candidates stats = Z.of_nat (length (ST.candidates d))
       ∧ ST.number_of_sources stats = Z.of_nat (length (ST.sources d))
       ∧ ST.number_of_objs stats = Z.of_nat (length (ST.objs d))
       ∧ ST.number_of_spectra stats = Z.of_nat (length (ST.spectra d))
       ∧ ST.number_of_groups stats = Z.of_nat (length (ST.groups d))
       ∧ ST.number_of_users stats = Z.of_nat (length (ST.users d))
       ∧ ST.number_of_tokens stats = Z.of_nat (length (ST.tokens d)))
    ∧ (ST.oldest_candidate_creation_datetime stats = None ↔ ST.candidates d = [])
    ∧ (ST.newest_candidate_creation_datetime stats = None ↔ ST.candidates d = [])
    ∧ (ST.oldest_unsaved_candidate_creation_datetime stats = None
       ↔ ∀ cand, cand ∈ ST.candidates d →
           Candidate.obj_id cand ∈ Source.obj_id <$> ST.sources d)
    ∧ ST.latest_cron_job_runs stats = [].
Proof.
  intros Hest Hruns. eexists. split; [apply (stats_get_run d estimate Hest Hruns)|].
  cbn [ST.number_of_photometry_approx ST.number_of_candidates ST.number_of_sources
       ST.number_of_objs ST.number_of_spectra ST.number_of_groups ST.number_of_users
       ST.number_of_tokens ST.oldest_candidate_creation_datetime
       ST.newest_candidate_creation_datetime
       ST.oldest_unsaved_candidate_creation_datetime ST.latest_cron_job_runs].
  split; [reflexivity|]. split.
  { intros rows. now rewrite (stats_get_run (with_photometry d rows) estimate Hest Hruns). }
  split; [repeat split|].
  rewrite !fmap_None, !first_by_None. split; [reflexivity|]. split; [reflexivity|].
  split; [|reflexivity]. split.
  - intros Hnil cand Hin.
    destruct (decide (Candidate.obj_id cand ∈ Source.obj_id <$> ST.sources d))
      as [H|H]; [exact H|].
    assert (Hf : cand ∈ filter (ST.unsaved d) (ST.candidates d)).
    { apply list_elem_of_filter. split; [exact H | exact Hin]. }
    rewrite Hnil in Hf. inversion Hf.
  - intros Hall. destruct (filter (ST.unsaved d) (ST.candidates d)) as [|cand l] eqn:E;
      [reflexivity|].
    assert (Hf : cand ∈ filter (ST.unsaved d) (ST.candidates d)).
    { rewrite E. now left. }
    apply list_elem_of_filter in Hf as (Hun & Hin). destruct (Hun (Hall cand Hin)).
Qed.

(** In the scenario without runs: the catalogue estimates 1200 photometry
    rows where the table has 2; the oldest candidate dates from 20, the
    newest from 90, the oldest without a saved source from 50. *)
Lemma statistics_without_cron_runs_witness :
  head (ST.reltuples Scenario.statistics_store_without_runs "photometry") = Some 1200
  ∧ Z.of_nat (length (ST.photometry Scenario.statistics_store_without_runs)) = 2
  ∧ ∃ stats,
      ended (run ST.get Scenario.statistics_store_without_runs)
      = Returned (Success stats)
      ∧ ST.number_of_photometry_approx stats = 1200
      ∧ ST.number_of_candidates stats = 3
      ∧ ST.oldest_candidate_creation_datetime stats = Some 20
      ∧ ST.newest_candidate_creation_datetime stats = Some 90
      ∧ ST.oldest_unsaved_candidate_creation_datetime stats = Some 50.
Proof.
  assert (Hest : head (ST.reltuples Scenario.statistics_store_without_runs "photometry")
                 = Some 1200) by (vm_compute; reflexivity).
  split; [exact Hest|]. split; [reflexivity|].
  destruct (statistics_without_cron_runs Scenario.statistics_store_without_runs 1200
              Hest eq_refl)
    as (stats & Hrun & Happrox & _ & (Hcand & _) & _).
  exists stats. split; [now rewrite Hrun|]. split; [exact Happrox|].
  split; [exact Hcand|].
  assert (Hstats : ended (run ST.get Scenario.statistics_store_without_runs)
                   = Returned (Success stats)) by now rewrite Hrun.
  vm_compute in Hstats. injection Hstats as <-. repeat split.
Defined.

(** Before any cron job has run, the oldest and newest timestamps reported
    are timestamps of candidates, and bound those of every candidate from
    below and above; the oldest unsaved one is that of a candidate without
    a saved source, and no such candidate is older. *)
Theorem statistics_timestamps (d : ST.db) (estimate : Z) :
  head (ST.reltuples d "photometry") = Some estimate →
  ST.cron_job_runs d = [] →
  ∃ stats,
    ended (run ST.get d) = Returned (Success stats)
    ∧ (∀ t, ST.oldest_candidate_creation_datetime stats = Some t →
         (∃ cand, cand ∈ ST.candidates d ∧ Candidate.created_at cand = t)
         ∧ ∀ cand, cand ∈ ST.candidates d → t ≤ Candidate.created_at cand)
    ∧ (∀ t, ST.newest_candidate_creation_datetime stats = Some t →
         (∃ cand, cand ∈ ST.candidates d ∧ Candidate.created_at cand = t)
         ∧ ∀ cand, cand ∈ ST.candidates d → Candidate.created_at cand ≤ t)
    ∧ (∀ t, ST.oldest_unsaved_candidate_creation_datetime stats = Some t →
         (∃ cand, cand ∈ ST.candidates d ∧ ST.unsaved d cand
                  ∧ Candidate.created_at cand = t)
         ∧ ∀ cand, cand ∈ ST.candidates d → ST.unsaved d cand →
                   t ≤ Candidate.created_at cand).
Proof.
  intros Hest Hruns. eexists. rewrite (stats_get_run d estimate Hest Hruns).
  cbn [ended]. split; [reflexivity|].
  cbn [ST.oldest_candidate_creation_datetime ST.newest_candidate_creation_datetime
       ST.oldest_unsaved_candidate_creation_datetime].
  split; [|split].
  - intros t Ht. apply fmap_Some in Ht as (cand & Hf & ->).
    apply first_by_least in Hf as (Hin & Hmin). split; [eauto | exact Hmin].
  - intros t Ht. apply fmap_Some in Ht as (cand & Hf & ->).
    apply first_by_least in Hf as (Hin & Hmin). split; [eauto|].
    intros c Hc. specialize (Hmin c Hc). cbn beta in Hmin. lia.
  - intros t Ht. apply fmap_Some in Ht as (cand & Hf & ->).
    apply first_by_least in Hf as (Hin & Hmin).
    apply list_elem_of_filter in Hin as (Hun & Hin). split; [eauto|].
    intros c Hc Hcu. apply Hmin. now apply list_elem_of_filter.
Qed.

Lemma statistics_timestamps_witness :
  head (ST.reltuples Scenario.statistics_store_without_runs "photometry") = Some 1200
  ∧ ∃ stats,
      ended (run ST.get Scenario.statistics_store_without_runs)
      = Returned (Success stats)
      ∧ (∀ cand, cand ∈ ST.candidates Scenario.statistics_store_without_runs →
                 20 ≤ Candidate.created_at cand ≤ 90).
Proof.
  assert (Hest : head (ST.reltuples Scenario.statistics_store_without_runs "photometry")
                 = Some 1200) by (vm_compute; reflexivity).
  split; [exact Hest|].
  destruct (statistics_timestamps Scenario.statistics_store_without_runs 1200 Hest eq_refl)
    as (stats & Hrun & Hold & Hnew & _).
  exists stats. split; [exact Hrun|].
  assert (Hstats : ended (run ST.get Scenario.statistics_store_without_runs)
                   = Returned (Success stats)) by exact Hrun.
  vm_compute in Hstats. injection Hstats as <-.
  intros cand Hin. split.
  - exact (proj2 (Hold 20 eq_refl) cand Hin).
  - exact (proj2 (Hnew 90 eq_refl) cand Hin).
Defined.

(** Without a row for the photometry table in the catalogue there is no
    first row to index: the endpoint ends in IndexError and reports
    nothing. *)
Theorem statistics_without_catalogue_row (d : ST.db) :
  (∀ row, row ∈ ST.pg_class d → row.1 ≠ "photometry") →
  run ST.get d = Outcome (Raised IndexError) d [] [] [].
Proof.
  intros Hno.
  assert (Hnil : ST.reltuples d "photometry" = []).
  { unfold ST.reltuples.
    assert (Hf : filter (λ r : string * Z, r.1 = "photometry") (ST.pg_class d) = []).
    { induction (ST.pg_class d) as [|row l IH]; [reflexivity|].
      rewrite filter_cons_False.
      - apply IH. intros r Hr. apply Hno. now right.
      - apply Hno. now left. }
    now rewrite Hf. }
  unfold ST.get. exec. rewrite Hnil. exec. reflexivity.
Qed.

Lemma statistics_without_catalogue_row_witness :
  ended (run ST.get (ST.Db [("objs", 3)] [] [] [] [] [] [] [] [] [])) = Raised IndexError.
Proof.
  rewrite statistics_without_catalogue_row; [reflexivity|].
  intros row [->|H]%elem_of_cons; [discriminate | inversion H].
Defined.
